(** * LearnHelper analytics page: the aggregation code of
      [src/pages/analytics.tsx], embedded as Rocq functions.

    Modelling conventions.

    - A JavaScript number is a [number]: [NaN], the two infinities, or a
      finite value carried as an exact rational.  Arithmetic on finite values
      is exact; binary64 rounding and the sign of zero are not represented.
      Every comparison the page makes against a bucket bound is between
      [ms / 3600000] for an integer [ms] and a small integer, where exact and
      rounded arithmetic agree.
    - A [Date] is its time value: integer milliseconds since the epoch, or
      [InvalidDate] whose time value is [NaN].  The limit of 8.64e15 on the
      size of a time value is not represented.
    - Local-time getters ([getDay], [getHours], [getDate], ...) are taken in a
      zone with a fixed offset [tz] from UTC (no daylight-saving changes), in
      milliseconds.
    - [undefined] is [None]; an index of [-1] from [findIndex] is [None].
    - React's [useMemo] caches a pure computation, so each memoised constant
      becomes a function of the values it reads. *)

From Stdlib Require Import ZArith QArith Qround Lqa Lia List String Ascii Bool
  DecimalString.
From stdpp Require Import gmap strings.
Import ListNotations.

Local Open Scope Z_scope.

(** ** JavaScript numbers *)

Inductive number : Type :=
  | NaN
  | NegInfinity
  | Num (q : Q)
  | Infinity.

Definition Qlt_bool (x y : Q) : bool := negb (Qle_bool y x).

Definition ofZ (z : Z) : number := Num (inject_Z z).
Definition ofNat (n : nat) : number := Num (inject_Z (Z.of_nat n)).

(** [a < b] *)
Definition num_lt (a b : number) : bool :=
  match a, b with
  | NaN, _ | _, NaN => false
  | _, NegInfinity => false
  | NegInfinity, _ => true
  | Infinity, _ => false
  | Num _, Infinity => true
  | Num x, Num y => Qlt_bool x y
  end.

(** [a <= b] *)
Definition num_le (a b : number) : bool :=
  match a, b with
  | NaN, _ | _, NaN => false
  | NegInfinity, _ => true
  | _, Infinity => true
  | _, NegInfinity => false
  | Infinity, _ => false
  | Num x, Num y => Qle_bool x y
  end.

(** [a > b] and [a >= b] *)
Definition num_gt (a b : number) : bool := num_lt b a.
Definition num_ge (a b : number) : bool := num_le b a.

Definition num_opp (a : number) : number :=
  match a with
  | NaN => NaN
  | NegInfinity => Infinity
  | Num x => Num (- x)
  | Infinity => NegInfinity
  end.

Definition num_add (a b : number) : number :=
  match a, b with
  | NaN, _ | _, NaN => NaN
  | Infinity, NegInfinity | NegInfinity, Infinity => NaN
  | Infinity, _ | _, Infinity => Infinity
  | NegInfinity, _ | _, NegInfinity => NegInfinity
  | Num x, Num y => Num (x + y)
  end.

Definition num_sub (a b : number) : number := num_add a (num_opp b).

(** The infinity with the sign of [s * x]; [NaN] when [x] is zero. *)
Definition signed_inf (s : bool) (x : Q) : number :=
  if Qeq_bool x 0 then NaN
  else if Bool.eqb s (Qlt_bool 0 x) then Infinity else NegInfinity.

Definition num_mul (a b : number) : number :=
  match a, b with
  | NaN, _ | _, NaN => NaN
  | Num x, Num y => Num (x * y)
  | Infinity, Infinity | NegInfinity, NegInfinity => Infinity
  | Infinity, NegInfinity | NegInfinity, Infinity => NegInfinity
  | Infinity, Num x | Num x, Infinity => signed_inf true x
  | NegInfinity, Num x | Num x, NegInfinity => signed_inf false x
  end.

Definition num_div (a b : number) : number :=
  match a, b with
  | NaN, _ | _, NaN => NaN
  | Num x, Num y => if Qeq_bool y 0 then signed_inf true x else Num (x / y)
  | Num _, _ => Num 0
  | Infinity, Num y => if Qlt_bool y 0 then NegInfinity else Infinity
  | NegInfinity, Num y => if Qlt_bool y 0 then Infinity else NegInfinity
  | _, _ => NaN
  end.

(** [Number.isFinite] *)
Definition isFinite (a : number) : bool :=
  match a with Num _ => true | _ => false end.

(** [Math.min(a, b)] *)
Definition Math_min (a b : number) : number :=
  match a, b with
  | NaN, _ | _, NaN => NaN
  | _, _ => if num_le a b then a else b
  end.

(** [Math.max(a, b)] *)
Definition Math_max (a b : number) : number :=
  match a, b with
  | NaN, _ | _, NaN => NaN
  | _, _ => if num_le a b then b else a
  end.

(** [Math.round]: the nearest integer, ties towards plus infinity. *)
Definition Math_round (a : number) : number :=
  match a with
  | Num x => ofZ (Qfloor (x + (1 # 2)))
  | _ => a
  end.

(** [Math.ceil] *)
Definition Math_ceil (a : number) : number :=
  match a with
  | Num x => ofZ (Qceiling x)
  | _ => a
  end.

(** ** Dates *)

Inductive Date : Type :=
  | mkDate (t : Z)
  | InvalidDate.

Definition getTime (d : Date) : number :=
  match d with
  | mkDate t => ofZ t
  | InvalidDate => NaN
  end.

(** [!Number.isNaN(date.getTime())] *)
Definition validDate (d : Date) : bool :=
  match d with mkDate _ => true | InvalidDate => false end.

(** [new Date(n)], used on time values only: integers, or [NaN]. *)
Definition Date_of_number (n : number) : Date :=
  match n with
  | Num q => mkDate (Qfloor q)
  | _ => InvalidDate
  end.

Definition msPerHour : Z := 3600000.
Definition msPerDay : Z := 86400000.

(** Days since 1970-01-01 to (year, month 1..12, day of month) in the
    proleptic Gregorian calendar, by eras of 400 years starting on 1 March. *)
Definition civil_from_days (days : Z) : Z * Z * Z :=
  let z := days + 719468 in
  let era := z / 146097 in
  let doe := z - era * 146097 in
  let yoe := (doe - doe / 1460 + doe / 36524 - doe / 146096) / 365 in
  let doy := doe - (365 * yoe + yoe / 4 - yoe / 100) in
  let mp := (5 * doy + 2) / 153 in
  let d := doy - (153 * mp + 2) / 5 + 1 in
  let m := if mp <? 10 then mp + 3 else mp - 9 in
  let y := yoe + era * 400 + (if m <=? 2 then 1 else 0) in
  (y, m, d).

(** Getters return [None] for [NaN]. *)
Section LocalTime.
Variable tz : Z.

Definition localDay (t : Z) : Z := (t + tz) / msPerDay.
Definition localTimeInDay (t : Z) : Z := (t + tz) mod msPerDay.

Definition getDay (d : Date) : option Z :=
  match d with
  | mkDate t => Some ((localDay t + 4) mod 7)
  | InvalidDate => None
  end.

Definition getHours (d : Date) : option Z :=
  match d with
  | mkDate t => Some (localTimeInDay t / msPerHour)
  | InvalidDate => None
  end.

Definition getFullYear (d : Date) : option Z :=
  match d with
  | mkDate t => let '(y, _, _) := civil_from_days (localDay t) in Some y
  | InvalidDate => None
  end.

(** Months are numbered from 0. *)
Definition getMonth (d : Date) : option Z :=
  match d with
  | mkDate t => let '(_, m, _) := civil_from_days (localDay t) in Some (m - 1)
  | InvalidDate => None
  end.

Definition getDate (d : Date) : option Z :=
  match d with
  | mkDate t => let '(_, _, dd) := civil_from_days (localDay t) in Some dd
  | InvalidDate => None
  end.

(** [date.setDate(date.getDate() + offset)] on a copy: the same local time
    of day, [offset] calendar days later. *)
Definition addDays (date : Date) (offset : Z) : Date :=
  match date with
  | mkDate t => mkDate (t + offset * msPerDay)
  | InvalidDate => InvalidDate
  end.

(** Back to the Sunday of the date's week, at local midnight. *)
Definition startOfWeek (date : Date) : Date :=
  match date, getDay date with
  | mkDate t, Some diff => mkDate (t - diff * msPerDay - localTimeInDay (t - diff * msPerDay))
  | _, _ => InvalidDate
  end.
End LocalTime.

(** ** Records *)

Inductive SizeValue : Type :=
  | SizeNumber (n : number)
  | SizeString (s : string).

Record RemoteFile : Type := mkRemoteFile {
  size : option SizeValue
}.

Record Homework : Type := mkHomework {
  id : string;
  courseId : string;
  title : string;
  deadline : option Date;
  submitted : bool;
  submitTime : option Date;
  submittedAttachment : option RemoteFile
}.

Record Semester : Type := mkSemester {
  startDate : option Date;
  endDate : option Date
}.

Record BarItem : Type := mkBarItem {
  bar_label : string;
  bar_value : nat
}.

Record LineItem : Type := mkLineItem {
  line_label : string;
  line_value : nat
}.

Record HeatCell : Type := mkHeatCell {
  cell_label : string;
  cell_value : nat
}.

(** ** Range buckets *)

Record Bucket : Type := mkBucket {
  label : string;
  min : number;
  max : number
}.

(** [value > b.min && value <= b.max] *)
Definition inBucket (value : number) (b : Bucket) : bool :=
  num_gt value (min b) && num_le value (max b).

(** [Array.prototype.findIndex]; [None] stands for [-1]. *)
Fixpoint findIndex {A : Type} (p : A -> bool) (l : list A) : option nat :=
  match l with
  | [] => None
  | x :: l' => if p x then Some O else option_map S (findIndex p l')
  end.

(** [if (idx >= 0) counts[idx] += 1]; the index found is always within the
    array, so the out-of-range behaviour of the update is never reached. *)
Definition bump (idx : option nat) (counts : list nat) : list nat :=
  match idx with
  | Some i => alter S i counts
  | None => counts
  end.

(** [buckets.map((bucket, idx) => ({ label: bucket.label, value: counts[idx] }))] *)
Definition bucketItems (buckets : list Bucket) (counts : list nat) : list BarItem :=
  imap (fun idx b => mkBarItem (label b) (default O (counts !! idx))) buckets.

(** ** Derived record sets *)

Definition isSome {A : Type} (o : option A) : bool :=
  match o with Some _ => true | None => false end.

Definition submittedAll (homeworks : list Homework) : list Homework :=
  List.filter submitted homeworks.

Definition submittedHomeworks (homeworks : list Homework) : list Homework :=
  List.filter (fun h => isSome (submitTime h)) (submittedAll homeworks).

(** [submittedCount / totalCount], guarded. *)
Definition submissionRate (homeworks : list Homework) : number :=
  let submittedCount := length (submittedAll homeworks) in
  let totalCount := length homeworks in
  if Nat.eqb totalCount 0 then ofZ 0 else num_div (ofNat submittedCount) (ofNat totalCount).

(** [(deadline.getTime() - submitTime.getTime()) / 3600000] *)
Definition diffHoursOf (later earlier : number) : number :=
  num_div (num_sub later earlier) (ofZ msPerHour).

(** The time value of [hw.submitTime] for a record of [submittedHomeworks]. *)
Definition submitTimeValue (hw : Homework) : number :=
  match submitTime hw with
  | Some d => getTime d
  | None => NaN
  end.

Definition lagBuckets : list Bucket :=
  [ mkBucket "逾期" NegInfinity (ofZ 0);
    mkBucket "0-6小时" (ofZ 0) (ofZ 6);
    mkBucket "6-24小时" (ofZ 6) (ofZ 24);
    mkBucket "1-3天" (ofZ 24) (ofZ 72);
    mkBucket "3天以上" (ofZ 72) Infinity ].

(** The loop of [submissionLagBuckets] over the records, threading [counts]. *)
Fixpoint lagCounts (hws : list Homework) (counts : list nat) : list nat :=
  match hws with
  | [] => counts
  | hw :: rest =>
      match deadline hw with
      | None => lagCounts rest counts
      | Some dl =>
          let diffHours := diffHoursOf (getTime dl) (submitTimeValue hw) in
          let idx := findIndex (inBucket diffHours) lagBuckets in
          lagCounts rest (bump idx counts)
      end
  end.

Definition submissionLagBuckets (homeworks : list Homework) : list BarItem :=
  let counts := lagCounts (submittedHomeworks homeworks) (replicate (length lagBuckets) O) in
  bucketItems lagBuckets counts.

(** ** Lead hours and the rates over them *)

Definition leadHours (homeworks : list Homework) : list number :=
  let sh := submittedHomeworks homeworks in
  if Nat.eqb (length sh) 0 then []
  else
    List.map
      (fun hw =>
         match deadline hw with
         | Some dl => diffHoursOf (getTime dl) (submitTimeValue hw)
         | None => NaN
         end)
      (List.filter (fun hw => isSome (deadline hw)) sh).

(** [last6Rate] and [last24Rate] are memoised on [leadHours] alone. *)
Definition last6Rate (leadHours : list number) : number :=
  if Nat.eqb (length leadHours) 0 then ofZ 0
  else
    let count :=
      length (List.filter (fun h => num_ge h (ofZ 0) && num_le h (ofZ 6)) leadHours) in
    num_div (ofNat count) (ofNat (length leadHours)).

Definition last24Rate (leadHours : list number) : number :=
  if Nat.eqb (length leadHours) 0 then ofZ 0
  else
    let count :=
      length (List.filter (fun h => num_ge h (ofZ 0) && num_le h (ofZ 24)) leadHours) in
    num_div (ofNat count) (ofNat (length leadHours)).

(** Comparisons of a getter result against an integer; [NaN] compares false. *)
Definition ge_int (x : option Z) (k : Z) : bool :=
  match x with Some v => k <=? v | None => false end.
Definition lt_int (x : option Z) (k : Z) : bool :=
  match x with Some v => v <? k | None => false end.
Definition eq_int (x : option Z) (k : Z) : bool :=
  match x with Some v => v =? k | None => false end.

(** The hour and weekday of [hw.submitTime]. *)
Definition submitHour (tz : Z) (hw : Homework) : option Z :=
  match submitTime hw with Some d => getHours tz d | None => None end.
Definition submitDay (tz : Z) (hw : Homework) : option Z :=
  match submitTime hw with Some d => getDay tz d | None => None end.

Definition nightRate (tz : Z) (homeworks : list Homework) : number :=
  let sh := submittedHomeworks homeworks in
  if Nat.eqb (length sh) 0 then ofZ 0
  else
    let nightCount :=
      length (List.filter (fun hw => let hour := submitHour tz hw in
                                     ge_int hour 22 || lt_int hour 6) sh) in
    num_div (ofNat nightCount) (ofNat (length sh)).

Definition weekendRate (tz : Z) (homeworks : list Homework) : number :=
  let sh := submittedHomeworks homeworks in
  if Nat.eqb (length sh) 0 then ofZ 0
  else
    let weekendCount :=
      length (List.filter (fun hw => let day := submitDay tz hw in
                                     eq_int day 0 || eq_int day 6) sh) in
    num_div (ofNat weekendCount) (ofNat (length sh)).

Definition lateRate (homeworks : list Homework) : number :=
  let sh := submittedHomeworks homeworks in
  if Nat.eqb (length sh) 0 then ofZ 0
  else
    let lateCount :=
      length (List.filter
                (fun hw =>
                   match deadline hw with
                   | Some dl => num_gt (submitTimeValue hw) (getTime dl)
                   | None => false
                   end) sh) in
    num_div (ofNat lateCount) (ofNat (length sh)).

(** ** Pending risk *)

Definition riskBuckets : list Bucket :=
  [ mkBucket "<6小时" (ofZ 0) (ofZ 6);
    mkBucket "6-24小时" (ofZ 6) (ofZ 24);
    mkBucket "1-3天" (ofZ 24) (ofZ 72);
    mkBucket "3天以上" (ofZ 72) Infinity ].

Definition pending (homeworks : list Homework) : list Homework :=
  List.filter (fun hw => negb (submitted hw) && isSome (deadline hw)) homeworks.

(** Hours from [now] until the deadline of a record of [pending]. *)
Definition hoursUntil (now : number) (hw : Homework) : number :=
  match deadline hw with
  | Some dl => diffHoursOf (getTime dl) now
  | None => NaN
  end.

Fixpoint riskCounts (now : number) (hws : list Homework) (counts : list nat) : list nat :=
  match hws with
  | [] => counts
  | hw :: rest =>
      let diffHours := hoursUntil now hw in
      if num_lt diffHours (ofZ 0) then riskCounts now rest counts
      else
        let idx := findIndex (inBucket diffHours) riskBuckets in
        riskCounts now rest (bump idx counts)
  end.

Record PendingRisk : Type := mkPendingRisk {
  risk_total : nat;
  riskScore : number;
  risk_items : list BarItem
}.

(** [now] is the value the page reads from [Date.now()]. *)
Definition pendingRisk (now : number) (homeworks : list Homework) : PendingRisk :=
  let counts := riskCounts now (pending homeworks) (replicate (length riskBuckets) O) in
  let soonCount := (default O (counts !! 0%nat) + default O (counts !! 1%nat))%nat in
  let total := fold_left Nat.add counts O in
  let riskScore := if Nat.eqb total 0 then ofZ 0 else num_div (ofNat soonCount) (ofNat total) in
  mkPendingRisk total riskScore (bucketItems riskBuckets counts).

(** ** Day keys *)

(** [String(n)] for an integer or [NaN]. *)
Definition toString (n : option Z) : string :=
  match n with
  | Some z => NilZero.string_of_int (Z.to_int z)
  | None => "NaN"
  end.

(** [s.padStart(2, '0')] *)
Definition padStart2 (s : string) : string :=
  match String.length s with
  | 0%nat => "00" +:+ s
  | 1%nat => "0" +:+ s
  | _ => s
  end.

Definition pad2 (num : option Z) : string := padStart2 (toString num).

(** [x + 1] where [x] may be [NaN]. *)
Definition succ_int (x : option Z) : option Z := option_map (Z.add 1) x.

Definition formatDateKey (tz : Z) (date : Date) : string :=
  toString (getFullYear tz date) +:+ "-" +:+ pad2 (succ_int (getMonth tz date))
    +:+ "-" +:+ pad2 (getDate tz date).

(** [hw.submitTime] for a record of [submittedHomeworks]. *)
Definition submitDate (hw : Homework) : Date :=
  match submitTime hw with
  | Some d => d
  | None => InvalidDate
  end.

(** The [counts] map of submissions per day key, built by one pass with
    [counts.set(key, (counts.get(key) ?? 0) + 1)]. *)
Definition countByDay (tz : Z) (hws : list Homework) : gmap string nat :=
  fold_left
    (fun counts hw =>
       let key := formatDateKey tz (submitDate hw) in
       <[ key := S (default O (counts !! key)) ]> counts)
    hws ∅.

(** ** Calendar heat map *)

Record CalendarHeatmap : Type := mkCalendarHeatmap {
  weeks : list (list HeatCell);
  cal_max : nat;
  weekLabels : list string
}.

Definition weeksCount : nat := 16.

(** [Math.max(...xs)] *)
Definition Math_max_list (xs : list number) : number :=
  fold_left Math_max xs NegInfinity.

(** [month !== lastMonth] on numbers: [NaN] differs from everything. *)
Definition int_neq (a b : option Z) : bool :=
  match a, b with
  | Some x, Some y => negb (x =? y)
  | _, _ => true
  end.

(** The inner loop over [d = 0 .. 6] of one week, threading [max]. *)
Definition calendarWeek (tz : Z) (counts : gmap string nat) (startDate : Date)
    (w : nat) (max0 : nat) : list HeatCell * nat :=
  fold_left
    (fun '(week, mx) d =>
       let date := addDays startDate (Z.of_nat (w * 7 + d)) in
       let key := formatDateKey tz date in
       let value := default O (counts !! key) in
       (week ++ [mkHeatCell key value], if (mx <? value)%nat then value else mx))
    (seq 0 7) ([], max0).

(** The state of the outer loop: [weeks], [weekLabels], [max], [lastMonth]. *)
Definition calendarStep (tz : Z) (counts : gmap string nat) (startDate : Date)
    (st : list (list HeatCell) * list string * nat * option Z) (w : nat)
    : list (list HeatCell) * list string * nat * option Z :=
  let '(wks, labels, mx, lastMonth) := st in
  let weekStart := addDays startDate (Z.of_nat (w * 7)) in
  let month := getMonth tz weekStart in
  let '(labels', lastMonth') :=
    if int_neq month lastMonth
    then (labels ++ [toString (succ_int month) +:+ "月"], month)
    else (labels ++ [EmptyString], lastMonth) in
  let '(week, mx') := calendarWeek tz counts startDate w mx in
  (wks ++ [week], labels', mx', lastMonth').

(** The first day of the grid: [startOfWeek(addDays(maxDate, -(weeksCount * 7 - 1)))]. *)
Definition calendarStart (tz : Z) (sh : list Homework) : Date :=
  let maxDate := Date_of_number (Math_max_list (List.map (fun h => getTime (submitDate h)) sh)) in
  startOfWeek tz (addDays maxDate (- (Z.of_nat weeksCount * 7 - 1))).

Definition calendarHeatmap (tz : Z) (homeworks : list Homework) : CalendarHeatmap :=
  let sh := submittedHomeworks homeworks in
  if Nat.eqb (length sh) 0 then mkCalendarHeatmap [] O []
  else
    let counts := countByDay tz sh in
    let startDate := calendarStart tz sh in
    let '(wks, labels, mx, _) :=
      fold_left (calendarStep tz counts startDate) (seq 0 weeksCount)
        ([], [], O, Some (-1)) in
    mkCalendarHeatmap wks mx labels.

(** ** Date objects that are mutated in place

    [submissionTrend] copies the two semester endpoints into fresh [Date]
    objects and then updates them with [setTime].  Objects are cells of a
    heap holding their time value; a variable holds a reference. *)

Definition Ref : Type := nat.
Definition Heap : Type := list number.
Definition Obj (A : Type) : Type := Heap -> A * Heap.

#[export] Instance Obj_ret : MRet Obj := fun A a h => (a, h).
#[export] Instance Obj_bind : MBind Obj :=
  fun A B f m h => let '(a, h') := m h in f a h'.

(** [new Date(d)] *)
Definition new_Date (d : Date) : Obj Ref :=
  fun h => (length h, h ++ [getTime d]).

(** [r.getTime()] *)
Definition obj_getTime (r : Ref) : Obj number :=
  fun h => (default NaN (h !! r), h).

(** [r.setTime(t)] *)
Definition obj_setTime (r : Ref) (t : number) : Obj unit :=
  fun h => (tt, <[ r := t ]> h).

(** The body of [if (firstDate && lastDate) { ... }] up to the computation of
    [rangeDays]; [tmp] is bound to the object [startCandidate] itself. *)
Definition semesterCandidates (firstDate lastDate : Date) : Obj (number * number) :=
  startCandidate ← new_Date firstDate;
  endCandidate ← new_Date lastDate;
  e0 ← obj_getTime endCandidate;
  s0 ← obj_getTime startCandidate;
  (if num_lt e0 s0
   then
     let tmp := startCandidate in
     e1 ← obj_getTime endCandidate;
     obj_setTime startCandidate e1;;
     t1 ← obj_getTime tmp;
     obj_setTime endCandidate t1
   else mret tt);;
  s ← obj_getTime startCandidate;
  e ← obj_getTime endCandidate;
  mret (s, e).

(** [candidateDates.reduce((acc, date) => pick(date, acc) ? date : acc)] *)
Definition reduceDates (pick : number -> number -> bool) (ds : list Date) : Date :=
  match ds with
  | [] => InvalidDate
  | d :: rest =>
      fold_left (fun acc date => if pick (getTime date) (getTime acc) then date else acc) rest d
  end.

Definition candidateDates (homeworks : list Homework) : list Date :=
  List.filter validDate
    (List.map submitDate (submittedHomeworks homeworks)
       ++ omap deadline homeworks).

(** The window [(start, end)] as time values. *)
Definition trendWindow (homeworks : list Homework) (semester : Semester) : number * number :=
  let cands := candidateDates homeworks in
  let minDate := reduceDates num_lt cands in
  let maxDate := reduceDates num_gt cands in
  let default_window := (getTime minDate, getTime maxDate) in
  match startDate semester, endDate semester with
  | Some firstDate, Some lastDate =>
      let '(s, e) := fst (semesterCandidates firstDate lastDate []) in
      let rangeDays := num_div (num_sub e s) (ofZ msPerDay) in
      if isFinite rangeDays && num_ge rangeDays (ofZ 7) then (s, e) else default_window
  | _, _ => default_window
  end.

(** Number of iterations of [for (let i = 0; i < totalDays; i += 1)]. *)
Definition iterations (totalDays : number) : nat :=
  match totalDays with
  | Num q => Z.to_nat (Qceiling q)
  | _ => O
  end.

(** [`${month}/${day}`] from the parts of a key. *)
Definition trendLabel (tz : Z) (date : Date) : string :=
  pad2 (succ_int (getMonth tz date)) +:+ "/" +:+ pad2 (getDate tz date).

Definition submissionTrend (tz : Z) (homeworks : list Homework) (semester : Semester)
    : list LineItem :=
  let counts := countByDay tz (submittedHomeworks homeworks) in
  if Nat.eqb (length (candidateDates homeworks)) 0 then []
  else
    let '(s, e) := trendWindow homeworks semester in
    let start := Date_of_number s in
    let totalDays :=
      Math_max (ofZ 1)
        (num_add (Math_ceil (num_div (num_sub e s) (ofZ msPerDay))) (ofZ 1)) in
    List.map
      (fun i =>
         let date := addDays start (Z.of_nat i) in
         let key := formatDateKey tz date in
         mkLineItem (trendLabel tz date) (default O (counts !! key)))
      (seq 0 (iterations totalDays)).

(** ** Procrastination profile *)

Record Profile : Type := mkProfile {
  score : number;
  profile_label : string;
  desc : string
}.

Definition procrastinationProfile (lateRate last24Rate last6Rate : number) : Profile :=
  let rawScore :=
    num_add (num_add (num_mul lateRate (Num (5 # 10))) (num_mul last24Rate (Num (3 # 10))))
      (num_mul last6Rate (Num (2 # 10))) in
  let score := Math_round (num_mul (Math_min (ofZ 1) rawScore) (ofZ 100)) in
  if num_gt score (ofZ 80) then mkProfile score "极限型" "常在最后时刻提交"
  else if num_gt score (ofZ 60) then mkProfile score "冲刺型" "多在截止前提交"
  else if num_gt score (ofZ 40) then mkProfile score "临界型" "停停催催，偶尔压线"
  else if num_gt score (ofZ 20) then mkProfile score "稳健型" "节奏稳定，成品率高"
  else mkProfile score "超前型" "提前规划，很少拖延".

(** ** Strings and regular expressions

    A string is a sequence of ASCII code units.  [\s] and [trim] know the six
    ASCII white-space characters; white space outside ASCII is not
    represented. *)

Definition code (c : ascii) : nat := nat_of_ascii c.

Definition isDigit (c : ascii) : bool :=
  (48 <=? code c)%nat && (code c <=? 57)%nat.

(** [\s] *)
Definition isSpace (c : ascii) : bool :=
  ((9 <=? code c)%nat && (code c <=? 13)%nat) || (code c =? 32)%nat.

Definition isUpper (c : ascii) : bool :=
  (65 <=? code c)%nat && (code c <=? 90)%nat.

Definition isLower (c : ascii) : bool :=
  (97 <=? code c)%nat && (code c <=? 122)%nat.

(** [\w] *)
Definition isWordChar (c : ascii) : bool :=
  isDigit c || isUpper c || isLower c || (code c =? 95)%nat.

Definition toLower (c : ascii) : ascii :=
  if isUpper c then ascii_of_nat (code c + 32) else c.

(** One character of a pattern under the [i] flag. *)
Definition ci (x : ascii) (c : ascii) : bool := Ascii.eqb (toLower c) x.

(** [[\d.]] *)
Definition isNumChar (c : ascii) : bool := isDigit c || Ascii.eqb c ".".

(** [[kmgt]] under the [i] flag *)
Definition isKMGT (c : ascii) : bool := ci "k" c || ci "m" c || ci "g" c || ci "t" c.

(** The patterns of the page use quantifiers on single characters and
    classes only. *)
Inductive regex : Type :=
  | Chr (p : ascii -> bool)
  | Star (p : ascii -> bool)
  | Plus (p : ascii -> bool)
  | Opt (p : ascii -> bool)
  | Seq (r1 r2 : regex)
  | Alt (r1 r2 : regex)
  | Group (r : regex)
  | Bol
  | Eol
  | WordBoundary.

Definition isWordOpt (c : option ascii) : bool :=
  match c with Some x => isWordChar x | None => false end.

(** Greedy [p*]: take a character while possible, give it back when the rest
    of the pattern fails. [prev] is the character before the position. *)
Fixpoint starK {R : Type} (p : ascii -> bool)
    (k : option ascii -> list ascii -> option R)
    (prev : option ascii) (s : list ascii) : option R :=
  match s with
  | c :: s' =>
      if p c then
        match starK p k (Some c) s' with
        | Some r => Some r
        | None => k prev s
        end
      else k prev s
  | [] => k prev s
  end.

Definition Captures : Type := list (list ascii).
Definition Cont : Type := option ascii -> list ascii -> Captures -> option Captures.

(** Backtracking matcher in continuation-passing style: alternatives are
    tried left to right, quantifiers are greedy, and a group appends the text
    it matched to the captures when it closes. *)
Fixpoint rmatch (r : regex) (prev : option ascii) (s : list ascii)
    (caps : Captures) (k : Cont) : option Captures :=
  match r with
  | Chr p =>
      match s with
      | c :: s' => if p c then k (Some c) s' caps else None
      | [] => None
      end
  | Star p => starK p (fun pv s' => k pv s' caps) prev s
  | Plus p =>
      match s with
      | c :: s' => if p c then starK p (fun pv s'' => k pv s'' caps) (Some c) s' else None
      | [] => None
      end
  | Opt p =>
      match s with
      | c :: s' =>
          if p c then
            match k (Some c) s' caps with
            | Some res => Some res
            | None => k prev s caps
            end
          else k prev s caps
      | [] => k prev s caps
      end
  | Seq r1 r2 => rmatch r1 prev s caps (fun pv s' caps' => rmatch r2 pv s' caps' k)
  | Alt r1 r2 =>
      match rmatch r1 prev s caps k with
      | Some res => Some res
      | None => rmatch r2 prev s caps k
      end
  | Group r1 =>
      rmatch r1 prev s caps
        (fun pv s' caps' => k pv s' (caps' ++ [take (length s - length s') s]))
  | Bol => match prev with None => k prev s caps | Some _ => None end
  | Eol => match s with [] => k prev s caps | _ :: _ => None end
  | WordBoundary =>
      if xorb (isWordOpt prev) (isWordOpt (head s)) then k prev s caps else None
  end.

(** The continuation at the end of a pattern: the match is found. *)
Definition accept : Cont := fun _ _ caps => Some caps.

(** The leftmost match: try every start position in turn. *)
Fixpoint searchFrom (r : regex) (prev : option ascii) (s : list ascii) : option Captures :=
  match rmatch r prev s [] accept with
  | Some caps => Some caps
  | None =>
      match s with
      | c :: s' => searchFrom r (Some c) s'
      | [] => None
      end
  end.

(** [s.match(r)]: the captured groups of the first match, or [None]. *)
Definition regex_match (r : regex) (s : list ascii) : option Captures :=
  searchFrom r None s.

(** [/^\d+$/] *)
Definition re_digitsOnly : regex := Seq Bol (Seq (Plus isDigit) Eol).

(** [/([\d.]+)\s*([kmgt]?b|[kmgt])\b/i] *)
Definition re_unit : regex :=
  Seq (Group (Plus isNumChar))
    (Seq (Star isSpace)
       (Seq (Group (Alt (Seq (Opt isKMGT) (Chr (ci "b"))) (Chr isKMGT)))
          WordBoundary)).

(** [/^([\d.]+)\s*bytes?$/i] *)
Definition re_bytes : regex :=
  Seq Bol
    (Seq (Group (Plus isNumChar))
       (Seq (Star isSpace)
          (Seq (Chr (ci "b")) (Seq (Chr (ci "y")) (Seq (Chr (ci "t")) (Seq (Chr (ci "e"))
             (Seq (Opt (ci "s")) Eol))))))).

Fixpoint takeWhile {A : Type} (p : A -> bool) (l : list A) : list A :=
  match l with
  | x :: l' => if p x then x :: takeWhile p l' else []
  | [] => []
  end.

Fixpoint dropWhile {A : Type} (p : A -> bool) (l : list A) : list A :=
  match l with
  | x :: l' => if p x then dropWhile p l' else l
  | [] => []
  end.

(** [s.trim()] *)
Definition trimStart (s : list ascii) : list ascii := dropWhile isSpace s.
Definition trim (s : list ascii) : list ascii := rev (trimStart (rev (trimStart s))).

(** [s.replace(/,/g, '')] *)
Definition removeCommas (s : list ascii) : list ascii :=
  List.filter (fun c => negb (Ascii.eqb c ",")) s.

(** The value of a string of decimal digits. *)
Definition digitsValue (ds : list ascii) : Z :=
  fold_left (fun acc c => 10 * acc + (Z.of_nat (code c) - 48)) ds 0.

(** [Number.parseInt(s, 10)] on a string of digits. *)
Definition parseInt (s : list ascii) : number := ofZ (digitsValue s).

(** [Number.parseFloat(s)] on a string of digits and dots: the digits before
    the first dot and the digits right after it; [NaN] when both are empty. *)
Definition parseFloat (s : list ascii) : number :=
  let ip := takeWhile isDigit s in
  let fp :=
    match dropWhile isDigit s with
    | c :: rest => if Ascii.eqb c "." then takeWhile isDigit rest else []
    | [] => []
    end in
  match ip, fp with
  | [], [] => NaN
  | _, _ =>
      Num (inject_Z (digitsValue ip)
           + inject_Z (digitsValue fp) / inject_Z (10 ^ Z.of_nat (length fp)))
  end.

Definition toLowerCase (s : list ascii) : list ascii := List.map toLower s.

Definition factorMap : gmap string number :=
  list_to_map
    [ ("b"%string, ofZ 1);
      ("k"%string, ofZ 1024);
      ("kb"%string, ofZ 1024);
      ("m"%string, ofZ (1024 ^ 2));
      ("mb"%string, ofZ (1024 ^ 2));
      ("g"%string, ofZ (1024 ^ 3));
      ("gb"%string, ofZ (1024 ^ 3));
      ("t"%string, ofZ (1024 ^ 4));
      ("tb"%string, ofZ (1024 ^ 4)) ].

(** The [n]-th captured group, [match[n]] for [n >= 1]. *)
Definition group (n : nat) (caps : Captures) : list ascii :=
  default [] (caps !! (n - 1)%nat).

Definition parseSizeToBytes (value : option SizeValue) : option number :=
  match value with
  | None => None
  | Some (SizeNumber n) => if isFinite n then Some n else None
  | Some (SizeString v) =>
      let raw := removeCommas (trim (list_ascii_of_string v)) in
      match raw with
      | [] => None
      | _ :: _ =>
          match regex_match re_digitsOnly raw with
          | Some _ => Some (parseInt raw)
          | None =>
              match regex_match re_unit raw with
              | None =>
                  match regex_match re_bytes raw with
                  | None => None
                  | Some bytesMatch =>
                      let bytesValue := parseFloat (group 1 bytesMatch) in
                      if isFinite bytesValue then Some bytesValue else None
                  end
              | Some m =>
                  let num := parseFloat (group 1 m) in
                  if negb (isFinite num) then None
                  else
                    let unit := string_of_list_ascii (toLowerCase (group 2 m)) in
                    Some (num_mul num (default (ofZ 1) (factorMap !! unit)))
              end
          end
      end
  end.

(** ** Attachment statistics *)

Definition sizeBuckets : list Bucket :=
  [ mkBucket "<100KB" (ofZ 0) (ofZ (100 * 1024));
    mkBucket "100KB-1MB" (ofZ (100 * 1024)) (ofZ (1024 * 1024));
    mkBucket "1-5MB" (ofZ (1024 * 1024)) (ofZ (5 * 1024 * 1024));
    mkBucket "5-20MB" (ofZ (5 * 1024 * 1024)) (ofZ (20 * 1024 * 1024));
    mkBucket ">20MB" (ofZ (20 * 1024 * 1024)) Infinity ].

(** [submittedAll.map((hw) => hw.submittedAttachment).filter(Boolean)] *)
Definition attachments (homeworks : list Homework) : list RemoteFile :=
  omap submittedAttachment (submittedAll homeworks).

(** The parsed sizes that are finite numbers. *)
Definition sizes (homeworks : list Homework) : list number :=
  omap
    (fun file =>
       match parseSizeToBytes (size file) with
       | Some v => if isFinite v then Some v else None
       | None => None
       end)
    (attachments homeworks).

Definition sizeCounts (szs : list number) (counts : list nat) : list nat :=
  fold_left (fun cs sz => bump (findIndex (inBucket sz) sizeBuckets) cs) szs counts.

Record AttachmentStats : Type := mkAttachmentStats {
  att_total : nat;
  totalSize : number;
  att_bucketItems : list BarItem
}.

Definition attachmentStats (homeworks : list Homework) : AttachmentStats :=
  let szs := sizes homeworks in
  let bucketCounts := sizeCounts szs (replicate (length sizeBuckets) O) in
  mkAttachmentStats
    (length (attachments homeworks))
    (fold_left num_add szs (ofZ 0))
    (bucketItems sizeBuckets bucketCounts).

(** ** Vocabulary of the statements *)

(** At most one bucket of the list holds a given value. *)
Definition disjointBuckets (buckets : list Bucket) : Prop :=
  forall v i j bi bj,
    buckets !! i = Some bi -> buckets !! j = Some bj ->
    inBucket v bi = true -> inBucket v bj = true -> i = j.

(** The bucket loop shared by the three histograms of the page. *)
Definition tally (buckets : list Bucket) (vals : list number) (counts : list nat) : list nat :=
  fold_left (fun cs v => bump (findIndex (inBucket v) buckets) cs) vals counts.

(** How many of the values a bucket holds. *)
Definition hits (b : Bucket) (vals : list number) : nat :=
  length (List.filter (fun v => inBucket v b) vals).

(** Records that are submitted, carry a submit time, and have a deadline. *)
Definition submittedWithDeadline (homeworks : list Homework) : list Homework :=
  List.filter (fun hw => isSome (deadline hw)) (submittedHomeworks homeworks).

(** Lag of a record with a deadline: deadline minus submit time, in hours. *)
Definition lag (hw : Homework) : number :=
  match deadline hw with
  | Some dl => diffHoursOf (getTime dl) (submitTimeValue hw)
  | None => NaN
  end.

(** The same number, finite values up to equality of rationals. *)
Definition num_same (a b : number) : Prop :=
  match a, b with
  | NaN, NaN | NegInfinity, NegInfinity | Infinity, Infinity => True
  | Num x, Num y => (x == y)%Q
  | _, _ => False
  end.

(** [r] is a finite rate in [0, 1], zero when its denominator [den] is. *)
Definition guardedRate (r : number) (den : nat) : Prop :=
  exists q, r = Num q /\ (0 <= q <= 1)%Q /\ (den = O -> (q == 0)%Q).

(** A lead time between [lo] and [hi] hours, bounds included. *)
Definition within (lo hi : Q) (h : number) : bool :=
  match h with
  | Num x => Qle_bool lo x && Qle_bool x hi
  | _ => false
  end.

(** The data model's invariant: a submitted record carries its submit time. *)
Definition submitTimePresent (hw : Homework) : Prop :=
  submitted hw = true -> isSome (submitTime hw) = true.

(** How many lead times lie between [lo] and [hi] hours. *)
Definition countWithin (lo hi : Q) (leadHours : list number) : nat :=
  length (List.filter (within lo hi) leadHours).

(** [raw] clamped to the interval from 0 to 1. *)
Definition clamp01 (raw : Q) : Q :=
  if Qlt_bool raw 0 then 0%Q else if Qlt_bool 1 raw then 1%Q else raw.

(** The label and description for an integer score, highest band first. *)
Definition bandOf (s : Z) : string * string :=
  if 80 <? s then ("极限型", "常在最后时刻提交")
  else if 60 <? s then ("冲刺型", "多在截止前提交")
  else if 40 <? s then ("临界型", "停停催催，偶尔压线")
  else if 20 <? s then ("稳健型", "节奏稳定，成品率高")
  else ("超前型", "提前规划，很少拖延").

(** The submit time of a record in milliseconds, when it is a valid date. *)
Definition submitMs (hw : Homework) : Z :=
  match submitTime hw with
  | Some (mkDate t) => t
  | _ => 0
  end.

(** The cell of the calendar grid for week [w] and weekday [d]. *)
Definition gridCell (tz : Z) (counts : gmap string nat) (start : Date) (w d : nat) : HeatCell :=
  let key := formatDateKey tz (addDays start (Z.of_nat (w * 7 + d))) in
  mkHeatCell key (default O (counts !! key)).

(** A semester with both endpoints, given by their time values. *)
Definition semesterOf (s e : Z) : Semester :=
  mkSemester (Some (mkDate s)) (Some (mkDate e)).

(** The point of the trend series for a date. *)
Definition trendPoint (tz : Z) (counts : gmap string nat) (date : Date) : LineItem :=
  mkLineItem (trendLabel tz date) (default O (counts !! formatDateKey tz date)).






(** ** Sample records *)

(** The zone of the page's users: UTC+8, no daylight saving. *)
Definition tzBeijing : Z := 8 * msPerHour.

(** 2024-01-07 12:00 UTC, a Sunday evening in UTC+8. *)
Definition sundayEvening : Z := 1704628800000.

(** Submitted on Sunday 2024-01-07, no deadline. *)
Definition sundaySubmission : Homework :=
  mkHomework "hw1" "course" "Homework 1" None true (Some (mkDate sundayEvening)) None.

(** Submitted exactly 6 hours before its deadline. *)
Definition sixHoursEarly : Homework :=
  mkHomework "hw2" "course" "Homework 2"
    (Some (mkDate (sundayEvening + 6 * msPerHour))) true (Some (mkDate sundayEvening)) None.

(** Not submitted, due at [sundayEvening]. *)
Definition dueSundayEvening : Homework :=
  mkHomework "hw3" "course" "Homework 3" (Some (mkDate sundayEvening)) false None None.

(** Submitted on 2024-03-01 08:00 UTC, no deadline. *)
Definition marchSubmission : Homework :=
  mkHomework "hw4" "course" "Homework 4" None true (Some (mkDate 1709280000000)) None.

(** 2024-02-01 and 2024-06-30, both at 00:00 UTC. *)
Definition feb1 : Z := 1706745600000.
Definition jun30 : Z := 1719705600000.

(** Submitted with an attachment of the given size text. *)
Definition withAttachment (sizeText : string) : Homework :=
  mkHomework "hw5" "course" "Homework 5" None true None
    (Some (mkRemoteFile (Some (SizeString sizeText)))).

(** ** The other aggregations of the page *)

From Stdlib Require Import Sorted.

(** [counts[i] += 1] for an index read from a getter.  A [NaN] index adds a
    property named "NaN" to the array object and leaves its elements, its
    length and what [map] visits as they were; a getter result is never
    outside the array. *)
Definition bumpAt (i : option Z) (counts : list nat) : list nat :=
  match i with
  | Some z => alter S (Z.to_nat z) counts
  | None => counts
  end.

Definition hourBuckets (tz : Z) (homeworks : list Homework) : list BarItem :=
  let counts :=
    fold_left (fun cs hw => bumpAt (submitHour tz hw) cs)
      (submittedHomeworks homeworks) (replicate 24 O) in
  imap (fun idx value => mkBarItem (toString (Some (Z.of_nat idx))) value) counts.

Definition weekdayLabels : list string :=
  [ "周日"; "周一"; "周二"; "周三"; "周四"; "周五"; "周六" ]%string.

(** [weekdayLabels[idx]]; the index is always below 7. *)
Definition weekdayLabel (idx : nat) : string :=
  default EmptyString (weekdayLabels !! idx).

Definition weekdayBuckets (tz : Z) (homeworks : list Homework) : list BarItem :=
  let counts :=
    fold_left (fun cs hw => bumpAt (submitDay tz hw) cs)
      (submittedHomeworks homeworks) (replicate 7 O) in
  imap (fun idx value => mkBarItem (weekdayLabel idx) value) counts.

(** *** Weekday-hour heat map *)

(** The outcome of code that can throw. *)
Inductive Outcome (A : Type) : Type :=
  | Returned (a : A)
  | TypeError.
Arguments Returned {A} a.
Arguments TypeError {A}.

(** [counts[day][hour] += 1]: reading [counts[day]] for a [NaN] day gives
    [undefined], and indexing [undefined] throws. *)
Definition heatStep (tz : Z) (acc : Outcome (list (list nat))) (hw : Homework)
    : Outcome (list (list nat)) :=
  match acc with
  | TypeError => TypeError
  | Returned counts =>
      match submitDay tz hw with
      | None => TypeError
      | Some day =>
          match counts !! Z.to_nat day with
          | None => TypeError
          | Some row =>
              Returned (<[ Z.to_nat day := bumpAt (submitHour tz hw) row ]> counts)
          end
      end
  end.

Record WeeklyHourHeatmap : Type := mkWeeklyHourHeatmap {
  heat_rows : list (list HeatCell);
  heat_max : nat
}.

(** [if (value > max) max = value], over the cells in the order visited. *)
Definition maxOver (values : list nat) (max0 : nat) : nat :=
  fold_left (fun mx value => if (mx <? value)%nat then value else mx) values max0.

Definition weeklyHourHeatmap (tz : Z) (homeworks : list Homework)
    : Outcome WeeklyHourHeatmap :=
  let sh := submittedHomeworks homeworks in
  if Nat.eqb (length sh) 0 then Returned (mkWeeklyHourHeatmap [] O)
  else
    match fold_left (heatStep tz) sh (Returned (replicate 7 (replicate 24 O))) with
    | TypeError => TypeError
    | Returned counts =>
        let rows :=
          imap
            (fun day row =>
               imap
                 (fun hour value =>
                    mkHeatCell
                      (weekdayLabel day +:+ " " +:+ pad2 (Some (Z.of_nat hour)) +:+ ":00")
                      value)
                 row)
            counts in
        Returned (mkWeeklyHourHeatmap rows (maxOver (concat counts) O))
    end.

(** *** Sorting

    [Array.prototype.sort] is stable, and for a comparator that orders its
    arguments consistently the result is the one computed here by insertion.
    A comparator result of [NaN] counts as 0.  For a comparator that is not
    consistent the order is left to the implementation, and this is one of
    the orders it may produce. *)
Fixpoint sortInsert {A : Type} (cmp : A -> A -> number) (x : A) (l : list A) : list A :=
  match l with
  | [] => [x]
  | y :: l' => if num_gt (cmp x y) (ofZ 0) then y :: sortInsert cmp x l' else x :: l
  end.

Definition jsSort {A : Type} (cmp : A -> A -> number) (l : list A) : list A :=
  fold_right (sortInsert cmp) [] l.

(** *** Per-course totals *)

Record CourseEntry : Type := mkCourseEntry {
  entry_total : nat;
  entry_submitted : nat
}.

(** A [Map] with string keys, in insertion order. *)
Definition CourseMap : Type := list (string * CourseEntry).

Fixpoint map_get (m : CourseMap) (key : string) : option CourseEntry :=
  match m with
  | [] => None
  | (k, v) :: m' => if String.eqb k key then Some v else map_get m' key
  end.

(** [map.set(key, value)]: a key already present keeps its place. *)
Fixpoint map_set (m : CourseMap) (key : string) (value : CourseEntry) : CourseMap :=
  match m with
  | [] => [(key, value)]
  | (k, v) :: m' =>
      if String.eqb k key then (k, value) :: m' else (k, v) :: map_set m' key value
  end.

Definition courseStep (m : CourseMap) (hw : Homework) : CourseMap :=
  let entry := default (mkCourseEntry O O) (map_get m (courseId hw)) in
  let entry1 := mkCourseEntry (S (entry_total entry)) (entry_submitted entry) in
  let entry2 :=
    if submitted hw
    then mkCourseEntry (entry_total entry1) (S (entry_submitted entry1))
    else entry1 in
  map_set m (courseId hw) entry2.

Record CourseStat : Type := mkCourseStat {
  stat_courseId : string;
  stat_total : nat;
  stat_submitted : nat
}.

Definition courseGroups (homeworks : list Homework) : list CourseStat :=
  List.map
    (fun '(courseId, value) =>
       mkCourseStat courseId (entry_total value) (entry_submitted value))
    (fold_left courseStep homeworks []).

(** [(a, b) => b.submitted - a.submitted] *)
Definition bySubmittedDesc (a b : CourseStat) : number :=
  num_sub (ofNat (stat_submitted b)) (ofNat (stat_submitted a)).

Definition courseStats (homeworks : list Homework) : list CourseStat :=
  jsSort bySubmittedDesc (courseGroups homeworks).

(** *** Lead-time statistics *)

Record TimeStats : Type := mkTimeStats {
  avg : number;
  median : number
}.

Definition timeStats (leadHours : list number) : option TimeStats :=
  if Nat.eqb (length leadHours) 0 then None
  else
    let sorted := jsSort (fun a b => num_sub a b) leadHours in
    let avg :=
      num_div (fold_left num_add leadHours (ofZ 0)) (ofNat (length leadHours)) in
    let median := default NaN (sorted !! (length sorted / 2)%nat) in
    Some (mkTimeStats avg median).

(** *** Recent submissions *)

(** [(a, b) => b.submitTime.getTime() - a.submitTime.getTime()] *)
Definition byTimeDesc (a b : Homework) : number :=
  num_sub (submitTimeValue b) (submitTimeValue a).

Definition recentSubmissions (homeworks : list Homework) : list Homework :=
  take 20 (jsSort byTimeDesc (submittedHomeworks homeworks)).

(** *** Activity *)

(** [Array.from(new Set(xs))]: the distinct strings, each at the place of its
    first occurrence. *)
Definition distinct (xs : list string) : list string :=
  fold_left (fun seen x => if existsb (String.eqb x) seen then seen else seen ++ [x]) xs [].

(** The comparator of [sort()] without argument, on strings. *)
Definition byString (a b : string) : number :=
  if String.ltb a b then ofZ (-1) else if String.ltb b a then ofZ 1 else ofZ 0.

(** [a === b] on numbers: [NaN] equals nothing. *)
Definition num_strict_eq (a b : number) : bool :=
  match a, b with
  | NegInfinity, NegInfinity | Infinity, Infinity => true
  | Num x, Num y => Qeq_bool x y
  | _, _ => false
  end.

Record ActivityStats : Type := mkActivityStats {
  activeDays : nat;
  longestStreak : nat
}.

Section Activity.
(** [new Date(s)] for a string; what it returns outside the ISO date format
    is left to the implementation, so the parser is a parameter. *)
Variable parseDate : string -> Date.

(** One turn of the loop for the neighbours [days[i-1]], [days[i]], on the
    state [(longest, current)]. *)
Definition streakStep (st : nat * nat) (pair : string * string) : nat * nat :=
  let '(longest, current) := st in
  let prev := parseDate (fst pair) in
  let next := parseDate (snd pair) in
  let diff := num_div (num_sub (getTime next) (getTime prev)) (ofZ msPerDay) in
  if num_strict_eq diff (ofZ 1) then (longest, S current)
  else (Nat.max longest current, 1%nat).

(** The pairs [(days[i-1], days[i])] for [i] from 1. *)
Definition neighbours (days : list string) : list (string * string) :=
  match days with
  | [] => []
  | _ :: rest => combine days rest
  end.

Definition activityStats (tz : Z) (homeworks : list Homework) : ActivityStats :=
  let days :=
    jsSort byString
      (distinct (List.map (fun hw => formatDateKey tz (submitDate hw))
                   (submittedHomeworks homeworks))) in
  if Nat.eqb (length days) 0 then mkActivityStats O O
  else
    let '(longest, current) := fold_left streakStep (neighbours days) (1%nat, 1%nat) in
    mkActivityStats (length days) (Nat.max longest current).
End Activity.

(** ** Vocabulary of the further statements *)

(** The records of a course, and the submitted ones among them. *)
Definition totalOf (c : string) (homeworks : list Homework) : nat :=
  length (List.filter (fun hw => String.eqb (courseId hw) c) homeworks).

Definition submittedOf (c : string) (homeworks : list Homework) : nat :=
  length (List.filter (fun hw => String.eqb (courseId hw) c && submitted hw) homeworks).

Definition keysOf (m : CourseMap) : list string := List.map fst m.

Definition sumTotal (m : CourseMap) : nat := sum_list (List.map (fun kv => entry_total (snd kv)) m).
Definition sumSubmitted (m : CourseMap) : nat :=
  sum_list (List.map (fun kv => entry_submitted (snd kv)) m).

(** Submissions made in hour [h], on weekday [d], and both, in the zone of
    the page. *)
Definition inHour (tz : Z) (h : nat) (hw : Homework) : bool :=
  eq_int (submitHour tz hw) (Z.of_nat h).

Definition onWeekday (tz : Z) (d : nat) (hw : Homework) : bool :=
  eq_int (submitDay tz hw) (Z.of_nat d).

Definition countIf {A : Type} (p : A -> bool) (l : list A) : nat :=
  length (List.filter p l).

(** Records whose submit time is a valid date. *)
Definition validSubmit (hw : Homework) : bool := validDate (submitDate hw).

(** The entry of a grid in row [d] and column [h]. *)
Definition cellAt {A : Type} (grid : list (list A)) (d h : nat) : option A :=
  match grid !! d with
  | Some row => row !! h
  | None => None
  end.

(** Submissions made on weekday [d] in hour [h]. *)
Definition heatCount (tz : Z) (d h : nat) (sh : list Homework) : nat :=
  countIf (fun hw => onWeekday tz d hw && inHour tz h hw) sh.

(** The label of the heat map's cell for weekday [d] and hour [h]. *)
Definition heatLabel (d h : nat) : string :=
  weekdayLabel d +:+ " " +:+ pad2 (Some (Z.of_nat h)) +:+ ":00".







(** The day key of a submission. *)
Definition dayKey (tz : Z) (hw : Homework) : string :=
  formatDateKey tz (submitDate hw).

(** Submissions made on the day with key [key]. *)
Definition onDay (tz : Z) (key : string) (hw : Homework) : bool :=
  String.eqb (dayKey tz hw) key.

(** The month of the first day of week [w] of the calendar grid, and the
    month the loop compares it with: that of the week before, or -1. *)
Definition weekMonth (tz : Z) (start : Date) (w : nat) : option Z :=
  getMonth tz (addDays start (Z.of_nat (w * 7))).

Definition monthBefore (tz : Z) (start : Date) (w : nat) : option Z :=
  match w with
  | O => Some (-1)
  | S w' => weekMonth tz start w'
  end.

Definition monthLabel (tz : Z) (start : Date) (w : nat) : string :=
  if int_neq (weekMonth tz start w) (monthBefore tz start w)
  then toString (succ_int (weekMonth tz start w)) +:+ "月"
  else EmptyString.

(** Whether the semester gives the window of the trend: both endpoints are
    valid dates and the end is at least 7 days after the start. *)
Definition semesterUsable (semester : Semester) : bool :=
  match startDate semester, endDate semester with
  | Some (mkDate s), Some (mkDate e) => 7 * msPerDay <=? e - s
  | _, _ => false
  end.

(** Number of points of a trend from time [a] to time [b]. *)
Definition trendLength (a b : Z) : nat :=
  Z.to_nat ((b - a + msPerDay - 1) / msPerDay + 1).

(** Handed in after the deadline, and at the very instant of the deadline. *)
Definition isLate (hw : Homework) : bool :=
  match deadline hw with
  | Some dl => num_gt (submitTimeValue hw) (getTime dl)
  | None => false
  end.

Definition atDeadline (hw : Homework) : bool :=
  match deadline hw with
  | Some dl => num_strict_eq (submitTimeValue hw) (getTime dl)
  | None => false
  end.

(** * Properties *)

(** ** Numbers *)

Lemma Qlt_bool_iff (x y : Q) : Qlt_bool x y = true <-> (x < y)%Q.
Proof.
  unfold Qlt_bool. rewrite negb_true_iff, <- not_true_iff_false, Qle_bool_iff.
  split; [apply Qnot_le_lt | apply Qlt_not_le].
Qed.

Lemma Qlt_bool_false_iff (x y : Q) : Qlt_bool x y = false <-> (y <= x)%Q.
Proof.
  unfold Qlt_bool. rewrite negb_false_iff. apply Qle_bool_iff.
Qed.

Lemma Qle_bool_false_iff (x y : Q) : Qle_bool x y = false <-> (y < x)%Q.
Proof.
  rewrite <- not_true_iff_false, Qle_bool_iff.
  split; [apply Qnot_le_lt | apply Qlt_not_le].
Qed.

Lemma inject_Z_nat_nonneg (n : nat) : (0 <= inject_Z (Z.of_nat n))%Q.
Proof. change 0%Q with (inject_Z 0). rewrite <- Zle_Qle. lia. Qed.

Lemma inject_Z_nat_pos (n : nat) : n <> O -> (0 < inject_Z (Z.of_nat n))%Q.
Proof. intros H. change 0%Q with (inject_Z 0). rewrite <- Zlt_Qlt. lia. Qed.

(** Turns the boolean comparisons of finite numbers in the context and the
    goal into order statements on rationals. *)
Ltac num_bools :=
  unfold inBucket, num_gt, num_ge, ofZ in *; cbn [num_lt num_le min max] in *;
  repeat match goal with
    | H : _ && _ = true |- _ => apply andb_true_iff in H; destruct H
    | H : _ || _ = false |- _ => apply orb_false_iff in H; destruct H
    | H : Qlt_bool _ _ = true |- _ => apply Qlt_bool_iff in H
    | H : Qle_bool _ _ = true |- _ => apply Qle_bool_iff in H
    | H : Qlt_bool _ _ = false |- _ => apply Qlt_bool_false_iff in H
    | H : Qle_bool _ _ = false |- _ => apply Qle_bool_false_iff in H
    | H : true = false |- _ => discriminate H
    | H : false = true |- _ => discriminate H
    end.

(** Evaluates the literal bounds [inject_Z k] of the context. *)
Ltac Qliterals :=
  repeat match goal with
    | H : context [inject_Z ?z] |- _ =>
        let v := eval vm_compute in (inject_Z z) in
        change (inject_Z z) with v in H
    end.

(** A guarded ratio of two counts is a finite number between 0 and 1. *)
Lemma ratio_finite (a b : nat) :
  (a <= b)%nat -> b <> O ->
  exists q, num_div (ofNat a) (ofNat b) = Num q /\ (0 <= q <= 1)%Q.
Proof.
  intros Hab Hb. unfold num_div, ofNat.
  pose proof (inject_Z_nat_pos b Hb) as Hpos.
  destruct (Qeq_bool (inject_Z (Z.of_nat b)) 0) eqn:E.
  - apply Qeq_bool_iff in E. rewrite E in Hpos. exfalso. revert Hpos. apply Qlt_irrefl.
  - eexists; split; [reflexivity|].
    assert (Hle : (inject_Z (Z.of_nat a) <= inject_Z (Z.of_nat b))%Q)
      by (rewrite <- Zle_Qle; lia).
    pose proof (inject_Z_nat_nonneg a) as Ha.
    split.
    + apply Qle_shift_div_l; [exact Hpos | lra].
    + apply Qle_shift_div_r; [exact Hpos | lra].
Qed.

(** Without a guard the ratio of two zero counts is not a number. *)
Lemma ratio_zero_zero : num_div (ofNat 0) (ofNat 0) = NaN.
Proof. reflexivity. Qed.

Lemma filter_length_le {A : Type} (p : A -> bool) (l : list A) :
  (length (List.filter p l) <= length l)%nat.
Proof. induction l as [|x l IH]; simpl; [lia | destruct (p x); simpl; lia]. Qed.

(** ** [findIndex] and the bucket loop *)

Lemma findIndex_Some {A : Type} (p : A -> bool) (l : list A) (i : nat) :
  findIndex p l = Some i <->
  (exists x, l !! i = Some x /\ p x = true) /\
  (forall j y, (j < i)%nat -> l !! j = Some y -> p y = false).
Proof.
  revert i. induction l as [|a l IH]; intros i; simpl.
  - split; [discriminate | intros [[x [Hx _]] _]; discriminate].
  - destruct (p a) eqn:Ea.
    + split.
      * intros [= <-]. split; [exists a; auto | intros j y Hj; lia].
      * intros [_ Hfirst]. destruct i as [|i]; [reflexivity|].
        specialize (Hfirst O a ltac:(lia) eq_refl). congruence.
    + destruct i as [|i].
      * split.
        -- destruct (findIndex p l); discriminate.
        -- intros [[x [Hx Hp]] _]. simpl in Hx. congruence.
      * transitivity (findIndex p l = Some i).
        -- destruct (findIndex p l); simpl; split; congruence.
        -- rewrite IH. split.
           ++ intros [Hx Hfirst]. split; [exact Hx|].
              intros [|j] y Hj Hy; simpl in Hy; [congruence|].
              apply (Hfirst j y); [lia | exact Hy].
           ++ intros [Hx Hfirst]. split; [exact Hx|].
              intros j y Hj Hy. apply (Hfirst (S j) y); [lia | exact Hy].
Qed.

Lemma findIndex_None {A : Type} (p : A -> bool) (l : list A) :
  findIndex p l = None <-> (forall i x, l !! i = Some x -> p x = false).
Proof.
  induction l as [|a l IH]; simpl.
  - split; [intros _ i x Hx; discriminate | reflexivity].
  - destruct (p a) eqn:Ea.
    + split; [discriminate | intros H; specialize (H O a eq_refl); congruence].
    + transitivity (findIndex p l = None).
      * destruct (findIndex p l); simpl; split; congruence.
      * rewrite IH. split.
        -- intros H [|i] x Hx; simpl in Hx; [congruence | exact (H i x Hx)].
        -- intros H i x Hx. exact (H (S i) x Hx).
Qed.

Lemma bump_length (idx : option nat) (counts : list nat) :
  length (bump idx counts) = length counts.
Proof. destruct idx; simpl; [apply length_alter | reflexivity]. Qed.

Lemma tally_length (buckets : list Bucket) (vals : list number) (counts : list nat) :
  length (tally buckets vals counts) = length counts.
Proof.
  revert counts. induction vals as [|v vals IH]; intros counts; simpl; [reflexivity|].
  unfold tally in *. simpl. rewrite IH. apply bump_length.
Qed.

Lemma bump_lookup (buckets : list Bucket) (v : number) (counts : list nat) (i : nat) (b : Bucket) :
  disjointBuckets buckets -> length counts = length buckets ->
  buckets !! i = Some b ->
  default O (bump (findIndex (inBucket v) buckets) counts !! i)
  = (default O (counts !! i) + (if inBucket v b then 1 else 0))%nat.
Proof.
  intros Hdis Hlen Hb.
  assert (Hi : (i < length counts)%nat)
    by (rewrite Hlen; apply lookup_lt_is_Some; eauto).
  destruct (findIndex (inBucket v) buckets) as [j|] eqn:Ef; simpl.
  - apply findIndex_Some in Ef as [[x [Hx Hpx]] _].
    destruct (decide (j = i)) as [->|Hne].
    + rewrite list_lookup_alter_eq. assert (x = b) as -> by congruence. rewrite Hpx.
      destruct (lookup_lt_is_Some_2 counts i Hi) as [c ->]. simpl. lia.
    + rewrite list_lookup_alter_ne by exact Hne.
      destruct (inBucket v b) eqn:Eb; [|lia].
      exfalso. apply Hne. eapply Hdis; eauto.
  - rewrite findIndex_None in Ef. rewrite (Ef i b Hb). lia.
Qed.

Lemma tally_lookup (buckets : list Bucket) (vals : list number) (counts : list nat)
    (i : nat) (b : Bucket) :
  disjointBuckets buckets -> length counts = length buckets ->
  buckets !! i = Some b ->
  default O (tally buckets vals counts !! i) = (default O (counts !! i) + hits b vals)%nat.
Proof.
  intros Hdis Hlen Hb. revert counts Hlen.
  induction vals as [|v vals IH]; intros counts Hlen.
  - unfold hits. simpl. lia.
  - unfold tally in *. simpl. rewrite IH by (rewrite bump_length; exact Hlen).
    rewrite (bump_lookup buckets v counts i b Hdis Hlen Hb).
    unfold hits. simpl. destruct (inBucket v b); simpl; lia.
Qed.

Lemma lookup_replicate_default (n i : nat) : default O (replicate n O !! i) = O.
Proof.
  destruct (replicate n O !! i) eqn:E; [|reflexivity].
  apply lookup_replicate in E as [-> _]. reflexivity.
Qed.

Lemma bucketItems_values (buckets : list Bucket) (counts : list nat) :
  length counts = length buckets ->
  List.map bar_value (bucketItems buckets counts) = counts.
Proof.
  intros Hlen. unfold bucketItems. apply list_eq. intros i.
  change (List.map ?f ?l) with (f <$> l).
  rewrite list_lookup_fmap, list_lookup_imap.
  destruct (buckets !! i) as [b|] eqn:Hb; simpl.
  - assert (Hi : (i < length counts)%nat)
      by (rewrite Hlen; apply lookup_lt_is_Some; eauto).
    destruct (lookup_lt_is_Some_2 counts i Hi) as [c ->]. reflexivity.
  - symmetry. apply lookup_ge_None. rewrite Hlen. apply lookup_ge_None. exact Hb.
Qed.

Lemma bucketItems_labels (buckets : list Bucket) (counts : list nat) :
  List.map bar_label (bucketItems buckets counts) = List.map label buckets.
Proof.
  unfold bucketItems. apply list_eq. intros i.
  change (List.map ?f ?l) with (f <$> l).
  rewrite !list_lookup_fmap, list_lookup_imap.
  destruct (buckets !! i); reflexivity.
Qed.

(** The counts produced by the loop, bucket by bucket. *)
Lemma tally_counts (buckets : list Bucket) (vals : list number) :
  disjointBuckets buckets ->
  tally buckets vals (replicate (length buckets) O)
  = List.map (fun b => hits b vals) buckets.
Proof.
  intros Hdis. apply list_eq. intros i.
  pose proof (tally_length buckets vals (replicate (length buckets) O)) as Hlen.
  rewrite length_replicate in Hlen.
  destruct (buckets !! i) as [b|] eqn:Hb.
  - pose proof (tally_lookup buckets vals (replicate (length buckets) O) i b Hdis
                  (length_replicate _ _) Hb) as H.
    rewrite lookup_replicate_default in H. simpl in H.
    assert (Hi : (i < length buckets)%nat) by (apply lookup_lt_is_Some; eauto).
    destruct (lookup_lt_is_Some_2 (tally buckets vals (replicate (length buckets) O)) i
                ltac:(lia)) as [c Hc].
    rewrite Hc in H |- *. simpl in H. subst c.
    change (List.map ?f ?l) with (f <$> l). rewrite list_lookup_fmap, Hb. reflexivity.
  - apply lookup_ge_None in Hb.
    rewrite (proj2 (lookup_ge_None _ _)) by lia.
    symmetry. apply lookup_ge_None. rewrite length_map. exact Hb.
Qed.

Ltac disjoint_literal :=
  intros v i j bi bj Hi Hj Hbi Hbj;
  repeat (destruct i as [|i]; simpl in Hi; [injection Hi as <-|]); try discriminate Hi;
  repeat (destruct j as [|j]; simpl in Hj; [injection Hj as <-|]); try discriminate Hj;
  try reflexivity; exfalso;
  destruct v as [| |q|]; num_bools; try discriminate; Qliterals; lra.

Lemma lagBuckets_disjoint : disjointBuckets lagBuckets.
Proof. unfold lagBuckets. disjoint_literal. Qed.

Lemma riskBuckets_disjoint : disjointBuckets riskBuckets.
Proof. unfold riskBuckets. disjoint_literal. Qed.


(** ** The loops of the page are the shared bucket loop *)

Lemma lagCounts_tally (hws : list Homework) (counts : list nat) :
  lagCounts hws counts
  = tally lagBuckets (List.map lag (List.filter (fun hw => isSome (deadline hw)) hws)) counts.
Proof.
  revert counts. induction hws as [|hw hws IH]; intros counts; [reflexivity|].
  cbn [lagCounts List.filter].
  destruct (deadline hw) as [dl|] eqn:E; cbn [isSome List.map].
  - rewrite IH. unfold tally. cbn [fold_left].
    replace (lag hw) with (diffHoursOf (getTime dl) (submitTimeValue hw))
      by (unfold lag; rewrite E; reflexivity).
    reflexivity.
  - apply IH.
Qed.

Lemma riskCounts_tally (now : number) (hws : list Homework) (counts : list nat) :
  riskCounts now hws counts
  = tally riskBuckets
      (List.filter (fun h => negb (num_lt h (ofZ 0))) (List.map (hoursUntil now) hws)) counts.
Proof.
  revert counts. induction hws as [|hw hws IH]; intros counts; [reflexivity|].
  cbn [riskCounts List.map List.filter].
  destruct (num_lt (hoursUntil now hw) (ofZ 0)); cbn [negb]; [apply IH|].
  rewrite IH. reflexivity.
Qed.

Lemma sum_alter_S (l : list nat) (i : nat) :
  (i < length l)%nat -> sum_list (alter S i l) = S (sum_list l).
Proof.
  revert i. induction l as [|x l IH]; intros [|i] Hi; cbn in *; try lia.
  change (list_alter S i l) with (alter S i l). rewrite IH by lia. lia.
Qed.

Lemma fold_add_sum (l : list nat) (a : nat) :
  fold_left Nat.add l a = (a + sum_list l)%nat.
Proof.
  revert a. induction l as [|x l IH]; intros a; simpl; [lia | rewrite IH; lia].
Qed.

Lemma sum_replicate_0 (n : nat) : sum_list (replicate n O) = O.
Proof. induction n; simpl; auto. Qed.

(** The counts grow by one for each value that some bucket holds. *)
Lemma tally_sum (buckets : list Bucket) (vals : list number) (counts : list nat) :
  length counts = length buckets ->
  sum_list (tally buckets vals counts)
  = (sum_list counts
     + length (List.filter (fun v => isSome (findIndex (inBucket v) buckets)) vals))%nat.
Proof.
  revert counts. induction vals as [|v vals IH]; intros counts Hlen; simpl; [lia|].
  unfold tally in *. simpl. rewrite IH by (rewrite bump_length; exact Hlen).
  destruct (findIndex (inBucket v) buckets) as [i|] eqn:Ef; simpl; [|lia].
  apply findIndex_Some in Ef as [[x [Hx _]] _].
  apply lookup_lt_Some in Hx. rewrite sum_alter_S by lia. lia.
Qed.

Lemma filter_length_all {A : Type} (p : A -> bool) (l : list A) :
  (forall x, In x l -> p x = true) -> length (List.filter p l) = length l.
Proof.
  induction l as [|x l IH]; intros H; simpl; [reflexivity|].
  rewrite (H x (or_introl eq_refl)). simpl. f_equal. apply IH.
  intros y Hy. apply H. right. exact Hy.
Qed.

Lemma filter_ext_length {A : Type} (p q : A -> bool) (l : list A) :
  (forall x, p x = q x) -> length (List.filter p l) = length (List.filter q l).
Proof.
  intros H. induction l as [|x l IH]; simpl; [reflexivity|].
  rewrite H. destruct (q x); simpl; lia.
Qed.

(** Decides, one after the other, the comparisons met while the first
    matching bucket of a literal list is looked for. *)
Ltac bucket_step :=
  unfold inBucket, num_gt, num_ge, ofZ;
  cbn [findIndex num_lt num_le min max option_map andb isSome].

Ltac find_bucket :=
  bucket_step;
  repeat match goal with
    | |- context [Qlt_bool ?a ?b] =>
        let E := fresh "E" in destruct (Qlt_bool a b) eqn:E; bucket_step
    | |- context [Qle_bool ?a ?b] =>
        let E := fresh "E" in destruct (Qle_bool a b) eqn:E; bucket_step
    end.


(** A value has a risk bucket exactly when it is positive. *)
Lemma risk_findIndex_positive (v : number) :
  isSome (findIndex (inBucket v) riskBuckets) = num_gt v (ofZ 0).
Proof.
  unfold riskBuckets. destruct v as [| |h|]; try reflexivity.
  find_bucket; try reflexivity; exfalso; num_bools; Qliterals; lra.
Qed.

Lemma inBucket_unique (buckets : list Bucket) (v : number) (i : nat) :
  disjointBuckets buckets ->
  findIndex (inBucket v) buckets = Some i ->
  forall j b, buckets !! j = Some b -> inBucket v b = true -> j = i.
Proof.
  intros Hdis Hf j b Hb Hin.
  apply findIndex_Some in Hf as [[x [Hx Hpx]] _].
  exact (Hdis v j i b x Hb Hx Hin Hpx).
Qed.

(** ** Submission-lag buckets *)

(** C1, as amended.  For every non-negative lag [h] in hours the bucketer
    picks the first bucket, in order, with [min < h <= max]; no other bucket
    holds [h]; [None] is returned exactly when no bucket holds [h]; and the
    boundary lag of 6 hours falls in the "0-6 hours" bucket (index 1, upper
    bound included), not in the "6-24 hours" bucket. *)
Theorem lag_bucket_first_match (h : Q) :
  (0 <= h)%Q ->
  (forall b, inBucket (Num h) b = true
             <-> num_lt (min b) (Num h) = true /\ num_le (Num h) (max b) = true) /\
  match findIndex (inBucket (Num h)) lagBuckets with
  | Some i =>
      (exists b, lagBuckets !! i = Some b /\ inBucket (Num h) b = true) /\
      (forall j b, (j < i)%nat -> lagBuckets !! j = Some b -> inBucket (Num h) b = false) /\
      (forall j b, lagBuckets !! j = Some b -> inBucket (Num h) b = true -> j = i)
  | None => forall j b, lagBuckets !! j = Some b -> inBucket (Num h) b = false
  end /\
  ((h == 6)%Q ->
   findIndex (inBucket (Num h)) lagBuckets = Some 1%nat /\
   label <$> lagBuckets !! 1%nat = Some "0-6小时"%string /\
   label <$> lagBuckets !! 2%nat = Some "6-24小时"%string).
Proof.
  intros Hh. split; [|split].
  - intros b. unfold inBucket, num_gt. apply andb_true_iff.
  - destruct (findIndex (inBucket (Num h)) lagBuckets) as [i|] eqn:Ef.
    + pose proof (proj1 (findIndex_Some _ _ _) Ef) as [Hx Hfirst].
      split; [exact Hx|]. split; [exact Hfirst|].
      exact (inBucket_unique lagBuckets (Num h) i lagBuckets_disjoint Ef).
    + apply findIndex_None. exact Ef.
  - intros H6. split; [|split; reflexivity].
    unfold lagBuckets. find_bucket; try reflexivity; exfalso; num_bools; Qliterals; lra.
Qed.


(** ** Pending risk *)

Lemma risk_never_negative (h : number) (b : Bucket) :
  num_lt h (ofZ 0) = true -> In b riskBuckets -> inBucket h b = false.
Proof.
  intros Hlt Hb. destruct (inBucket h b) eqn:Ein; [|reflexivity].
  exfalso. unfold riskBuckets in Hb. cbn [In] in Hb.
  destruct h as [| |q|]; try discriminate;
    repeat (destruct Hb as [<-|Hb]; [num_bools; try discriminate; Qliterals; lra|]);
    exact Hb.
Qed.

Lemma risk_hits_nonneg (b : Bucket) (vals : list number) :
  In b riskBuckets ->
  hits b (List.filter (fun h => negb (num_lt h (ofZ 0))) vals) = hits b vals.
Proof.
  intros Hb. unfold hits. induction vals as [|v vals IH]; [reflexivity|].
  cbn [List.filter]. destruct (num_lt v (ofZ 0)) eqn:Elt; cbn [negb List.filter].
  - rewrite IH. rewrite (risk_never_negative v b Elt Hb). reflexivity.
  - destruct (inBucket v b); cbn [length]; rewrite IH; reflexivity.
Qed.

Lemma filter_positive_nonneg (vals : list number) :
  length (List.filter (fun v => num_gt v (ofZ 0))
            (List.filter (fun h => negb (num_lt h (ofZ 0))) vals))
  = length (List.filter (fun v => num_gt v (ofZ 0)) vals).
Proof.
  induction vals as [|v vals IH]; [reflexivity|].
  cbn [List.filter]. destruct (num_lt v (ofZ 0)) eqn:Elt; cbn [negb List.filter].
  - destruct (num_gt v (ofZ 0)) eqn:Egt; [|exact IH].
    exfalso. destruct v as [| |q|]; try discriminate. num_bools. Qliterals. lra.
  - destruct (num_gt v (ofZ 0)); cbn [length]; rewrite IH; reflexivity.
Qed.

Lemma riskCounts_hits (now : number) (homeworks : list Homework) :
  riskCounts now (pending homeworks) (replicate (length riskBuckets) O)
  = List.map (fun b => hits b (List.map (hoursUntil now) (pending homeworks))) riskBuckets.
Proof.
  rewrite riskCounts_tally, (tally_counts _ _ riskBuckets_disjoint).
  apply map_ext_in. intros b Hb. apply risk_hits_nonneg. exact Hb.
Qed.

(** C5, as amended.  With [hrs] the hours until the deadline of the pending
    records: each of the four buckets counts the records whose hours it
    holds; a record with negative hours is in no bucket; a record with
    positive hours is in exactly one; the total is the number of records with
    positive hours, so a record that is due exactly now (0 hours) is left out
    of every bucket and of the total as well; and the risk score is the share
    of the first two buckets in the total, 0 when the total is 0. *)
Theorem pendingRisk_distribution (now : number) (homeworks : list Homework) :
  let hrs := List.map (hoursUntil now) (pending homeworks) in
  let r := pendingRisk now homeworks in
  let soon := (hits (mkBucket "<6小时" (ofZ 0) (ofZ 6)) hrs
               + hits (mkBucket "6-24小时" (ofZ 6) (ofZ 24)) hrs)%nat in
  List.map bar_value (risk_items r) = List.map (fun b => hits b hrs) riskBuckets /\
  List.map bar_label (risk_items r) = List.map label riskBuckets /\
  (forall h b, num_lt h (ofZ 0) = true -> In b riskBuckets -> inBucket h b = false) /\
  (forall h, num_gt h (ofZ 0) = true ->
     exists i, findIndex (inBucket h) riskBuckets = Some i /\
               forall j b, riskBuckets !! j = Some b -> inBucket h b = true -> j = i) /\
  (forall h, num_gt h (ofZ 0) = false -> findIndex (inBucket h) riskBuckets = None) /\
  risk_total r = length (List.filter (fun h => num_gt h (ofZ 0)) hrs) /\
  riskScore r
  = (if Nat.eqb (risk_total r) 0 then ofZ 0 else num_div (ofNat soon) (ofNat (risk_total r))).
Proof.
  intros hrs r soon.
  assert (Hcounts := riskCounts_hits now homeworks). fold hrs in Hcounts.
  assert (Htotal : risk_total r = length (List.filter (fun h => num_gt h (ofZ 0)) hrs)).
  { unfold r, pendingRisk. cbn [risk_total]. rewrite fold_add_sum, Nat.add_0_l.
    rewrite riskCounts_tally, tally_sum by apply length_replicate.
    rewrite sum_replicate_0, Nat.add_0_l. fold hrs.
    rewrite (filter_ext_length _ (fun v => num_gt v (ofZ 0))) by apply risk_findIndex_positive.
    apply filter_positive_nonneg. }
  split.
  { unfold r, pendingRisk. cbn [risk_items].
    rewrite bucketItems_values; [exact Hcounts|].
    rewrite Hcounts. rewrite length_map. reflexivity. }
  split.
  { unfold r, pendingRisk. cbn [risk_items]. apply bucketItems_labels. }
  split.
  { intros h b Hlt Hb. exact (risk_never_negative h b Hlt Hb). }
  split.
  { intros h Hgt. rewrite <- risk_findIndex_positive in Hgt.
    destruct (findIndex (inBucket h) riskBuckets) as [i|] eqn:Ef; [|discriminate].
    exists i. split; [reflexivity|].
    exact (inBucket_unique riskBuckets h i riskBuckets_disjoint Ef). }
  split.
  { intros h Hgt. rewrite <- risk_findIndex_positive in Hgt.
    destruct (findIndex (inBucket h) riskBuckets); [discriminate | reflexivity]. }
  split; [exact Htotal|].
  unfold r at 1, pendingRisk at 1. cbn [riskScore].
  change (fold_left Nat.add _ 0%nat) with (risk_total r).
  rewrite Hcounts. reflexivity.
Qed.

(** ** Rates *)

Lemma guarded_ratio (a b : nat) :
  (a <= b)%nat ->
  guardedRate (if Nat.eqb b 0 then ofZ 0 else num_div (ofNat a) (ofNat b)) b.
Proof.
  intros Hab. destruct (Nat.eqb b 0) eqn:E.
  - exists 0%Q. split; [reflexivity|]. split; [lra | reflexivity].
  - apply Nat.eqb_neq in E. destruct (ratio_finite a b Hab E) as [q [Hq Hrange]].
    exists q. split; [exact Hq|]. split; [exact Hrange | intros H0; contradiction].
Qed.

Lemma leadHours_lags (homeworks : list Homework) :
  leadHours homeworks = List.map lag (submittedWithDeadline homeworks).
Proof.
  unfold leadHours, submittedWithDeadline.
  destruct (submittedHomeworks homeworks) as [|hw sh]; reflexivity.
Qed.

Lemma submittedHomeworks_all (homeworks : list Homework) :
  Forall submitTimePresent homeworks ->
  submittedHomeworks homeworks = submittedAll homeworks.
Proof.
  unfold submittedHomeworks, submittedAll.
  induction 1 as [|hw hws Hhw _ IH]; [reflexivity|].
  cbn [List.filter]. destruct (submitted hw) eqn:E; [|exact IH].
  cbn [List.filter]. rewrite (Hhw E), IH. reflexivity.
Qed.

Lemma filter_filter_andb {A : Type} (p q : A -> bool) (l : list A) :
  List.filter q (List.filter p l) = List.filter (fun x => p x && q x) l.
Proof.
  induction l as [|x l IH]; [reflexivity|].
  cbn [List.filter]. destruct (p x); cbn [List.filter andb]; [|exact IH].
  destruct (q x); rewrite IH; reflexivity.
Qed.

Lemma within_code (lo hi : Z) (h : number) :
  num_ge h (ofZ lo) && num_le h (ofZ hi) = within (inject_Z lo) (inject_Z hi) h.
Proof. destruct h; reflexivity. Qed.

Lemma count_code (lo hi : Z) (lh : list number) :
  length (List.filter (fun h => num_ge h (ofZ lo) && num_le h (ofZ hi)) lh)
  = countWithin (inject_Z lo) (inject_Z hi) lh.
Proof. unfold countWithin. apply filter_ext_length. intros h. apply within_code. Qed.

Lemma ratio_value (a b : nat) :
  b <> O ->
  exists q, num_div (ofNat a) (ofNat b) = Num q /\
            (q == inject_Z (Z.of_nat a) / inject_Z (Z.of_nat b))%Q.
Proof.
  intros Hb. unfold num_div, ofNat.
  destruct (Qeq_bool (inject_Z (Z.of_nat b)) 0) eqn:E.
  - apply Qeq_bool_iff in E. pose proof (inject_Z_nat_pos b Hb) as Hpos.
    rewrite E in Hpos. exfalso. revert Hpos. apply Qlt_irrefl.
  - eexists. split; reflexivity.
Qed.

(** C6.  [leadHours] lists deadline minus submit time, in hours, of the
    submitted records with a deadline (all submitted records with a deadline
    when each submitted record carries its submit time); both rates are 0 on
    the empty list and otherwise the number of lead times in [0, 6], resp.
    [0, 24], over the length of the list; a negative lead time adds one to
    the length and nothing to either count. *)
Theorem last_rates_over_leadHours :
  (forall homeworks, leadHours homeworks = List.map lag (submittedWithDeadline homeworks)) /\
  (forall homeworks,
     Forall submitTimePresent homeworks ->
     submittedWithDeadline homeworks
     = List.filter (fun hw => submitted hw && isSome (deadline hw)) homeworks) /\
  last6Rate [] = ofZ 0 /\ last24Rate [] = ofZ 0 /\
  (forall lh, lh <> [] ->
     exists q6 q24,
       last6Rate lh = Num q6 /\ last24Rate lh = Num q24 /\
       (q6 == inject_Z (Z.of_nat (countWithin 0 6 lh)) / inject_Z (Z.of_nat (length lh)))%Q /\
       (q24 == inject_Z (Z.of_nat (countWithin 0 24 lh)) / inject_Z (Z.of_nat (length lh)))%Q) /\
  (forall h lh, num_lt h (ofZ 0) = true ->
     countWithin 0 6 (h :: lh) = countWithin 0 6 lh /\
     countWithin 0 24 (h :: lh) = countWithin 0 24 lh /\
     length (h :: lh) = S (length lh)).
Proof.
  split; [exact leadHours_lags|].
  split.
  { intros homeworks Hinv. unfold submittedWithDeadline.
    rewrite (submittedHomeworks_all homeworks Hinv). unfold submittedAll.
    apply filter_filter_andb. }
  split; [reflexivity|]. split; [reflexivity|].
  split.
  { intros lh Hne.
    assert (Hlen : length lh <> O) by (destruct lh; [contradiction | discriminate]).
    unfold last6Rate, last24Rate.
    rewrite (proj2 (Nat.eqb_neq _ _) Hlen).
    rewrite (count_code 0 6), (count_code 0 24).
    destruct (ratio_value (countWithin (inject_Z 0) (inject_Z 6) lh) (length lh) Hlen)
      as [q6 [H6 E6]].
    destruct (ratio_value (countWithin (inject_Z 0) (inject_Z 24) lh) (length lh) Hlen)
      as [q24 [H24 E24]].
    exists q6, q24. auto. }
  intros h lh Hlt. unfold countWithin. cbn [List.filter length].
  assert (Hout : forall hi, within 0 hi h = false).
  { intros hi. destruct h as [| |x|]; try reflexivity.
    cbn [within]. destruct (Qle_bool 0 x) eqn:E; [|reflexivity].
    exfalso. num_bools. Qliterals. lra. }
  rewrite !Hout. auto.
Qed.

Lemma soon_le_total (counts : list nat) :
  (default O (counts !! 0%nat) + default O (counts !! 1%nat) <= fold_left Nat.add counts O)%nat.
Proof.
  rewrite fold_add_sum.
  destruct counts as [|c0 [|c1 rest]]; cbn; lia.
Qed.

(** C8.  Every rate of the page is a finite number between 0 and 1, and is 0
    when its denominator is 0: the guard keeps the division from ever
    producing [NaN] or an infinity.  In particular the submission rate lies
    in [0, 1] and is 0 when there is no record. *)
Theorem rates_guarded (tz : Z) (now : number) (homeworks : list Homework) :
  guardedRate (submissionRate homeworks) (length homeworks) /\
  guardedRate (nightRate tz homeworks) (length (submittedHomeworks homeworks)) /\
  guardedRate (weekendRate tz homeworks) (length (submittedHomeworks homeworks)) /\
  guardedRate (lateRate homeworks) (length (submittedHomeworks homeworks)) /\
  guardedRate (last6Rate (leadHours homeworks)) (length (leadHours homeworks)) /\
  guardedRate (last24Rate (leadHours homeworks)) (length (leadHours homeworks)) /\
  guardedRate (riskScore (pendingRisk now homeworks)) (risk_total (pendingRisk now homeworks)).
Proof.
  split; [|split; [|split; [|split; [|split; [|split]]]]].
  - unfold submissionRate, submittedAll. apply guarded_ratio, filter_length_le.
  - unfold nightRate. apply guarded_ratio, filter_length_le.
  - unfold weekendRate. apply guarded_ratio, filter_length_le.
  - unfold lateRate. apply guarded_ratio, filter_length_le.
  - unfold last6Rate. apply guarded_ratio, filter_length_le.
  - unfold last24Rate. apply guarded_ratio, filter_length_le.
  - unfold pendingRisk. cbn [riskScore risk_total]. apply guarded_ratio, soon_le_total.
Qed.

(** ** Attachment sizes *)

Lemma num_same_refl (a : number) : num_same a a.
Proof. destruct a; simpl; auto. reflexivity. Qed.

Lemma num_add_same (a a' b : number) :
  num_same a a' -> num_same (num_add a b) (num_add a' b).
Proof.
  intros H. destruct a, a'; simpl in H; try contradiction;
    destruct b; simpl; auto.
  rewrite H. reflexivity.
Qed.

Lemma num_add_zero (a : number) (z : Q) :
  (z == 0)%Q -> num_same (num_add a (Num z)) a.
Proof.
  intros Hz. destruct a; simpl; auto. rewrite Hz. ring.
Qed.

Lemma fold_add_same (l : list number) (a a' : number) :
  num_same a a' -> num_same (fold_left num_add l a) (fold_left num_add l a').
Proof.
  revert a a'. induction l as [|x l IH]; intros a a' H; [exact H|].
  cbn [fold_left]. apply IH, num_add_same, H.
Qed.

Lemma submittedAll_app (l1 l2 : list Homework) :
  submittedAll (l1 ++ l2) = submittedAll l1 ++ submittedAll l2.
Proof. apply List.filter_app. Qed.

Lemma attachments_insert (hws1 hws2 : list Homework) (hw : Homework) (file : RemoteFile) :
  submitted hw = true -> submittedAttachment hw = Some file ->
  attachments (hws1 ++ hw :: hws2) = attachments hws1 ++ file :: attachments hws2 /\
  attachments (hws1 ++ hws2) = attachments hws1 ++ attachments hws2.
Proof.
  intros Hs Ha. unfold attachments. rewrite !submittedAll_app, !omap_app.
  split; [|reflexivity]. f_equal.
  unfold submittedAll at 1. cbn [List.filter]. rewrite Hs. cbn [omap list_omap].
  rewrite Ha. reflexivity.
Qed.

Lemma sizes_insert (hws1 hws2 : list Homework) (hw : Homework) (file : RemoteFile) (v : Q) :
  submitted hw = true -> submittedAttachment hw = Some file ->
  parseSizeToBytes (size file) = Some (Num v) ->
  sizes (hws1 ++ hw :: hws2) = sizes hws1 ++ Num v :: sizes hws2 /\
  sizes (hws1 ++ hws2) = sizes hws1 ++ sizes hws2.
Proof.
  intros Hs Ha Hp. unfold sizes.
  destruct (attachments_insert hws1 hws2 hw file Hs Ha) as [-> ->].
  rewrite !omap_app. split; [|reflexivity]. f_equal.
  cbn [omap list_omap]. rewrite Hp. reflexivity.
Qed.

Lemma zero_in_no_size_bucket (z : Q) (b : Bucket) :
  (z == 0)%Q -> In b sizeBuckets -> inBucket (Num z) b = false.
Proof.
  intros Hz Hb. destruct (inBucket (Num z) b) eqn:Ein; [|reflexivity].
  exfalso. unfold sizeBuckets in Hb. cbn [In] in Hb.
  repeat (destruct Hb as [<-|Hb]; [num_bools; Qliterals; lra|]). exact Hb.
Qed.

Lemma zero_size_no_index (z : Q) :
  (z == 0)%Q -> findIndex (inBucket (Num z)) sizeBuckets = None.
Proof.
  intros Hz. apply findIndex_None. intros i b Hb.
  apply zero_in_no_size_bucket; [exact Hz|].
  eapply list_elem_of_In, list_elem_of_lookup_2, Hb.
Qed.

Lemma sizeCounts_sum_le (szs : list number) :
  (sum_list (sizeCounts szs (replicate (length sizeBuckets) O)) <= length szs)%nat.
Proof.
  change (sizeCounts szs ?c) with (tally sizeBuckets szs c).
  rewrite tally_sum by apply length_replicate.
  rewrite sum_replicate_0, Nat.add_0_l. apply filter_length_le.
Qed.

(** C10.  A submitted record whose attachment size parses to 0 bytes adds
    one to [total], nothing to [totalSize], and nothing to any size bucket,
    since 0 is not above the lower bound 0 of the lowest bucket; it is one of
    the parsed sizes all the same, so the bucket counts add up to less than
    the number of parsed sizes. *)
Theorem zero_size_attachment_in_no_bucket
    (hws1 hws2 : list Homework) (hw : Homework) (file : RemoteFile) (z : Q) :
  submitted hw = true ->
  submittedAttachment hw = Some file ->
  parseSizeToBytes (size file) = Some (Num z) ->
  (z == 0)%Q ->
  let st := attachmentStats (hws1 ++ hw :: hws2) in
  let st0 := attachmentStats (hws1 ++ hws2) in
  att_total st = S (att_total st0) /\
  num_same (totalSize st) (totalSize st0) /\
  att_bucketItems st = att_bucketItems st0 /\
  (forall b, In b sizeBuckets -> inBucket (Num z) b = false) /\
  length (sizes (hws1 ++ hw :: hws2)) = S (length (sizes (hws1 ++ hws2))) /\
  (sum_list (List.map bar_value (att_bucketItems st)) < length (sizes (hws1 ++ hw :: hws2)))%nat.
Proof.
  intros Hs Ha Hp Hz st st0.
  destruct (attachments_insert hws1 hws2 hw file Hs Ha) as [Hatt Hatt0].
  destruct (sizes_insert hws1 hws2 hw file z Hs Ha Hp) as [Hsz Hsz0].
  assert (Hcounts : forall c,
             sizeCounts (sizes (hws1 ++ hw :: hws2)) c = sizeCounts (sizes (hws1 ++ hws2)) c).
  { intros c. rewrite Hsz, Hsz0. unfold sizeCounts. rewrite !fold_left_app.
    cbn [fold_left]. rewrite (zero_size_no_index z Hz). reflexivity. }
  assert (Hlen : length (sizes (hws1 ++ hw :: hws2)) = S (length (sizes (hws1 ++ hws2)))).
  { rewrite Hsz, Hsz0, !length_app. cbn [length]. lia. }
  split.
  { unfold st, st0, attachmentStats. cbn [att_total]. rewrite Hatt, Hatt0, !length_app.
    cbn [length]. lia. }
  split.
  { unfold st, st0, attachmentStats. cbn [totalSize]. rewrite Hsz, Hsz0, !fold_left_app.
    cbn [fold_left]. apply fold_add_same, num_add_zero, Hz. }
  split.
  { unfold st, st0, attachmentStats. cbn [att_bucketItems]. rewrite Hcounts. reflexivity. }
  split; [intros b; apply zero_in_no_size_bucket, Hz|].
  split; [exact Hlen|].
  unfold st, attachmentStats. cbn [att_bucketItems].
  rewrite bucketItems_values
    by (change (sizeCounts ?s ?c) with (tally sizeBuckets s c);
        rewrite tally_length; apply length_replicate).
  rewrite Hcounts, Hlen.
  pose proof (sizeCounts_sum_le (sizes (hws1 ++ hws2))). lia.
Qed.

(** ** Procrastination profile *)

Lemma Zlt_Qlt_bool (a b : Z) : Qlt_bool (inject_Z a) (inject_Z b) = (a <? b).
Proof.
  destruct (a <? b) eqn:E.
  - apply Qlt_bool_iff. rewrite <- Zlt_Qlt. apply Z.ltb_lt. exact E.
  - apply Qlt_bool_false_iff. rewrite <- Zle_Qle. apply Z.ltb_ge. exact E.
Qed.

(** The score and the pair of texts for a clamped, scaled value [x]. *)
Lemma profile_of_score (l r24 r6 : number) (x : Q) :
  num_mul
    (Math_min (ofZ 1)
       (num_add (num_add (num_mul l (Num (5 # 10))) (num_mul r24 (Num (3 # 10))))
          (num_mul r6 (Num (2 # 10)))))
    (ofZ 100) = Num x ->
  let p := procrastinationProfile l r24 r6 in
  score p = ofZ (Qfloor (x + (1 # 2))) /\
  (profile_label p, desc p) = bandOf (Qfloor (x + (1 # 2))).
Proof.
  intros Hx. unfold procrastinationProfile. rewrite Hx. cbn [Math_round].
  unfold num_gt, bandOf. generalize (Qfloor (x + (1 # 2))) as s. intros s.
  unfold ofZ at 1 3 5 7. cbn [num_lt ofZ]. unfold ofZ. cbn [num_lt].
  rewrite !Zlt_Qlt_bool.
  destruct (80 <? s); [split; reflexivity|].
  destruct (60 <? s); [split; reflexivity|].
  destruct (40 <? s); [split; reflexivity|].
  destruct (20 <? s); split; reflexivity.
Qed.

(** The score of three rates that are not negative. *)
Lemma profile_scored (lateRate last24Rate last6Rate : Q) :
  (0 <= lateRate)%Q -> (0 <= last24Rate)%Q -> (0 <= last6Rate)%Q ->
  let rawScore := (lateRate * (5 # 10) + last24Rate * (3 # 10) + last6Rate * (2 # 10))%Q in
  let p := procrastinationProfile (Num lateRate) (Num last24Rate) (Num last6Rate) in
  exists s : Z,
    score p = ofZ s /\
    (inject_Z s - (1 # 2) <= clamp01 rawScore * 100 < inject_Z s + (1 # 2))%Q /\
    0 <= s <= 100 /\
    (profile_label p, desc p) = bandOf s.
Proof.
  intros Hl H24 H6 rawScore p.
  assert (Hraw : (0 <= rawScore)%Q) by (unfold rawScore; nra).
  set (c := if Qle_bool 1 rawScore then 1%Q else rawScore).
  assert (Hc : (c == clamp01 rawScore)%Q).
  { unfold c, clamp01.
    destruct (Qlt_bool rawScore 0) eqn:E0; [num_bools; lra|].
    destruct (Qle_bool 1 rawScore) eqn:E1; destruct (Qlt_bool 1 rawScore) eqn:E2;
      num_bools; try reflexivity; lra. }
  assert (Hrange : (0 <= c <= 1)%Q).
  { unfold c. destruct (Qle_bool 1 rawScore) eqn:E1; num_bools; lra. }
  destruct (profile_of_score (Num lateRate) (Num last24Rate) (Num last6Rate) (c * 100))
    as [Hscore Hband].
  { cbn [num_mul num_add Math_min ofZ num_le]. unfold c, ofZ.
    change (inject_Z 1) with 1%Q.
    destruct (Qle_bool 1 rawScore) eqn:E; fold rawScore; rewrite ?E; reflexivity. }
  exists (Qfloor (c * 100 + (1 # 2))). fold p in Hscore, Hband.
  split; [exact Hscore|].
  pose proof (Qfloor_le (c * 100 + (1 # 2))) as Hlo.
  pose proof (Qlt_floor (c * 100 + (1 # 2))) as Hhi.
  rewrite inject_Z_plus in Hhi. change (inject_Z 1) with 1%Q in Hhi.
  split; [rewrite <- Hc; split; lra|].
  split; [|exact Hband].
  split.
  - assert (H0 : (0 <= c * 100 + (1 # 2))%Q) by lra.
    apply Qfloor_resp_le in H0. exact H0.
  - assert (H100 : (c * 100 + (1 # 2) <= 100 + (1 # 2))%Q) by lra.
    apply Qfloor_resp_le in H100. exact H100.
Qed.

(** The three rates the page feeds to the profile are never negative, so
    [profile_scored] applies to the profile of every record set. *)
Lemma page_profile_scored (homeworks : list Homework) :
  exists l r24 r6 : Q,
    lateRate homeworks = Num l /\
    last24Rate (leadHours homeworks) = Num r24 /\
    last6Rate (leadHours homeworks) = Num r6 /\
    exists s : Z,
      score (procrastinationProfile (lateRate homeworks) (last24Rate (leadHours homeworks))
               (last6Rate (leadHours homeworks))) = ofZ s /\
      (inject_Z s - (1 # 2)
       <= clamp01 (l * (5 # 10) + r24 * (3 # 10) + r6 * (2 # 10)) * 100
       < inject_Z s + (1 # 2))%Q /\
      0 <= s <= 100.
Proof.
  assert (Hl : guardedRate (lateRate homeworks) (length (submittedHomeworks homeworks)))
    by (unfold lateRate; apply guarded_ratio, filter_length_le).
  assert (H24 : guardedRate (last24Rate (leadHours homeworks)) (length (leadHours homeworks)))
    by (unfold last24Rate; apply guarded_ratio, filter_length_le).
  assert (H6 : guardedRate (last6Rate (leadHours homeworks)) (length (leadHours homeworks)))
    by (unfold last6Rate; apply guarded_ratio, filter_length_le).
  destruct Hl as [l [El [[Hl _] _]]]. destruct H24 as [r24 [E24 [[H24 _] _]]].
  destruct H6 as [r6 [E6 [[H6 _] _]]].
  exists l, r24, r6. rewrite El, E24, E6.
  split; [reflexivity|]. split; [reflexivity|]. split; [reflexivity|].
  destruct (profile_scored l r24 r6 Hl H24 H6) as [s [Hs [Hround [Hrange _]]]].
  exists s. auto.
Qed.


(** ** Calendar heat map *)

Lemma week_fold (f : nat -> HeatCell) (g : nat -> nat -> nat)
    (ds : list nat) (week : list HeatCell) (mx : nat) :
  fst (fold_left (fun '(week, mx) d => (week ++ [f d], g mx d)) ds (week, mx))
  = week ++ List.map f ds.
Proof.
  revert week mx. induction ds as [|d ds IH]; intros week mx; cbn [fold_left List.map].
  - rewrite app_nil_r. reflexivity.
  - rewrite IH, <- app_assoc. reflexivity.
Qed.

Lemma calendarWeek_cells (tz : Z) (counts : gmap string nat) (start : Date) (w mx : nat) :
  fst (calendarWeek tz counts start w mx)
  = List.map (gridCell tz counts start w) (seq 0 7).
Proof.
  exact (week_fold (gridCell tz counts start w)
           (fun mx d =>
              let value :=
                default O (counts !! formatDateKey tz (addDays start (Z.of_nat (w * 7 + d)))) in
              if (mx <? value)%nat then value else mx)
           (seq 0 7) [] mx).
Qed.

Lemma calendarStep_week (tz : Z) (counts : gmap string nat) (start : Date)
    (st : list (list HeatCell) * list string * nat * option Z) (w : nat) :
  fst (fst (fst (calendarStep tz counts start st w)))
  = fst (fst (fst st)) ++ [List.map (gridCell tz counts start w) (seq 0 7)].
Proof.
  destruct st as [[[wks labels] mx] lastMonth]. unfold calendarStep.
  pose proof (calendarWeek_cells tz counts start w mx) as Hw.
  destruct (calendarWeek tz counts start w mx) as [week mx'].
  cbn [fst] in Hw. rewrite Hw.
  destruct (int_neq _ lastMonth); reflexivity.
Qed.

Lemma calendarStep_weeks (tz : Z) (counts : gmap string nat) (start : Date)
    (ws : list nat) (st : list (list HeatCell) * list string * nat * option Z) :
  fst (fst (fst (fold_left (calendarStep tz counts start) ws st)))
  = fst (fst (fst st))
    ++ List.map (fun w => List.map (gridCell tz counts start w) (seq 0 7)) ws.
Proof.
  revert st. induction ws as [|w ws IH]; intros st; cbn [fold_left List.map].
  - rewrite app_nil_r. reflexivity.
  - rewrite IH, calendarStep_week, <- app_assoc. reflexivity.
Qed.

(** The grid of a non-empty record set: 16 weeks of 7 cells, the cell of week
    [w] and weekday [d] being the day [7 w + d] days after the first one. *)
Lemma calendar_grid (tz : Z) (homeworks : list Homework) :
  submittedHomeworks homeworks <> [] ->
  weeks (calendarHeatmap tz homeworks)
  = List.map
      (fun w =>
         List.map
           (gridCell tz (countByDay tz (submittedHomeworks homeworks))
              (calendarStart tz (submittedHomeworks homeworks)) w)
           (seq 0 7))
      (seq 0 weeksCount).
Proof.
  intros Hne. unfold calendarHeatmap.
  destruct (submittedHomeworks homeworks) as [|hw sh] eqn:Esh; [contradiction|].
  cbn [length Nat.eqb].
  pose proof (calendarStep_weeks tz (countByDay tz (hw :: sh)) (calendarStart tz (hw :: sh))
                (seq 0 weeksCount) ([], [], O, Some (-1))) as H.
  destruct (fold_left _ (seq 0 weeksCount) _) as [[[wks labels] mx] lastMonth].
  cbn [fst app weeks] in *. exact H.
Qed.

Lemma calendar_shape (tz : Z) (homeworks : list Homework) :
  submittedHomeworks homeworks <> [] ->
  length (weeks (calendarHeatmap tz homeworks)) = 16%nat /\
  Forall (fun week => length week = 7%nat) (weeks (calendarHeatmap tz homeworks)) /\
  length (concat (weeks (calendarHeatmap tz homeworks))) = 112%nat.
Proof.
  intros Hne. rewrite (calendar_grid tz homeworks Hne).
  generalize (gridCell tz (countByDay tz (submittedHomeworks homeworks))
                (calendarStart tz (submittedHomeworks homeworks))) as cell.
  intros cell. split; [reflexivity|]. split.
  - apply List.Forall_forall. intros week Hin.
    apply in_map_iff in Hin as [w [<- _]]. reflexivity.
  - reflexivity.
Qed.

Lemma Zle_Qle_bool (a b : Z) : Qle_bool (inject_Z a) (inject_Z b) = (a <=? b).
Proof.
  destruct (a <=? b) eqn:E.
  - apply Qle_bool_iff. rewrite <- Zle_Qle. apply Z.leb_le. exact E.
  - apply Qle_bool_false_iff. rewrite <- Zlt_Qlt. apply Z.leb_gt. exact E.
Qed.

Lemma Math_max_ofZ (a b : Z) : Math_max (ofZ a) (ofZ b) = ofZ (Z.max a b).
Proof.
  unfold Math_max, ofZ. cbn [num_le]. rewrite Zle_Qle_bool.
  destruct (a <=? b) eqn:E.
  - apply Z.leb_le in E. rewrite Z.max_r by exact E. reflexivity.
  - apply Z.leb_gt in E. rewrite Z.max_l by lia. reflexivity.
Qed.

Lemma fold_max_ofZ (ts : list Z) (a : Z) :
  fold_left Math_max (List.map ofZ ts) (ofZ a) = ofZ (fold_left Z.max ts a).
Proof.
  revert a. induction ts as [|t ts IH]; intros a; cbn [fold_left List.map]; [reflexivity|].
  rewrite Math_max_ofZ. apply IH.
Qed.

Lemma fold_max_upper (ts : list Z) (a m : Z) :
  a <= m -> Forall (fun x => x <= m) ts -> fold_left Z.max ts a <= m.
Proof.
  revert a. induction ts as [|t ts IH]; intros a Ha Hts; cbn [fold_left]; [exact Ha|].
  inversion Hts; subst. apply IH; [lia | assumption].
Qed.

Lemma fold_max_lower (ts : list Z) (a : Z) :
  a <= fold_left Z.max ts a /\ Forall (fun x => x <= fold_left Z.max ts a) ts.
Proof.
  revert a. induction ts as [|t ts IH]; intros a; cbn [fold_left]; [split; [lia | constructor]|].
  destruct (IH (Z.max a t)) as [H1 H2]. split; [lia|].
  constructor; [lia | exact H2].
Qed.

(** The latest of a non-empty list of valid submit times. *)
Lemma max_submit_time (sh : list Homework) (t : Z) :
  Forall (fun hw => validDate (submitDate hw) = true) sh ->
  In t (List.map submitMs sh) ->
  Forall (fun x => x <= t) (List.map submitMs sh) ->
  Date_of_number (Math_max_list (List.map (fun h => getTime (submitDate h)) sh)) = mkDate t.
Proof.
  intros Hvalid Hin Hmax.
  assert (Htimes : List.map (fun h => getTime (submitDate h)) sh
                   = List.map ofZ (List.map submitMs sh)).
  { rewrite List.map_map. apply map_ext_in. intros hw Hhw.
    rewrite List.Forall_forall in Hvalid. specialize (Hvalid hw Hhw).
    unfold submitDate, submitMs in *. destruct (submitTime hw) as [[t'|]|]; try discriminate.
    reflexivity. }
  rewrite Htimes. unfold Math_max_list.
  destruct (List.map submitMs sh) as [|t0 ts] eqn:Ets; [contradiction|].
  cbn [List.map fold_left]. change (Math_max NegInfinity (ofZ t0)) with (ofZ t0).
  rewrite fold_max_ofZ. unfold ofZ, Date_of_number. rewrite Qfloor_Z. f_equal.
  inversion Hmax as [|? ? Ht0 Hts]; subst.
  pose proof (fold_max_upper ts t0 t Ht0 Hts) as Hup.
  destruct (fold_max_lower ts t0) as [Hlo1 Hlo2].
  destruct Hin as [<-|Hin]; [lia|].
  rewrite List.Forall_forall in Hlo2. specialize (Hlo2 t Hin). lia.
Qed.

(** Where the grid starts and ends relative to the day of the latest
    submission: the first day is a Sunday, and the last day, 111 days later,
    is [(weekday + 1) mod 7] days before the day of the latest submission. *)
Lemma grid_end_day (tz t : Z) :
  exists t0,
    startOfWeek tz (addDays (mkDate t) (- (Z.of_nat weeksCount * 7 - 1))) = mkDate t0 /\
    getDay tz (mkDate t0) = Some 0 /\
    localDay tz (t0 + 111 * msPerDay)
    = localDay tz t - ((localDay tz t + 4) mod 7 + 1) mod 7.
Proof.
  eexists. split; [reflexivity|].
  unfold getDay, localDay, localTimeInDay, msPerDay, weeksCount.
  change (- (Z.of_nat 16 * 7 - 1)) with (-111).
  split; [f_equal|]; Z.div_mod_to_equations; lia.
Qed.

(** The day of the latest submission is in the grid only on a Saturday. *)
Lemma calendar_latest_day_in_grid (tz : Z) (homeworks : list Homework) (t wd : Z) :
  submittedHomeworks homeworks <> [] ->
  Forall (fun hw => validDate (submitDate hw) = true) (submittedHomeworks homeworks) ->
  In t (List.map submitMs (submittedHomeworks homeworks)) ->
  Forall (fun x => x <= t) (List.map submitMs (submittedHomeworks homeworks)) ->
  getDay tz (mkDate t) = Some wd ->
  exists t0,
    calendarStart tz (submittedHomeworks homeworks) = mkDate t0 /\
    getDay tz (mkDate t0) = Some 0 /\
    (forall k, localDay tz (t0 + k * msPerDay) = localDay tz t0 + k) /\
    localDay tz t0 + 111 = localDay tz t - (wd + 1) mod 7 /\
    ((exists k, 0 <= k < 112 /\ localDay tz (t0 + k * msPerDay) = localDay tz t) <-> wd = 6).
Proof.
  intros Hne Hvalid Hin Hmax Hwd.
  unfold calendarStart. rewrite (max_submit_time _ t Hvalid Hin Hmax).
  destruct (grid_end_day tz t) as [t0 [Hstart [Hsun Hend]]].
  exists t0. split; [exact Hstart|]. split; [exact Hsun|].
  assert (Hshift : forall k, localDay tz (t0 + k * msPerDay) = localDay tz t0 + k).
  { intros k. unfold localDay, msPerDay. Z.div_mod_to_equations. lia. }
  injection Hwd as Hwd. rewrite Hwd in Hend. rewrite Hshift in Hend.
  assert (Hwd_range : 0 <= wd < 7) by (rewrite <- Hwd; apply Z.mod_pos_bound; lia).
  split; [exact Hshift|]. split; [exact Hend|].
  split.
  - intros [k [Hk Hday]]. rewrite Hshift in Hday.
    assert (0 <= (wd + 1) mod 7 < 7) by (apply Z.mod_pos_bound; lia).
    assert ((wd + 1) mod 7 = 0) as Hz by lia.
    revert Hz. Z.div_mod_to_equations. lia.
  - intros ->. exists 111. split; [lia|]. rewrite Hshift. 
    change ((6 + 1) mod 7) with 0 in Hend. lia.
Qed.

(** ** Submission trend *)

(** The swap of reversed endpoints goes through [tmp], which is the object
    [startCandidate] itself: both objects end with the earlier time. *)
Lemma semesterCandidates_reversed (s e : Z) :
  e < s -> fst (semesterCandidates (mkDate s) (mkDate e) []) = (ofZ e, ofZ e).
Proof.
  intros H. unfold semesterCandidates.
  cbv [mbind mret Obj_bind Obj_ret new_Date obj_getTime obj_setTime getTime].
  cbn [length app lookup list_lookup default insert list_insert fst].
  unfold Datatypes.id, ofZ. cbn [num_lt].
  rewrite Zlt_Qlt_bool, (proj2 (Z.ltb_lt e s) H). reflexivity.
Qed.

Lemma semesterCandidates_ordered (s e : Z) :
  s <= e -> fst (semesterCandidates (mkDate s) (mkDate e) []) = (ofZ s, ofZ e).
Proof.
  intros H. unfold semesterCandidates.
  cbv [mbind mret Obj_bind Obj_ret new_Date obj_getTime obj_setTime getTime].
  cbn [length app lookup list_lookup default insert list_insert fst].
  unfold Datatypes.id, ofZ. cbn [num_lt].
  rewrite Zlt_Qlt_bool, (proj2 (Z.ltb_ge e s) H). reflexivity.
Qed.

Lemma rangeDays_value (s e : Z) :
  num_div (num_sub (ofZ e) (ofZ s)) (ofZ msPerDay)
  = Num ((inject_Z e + - inject_Z s) / inject_Z msPerDay).
Proof. reflexivity. Qed.

Lemma range_as_Z (s e : Z) :
  ((inject_Z e + - inject_Z s) / inject_Z msPerDay == inject_Z (e - s) / inject_Z msPerDay)%Q.
Proof.
  unfold Z.sub. rewrite inject_Z_plus, inject_Z_opp. reflexivity.
Qed.

Lemma range_at_least_7 (s e : Z) :
  Qle_bool (inject_Z 7) ((inject_Z e + - inject_Z s) / inject_Z msPerDay)
  = (7 * msPerDay <=? e - s).
Proof.
  assert (Hd : (0 < inject_Z msPerDay)%Q) by reflexivity.
  destruct (7 * msPerDay <=? e - s) eqn:E.
  - apply Z.leb_le in E. apply Qle_bool_iff. rewrite range_as_Z.
    apply Qle_shift_div_l; [exact Hd|].
    rewrite <- inject_Z_mult, <- Zle_Qle. exact E.
  - apply Z.leb_gt in E. apply Qle_bool_false_iff. rewrite range_as_Z.
    apply Qlt_shift_div_r; [exact Hd|].
    rewrite <- inject_Z_mult, <- Zlt_Qlt. exact E.
Qed.

(** Reversed endpoints never select the semester window. *)
Lemma trendWindow_reversed (homeworks : list Homework) (s e : Z) :
  e < s ->
  trendWindow homeworks (semesterOf s e) = trendWindow homeworks (mkSemester None None).
Proof.
  intros H. unfold trendWindow, semesterOf. cbn [startDate endDate].
  rewrite (semesterCandidates_reversed s e H), rangeDays_value.
  cbn [isFinite andb]. unfold num_ge, ofZ. cbn [num_le].
  rewrite range_at_least_7. replace (e - e) with 0 by lia. reflexivity.
Qed.

Lemma trendWindow_ordered (homeworks : list Homework) (s e : Z) :
  s <= e -> 7 * msPerDay <= e - s ->
  trendWindow homeworks (semesterOf s e) = (ofZ s, ofZ e).
Proof.
  intros H H7. unfold trendWindow, semesterOf. cbn [startDate endDate].
  rewrite (semesterCandidates_ordered s e H), rangeDays_value.
  cbn [isFinite andb]. unfold num_ge, ofZ. cbn [num_le].
  rewrite range_at_least_7, (proj2 (Z.leb_le _ _) H7). reflexivity.
Qed.

Lemma submissionTrend_reversed (tz : Z) (homeworks : list Homework) (s e : Z) :
  e < s ->
  submissionTrend tz homeworks (semesterOf s e)
  = submissionTrend tz homeworks (mkSemester None None).
Proof.
  intros H. unfold submissionTrend. rewrite (trendWindow_reversed homeworks s e H).
  reflexivity.
Qed.

Lemma Qceiling_div (x d : Z) :
  0 < d -> Qceiling (inject_Z x / inject_Z d) = (x + d - 1) / d.
Proof.
  intros Hd. unfold Qceiling.
  assert (E : (- (inject_Z x / inject_Z d) == inject_Z (- x) / inject_Z d)%Q).
  { rewrite inject_Z_opp. unfold Qdiv. ring. }
  rewrite (Qfloor_comp _ _ E), <- Zdiv_Qdiv.
  Z.div_mod_to_equations. nia.
Qed.

(** With ordered endpoints at least 7 days apart and some candidate date, the
    series starts at the semester start and has one point per day for
    [ceil (span in days) + 1] days. *)
Lemma submissionTrend_ordered (tz : Z) (homeworks : list Homework) (s e : Z) :
  candidateDates homeworks <> [] ->
  s <= e -> 7 * msPerDay <= e - s ->
  submissionTrend tz homeworks (semesterOf s e)
  = List.map
      (fun i => trendPoint tz (countByDay tz (submittedHomeworks homeworks))
                  (addDays (mkDate s) (Z.of_nat i)))
      (seq 0 (Z.to_nat ((e - s + msPerDay - 1) / msPerDay + 1))).
Proof.
  intros Hne H H7. unfold submissionTrend.
  destruct (candidateDates homeworks) as [|c cs] eqn:Ec; [contradiction|].
  cbn [length Nat.eqb].
  rewrite (trendWindow_ordered homeworks s e H H7), rangeDays_value.
  assert (Hstart : Date_of_number (ofZ s) = mkDate s)
    by (unfold ofZ, Date_of_number; rewrite Qfloor_Z; reflexivity).
  rewrite Hstart. cbn [Math_ceil]. rewrite (Qceiling_comp _ _ (range_as_Z s e)).
  rewrite Qceiling_div by reflexivity.
  set (k := (e - s + msPerDay - 1) / msPerDay).
  assert (Hk : 7 <= k).
  { unfold k, msPerDay in *. Z.div_mod_to_equations. lia. }
  unfold ofZ. cbn [num_add]. unfold Math_max. cbn [num_le].
  assert (Hsum : (inject_Z k + inject_Z 1 == inject_Z (k + 1))%Q)
    by (rewrite inject_Z_plus; reflexivity).
  destruct (Qle_bool (inject_Z 1) (inject_Z k + inject_Z 1)) eqn:E.
  - cbn [iterations]. rewrite (Qceiling_comp _ _ Hsum), Qceiling_Z. reflexivity.
  - exfalso. apply Qle_bool_false_iff in E. rewrite Hsum, <- Zlt_Qlt in E. lia.
Qed.

(** ** The size parser *)







(** *** [/^\d+$/] *)




(** *** Character classes *)












(** *** Unfolding equations of the matcher *)



(** *** A string of digits and dots has no unit *)






(** *** A number followed by a unit *)











(** ** The statements at sample records *)

Lemma lag_bucket_first_match_witness :
  (0 <= 6)%Q /\ findIndex (inBucket (Num 6)) lagBuckets = Some 1%nat.
Proof.
  assert (H : (0 <= 6)%Q) by (apply Qle_bool_iff; reflexivity).
  split; [exact H|].
  exact (proj1 (proj2 (proj2 (lag_bucket_first_match 6 H)) (Qeq_refl 6))).
Defined.

(** A lag of exactly 6 hours is counted in the "0-6 hours" bucket, the second
    one, and not in the "6-24 hours" bucket, the third. *)
Lemma lag_six_hours_in_0_6 :
  num_same (lag sixHoursEarly) (Num 6) /\
  findIndex (inBucket (lag sixHoursEarly)) lagBuckets = Some 1%nat /\
  findIndex (inBucket (ofZ 6)) lagBuckets = Some 1%nat /\
  findIndex (inBucket (ofZ 6)) lagBuckets <> Some 2%nat /\
  submissionLagBuckets [sixHoursEarly]
  = [ mkBarItem "逾期" 0; mkBarItem "0-6小时" 1; mkBarItem "6-24小时" 0;
      mkBarItem "1-3天" 0; mkBarItem "3天以上" 0 ].
Proof.
  split; [vm_compute; reflexivity|].
  split; [vm_compute; reflexivity|].
  split; [vm_compute; reflexivity|].
  split; [vm_compute; discriminate | vm_compute; reflexivity].
Qed.


(** C2 at a failing input.  One record, submitted on Sunday 2024-01-07: the
    grid has 16 weeks of 7 cells, but its last week runs from 2023-12-31 to
    2024-01-06, the day of the submission is in no cell, and the largest
    count of the grid is 0. *)
Theorem calendar_misses_latest_submission :
  let cal := calendarHeatmap tzBeijing [sundaySubmission] in
  getDay tzBeijing (mkDate sundayEvening) = Some 0 /\
  formatDateKey tzBeijing (mkDate sundayEvening) = "2024-01-07"%string /\
  length (weeks cal) = 16%nat /\
  forallb (fun week => Nat.eqb (length week) 7) (weeks cal) = true /\
  List.map cell_label <$> last (weeks cal)
  = Some [ "2023-12-31"; "2024-01-01"; "2024-01-02"; "2024-01-03";
           "2024-01-04"; "2024-01-05"; "2024-01-06" ]%string /\
  existsb (String.eqb "2024-01-07") (List.map cell_label (concat (weeks cal))) = false /\
  cal_max cal = 0%nat.
Proof. vm_compute. repeat split. Qed.

(** C3 at a failing input.  The semester is given as 2024-06-30 to
    2024-02-01, reversed and 150 days apart, and the only candidate date is a
    submission on 2024-03-01: the series is the single point of that day,
    where the same endpoints in order give the 151 days from 02/01 to 06/30. *)
Theorem trend_ignores_reversed_semester :
  jun30 - feb1 = 150 * msPerDay /\
  submissionTrend tzBeijing [marchSubmission] (semesterOf jun30 feb1)
  = [ mkLineItem "03/01" 1 ] /\
  let ordered := submissionTrend tzBeijing [marchSubmission] (semesterOf feb1 jun30) in
  length ordered = 151%nat /\
  line_label <$> head ordered = Some "02/01"%string /\
  line_label <$> last ordered = Some "06/30"%string.
Proof. vm_compute. repeat split. Qed.

(** With ordered endpoints whose times of day differ the series can run one
    day past the end: from 02/01 00:00 to 02/08 12:00 it has 9 points, the
    last one for 02/09. *)
Lemma trend_ordered_may_pass_end :
  let series :=
    submissionTrend 0 [marchSubmission] (semesterOf feb1 (feb1 + 7 * msPerDay + 12 * msPerHour)) in
  formatDateKey 0 (mkDate (feb1 + 7 * msPerDay + 12 * msPerHour)) = "2024-02-08"%string /\
  length series = 9%nat /\
  line_label <$> last series = Some "02/09"%string.
Proof. vm_compute. repeat split. Qed.



Lemma pendingRisk_distribution_witness :
  num_gt (Num 3) (ofZ 0) = true /\
  exists i, findIndex (inBucket (Num 3)) riskBuckets = Some i.
Proof.
  split; [reflexivity|].
  destruct (proj1 (proj2 (proj2 (proj2
              (pendingRisk_distribution (ofZ sundayEvening) [dueSundayEvening]))))
              (Num 3) eq_refl) as [i [Hi _]].
  exists i. exact Hi.
Defined.

(** A pending record that is due exactly now has 0 hours left, which is not
    negative, and yet it is in no bucket and not in the total. *)
Lemma pendingRisk_due_now_dropped :
  let now := ofZ sundayEvening in
  pending [dueSundayEvening] = [dueSundayEvening] /\
  num_same (hoursUntil now dueSundayEvening) (Num 0) /\
  num_lt (hoursUntil now dueSundayEvening) (ofZ 0) = false /\
  findIndex (inBucket (hoursUntil now dueSundayEvening)) riskBuckets = None /\
  risk_total (pendingRisk now [dueSundayEvening]) = 0%nat /\
  List.map bar_value (risk_items (pendingRisk now [dueSundayEvening])) = [0; 0; 0; 0]%nat.
Proof. vm_compute. repeat split. Qed.

Lemma last_rates_over_leadHours_witness :
  Forall submitTimePresent [sixHoursEarly] /\
  submittedWithDeadline [sixHoursEarly]
  = List.filter (fun hw => submitted hw && isSome (deadline hw)) [sixHoursEarly] /\
  [Num 3] <> [] /\
  exists q6, last6Rate [Num 3] = Num q6 /\ (q6 == 1)%Q.
Proof.
  assert (H : Forall submitTimePresent [sixHoursEarly]).
  { constructor; [intros _; reflexivity | constructor]. }
  assert (Hne : [Num 3] <> []) by discriminate.
  split; [exact H|].
  split; [exact (proj1 (proj2 last_rates_over_leadHours) [sixHoursEarly] H)|].
  split; [exact Hne|].
  destruct (proj1 (proj2 (proj2 (proj2 (proj2 last_rates_over_leadHours)))) [Num 3] Hne)
    as [q6 [q24 [H6 [_ [E6 _]]]]].
  exists q6. split; [exact H6|]. rewrite E6. reflexivity.
Defined.


Lemma zero_size_attachment_in_no_bucket_witness :
  submitted (withAttachment "0") = true /\
  parseSizeToBytes (Some (SizeString "0")) = Some (Num 0) /\
  att_total (attachmentStats [withAttachment "0"]) = 1%nat /\
  List.map bar_value (att_bucketItems (attachmentStats [withAttachment "0"]))
  = [0; 0; 0; 0; 0]%nat.
Proof.
  split; [reflexivity|]. split; [reflexivity|].
  destruct (zero_size_attachment_in_no_bucket [] [] (withAttachment "0")
              (mkRemoteFile (Some (SizeString "0"))) 0 eq_refl eq_refl eq_refl (Qeq_refl 0))
    as [Htotal [_ [Hitems _]]].
  split; [exact Htotal|]. cbn [app] in Hitems. rewrite Hitems. reflexivity.
Defined.

(** ** Sample evaluations *)

Example formatDateKey_samples :
  List.map (fun t => formatDateKey 0 (mkDate t))
    [0; -1; 951782400000; 1709251199999; 1735603200000]
  = [ "1970-01-01"; "1969-12-31"; "2000-02-29"; "2024-02-29"; "2024-12-31" ]%string /\
  formatDateKey tzBeijing (mkDate 1709251199999) = "2024-03-01"%string /\
  formatDateKey 0 InvalidDate = "NaN-NaN-NaN"%string.
Proof. vm_compute. repeat split. Qed.

Example parseSize_samples :
  List.map (fun s => parseSizeToBytes (Some (SizeString s)))
    [ "500"; "bad"; "1,024"; "500 bytes"; "12 kb"; "7B"; "5kg"; "size: 2m" ]%string
  = [ Some (Num 500); None; Some (Num 1024); Some (Num 500); Some (Num 12288);
      Some (Num 7); None; Some (Num 2097152) ] /\
  (exists q, parseSizeToBytes (Some (SizeString "3.2MB")) = Some (Num q) /\
             (q == (32 # 10) * 1048576)%Q) /\
  parseSizeToBytes (Some (SizeNumber Infinity)) = None /\
  parseSizeToBytes None = None.
Proof.
  split; [vm_compute; reflexivity|].
  split; [eexists; split; [vm_compute; reflexivity | reflexivity]|].
  split; reflexivity.
Qed.

(** ** Sorting *)

Lemma sortInsert_perm {A : Type} (cmp : A -> A -> number) (x : A) (l : list A) :
  Permutation (sortInsert cmp x l) (x :: l).
Proof.
  induction l as [|y l IH]; cbn [sortInsert]; [reflexivity|].
  destruct (num_gt (cmp x y) (ofZ 0)); [|reflexivity].
  rewrite IH. apply perm_swap.
Qed.

Lemma jsSort_perm {A : Type} (cmp : A -> A -> number) (l : list A) :
  Permutation (jsSort cmp l) l.
Proof.
  induction l as [|x l IH]; cbn [jsSort fold_right]; [reflexivity|].
  fold (jsSort cmp l). rewrite sortInsert_perm, IH. reflexivity.
Qed.

Lemma jsSort_length {A : Type} (cmp : A -> A -> number) (l : list A) :
  length (jsSort cmp l) = length l.
Proof. apply Permutation_length, jsSort_perm. Qed.

Lemma jsSort_In {A : Type} (cmp : A -> A -> number) (l : list A) (x : A) :
  In x (jsSort cmp l) <-> In x l.
Proof.
  split; apply Permutation_in; [apply jsSort_perm | symmetry; apply jsSort_perm].
Qed.

Section SortedBy.
Context {A : Type} (cmp : A -> A -> number) (le : A -> A -> Prop) (P : A -> Prop).
Hypothesis le_trans : forall x y z, le x y -> le y z -> le x z.
Hypothesis cmp_le : forall x y, P x -> P y -> num_gt (cmp x y) (ofZ 0) = false -> le x y.
Hypothesis cmp_ge : forall x y, P x -> P y -> num_gt (cmp x y) (ofZ 0) = true -> le y x.

Lemma sortInsert_sorted (x : A) (l : list A) :
  P x -> List.Forall P l -> StronglySorted le l -> StronglySorted le (sortInsert cmp x l).
Proof.
  intros Px. induction l as [|y l IH]; intros Pl Hs; cbn [sortInsert].
  - constructor; constructor.
  - apply List.Forall_cons_iff in Pl as [Py Pl].
    apply StronglySorted_inv in Hs as [Hs Hy].
    destruct (num_gt (cmp x y) (ofZ 0)) eqn:E.
    + constructor; [apply IH; assumption|].
      eapply Permutation_Forall; [symmetry; apply sortInsert_perm|].
      constructor; [apply cmp_ge; assumption | exact Hy].
    + constructor; [constructor; assumption|].
      assert (Hxy : le x y) by (apply cmp_le; assumption).
      constructor; [exact Hxy|].
      eapply List.Forall_impl; [|exact Hy]. intros z Hz. exact (le_trans x y z Hxy Hz).
Qed.

Lemma jsSort_sorted (l : list A) :
  List.Forall P l -> StronglySorted le (jsSort cmp l).
Proof.
  induction l as [|x l IH]; intros Pl; cbn [jsSort fold_right]; [constructor|].
  apply List.Forall_cons_iff in Pl as [Px Pl]. fold (jsSort cmp l).
  apply sortInsert_sorted; [exact Px | | apply IH; exact Pl].
  eapply Permutation_Forall; [symmetry; apply jsSort_perm | exact Pl].
Qed.
End SortedBy.

Lemma In_drop {A : Type} (l : list A) (n : nat) (b : A) :
  In b (drop n l) -> In b l.
Proof.
  revert n. induction l as [|x l IH]; intros [|n] H; cbn [drop] in H; auto.
  right. exact (IH n H).
Qed.

(** In a sorted list every element of a prefix precedes every element of the
    rest. *)
Lemma sorted_take_drop {A : Type} (le : A -> A -> Prop) (l : list A) (n : nat) :
  StronglySorted le l ->
  forall a b, In a (take n l) -> In b (drop n l) -> le a b.
Proof.
  intros Hs. revert n. induction Hs as [|x l Hs IH Hx]; intros n a b Ha Hb.
  - destruct n; contradiction.
  - destruct n as [|n]; [contradiction|]. cbn [take drop] in Ha, Hb.
    destruct Ha as [<-|Ha].
    + rewrite List.Forall_forall in Hx. apply Hx.
      exact (In_drop l n b Hb).
    + exact (IH n a b Ha Hb).
Qed.

(** ** Per-course totals *)

Lemma map_get_set (m : CourseMap) (k k' : string) (v : CourseEntry) :
  map_get (map_set m k v) k' = if String.eqb k k' then Some v else map_get m k'.
Proof.
  induction m as [|[k0 v0] m IH]; cbn [map_set map_get].
  - destruct (String.eqb k k'); reflexivity.
  - destruct (String.eqb k0 k) eqn:E0; cbn [map_get].
    + apply String.eqb_eq in E0. subst k0. destruct (String.eqb k k'); reflexivity.
    + destruct (String.eqb k0 k') eqn:E1; [|exact IH].
      apply String.eqb_eq in E1. subst k'.
      rewrite String.eqb_sym, E0. reflexivity.
Qed.

Lemma keys_set (m : CourseMap) (k : string) (v : CourseEntry) :
  keysOf (map_set m k v)
  = if existsb (String.eqb k) (keysOf m) then keysOf m else keysOf m ++ [k].
Proof.
  unfold keysOf. induction m as [|[k0 v0] m IH]; cbn [map_set List.map existsb fst];
    [reflexivity|].
  rewrite (String.eqb_sym k k0). destruct (String.eqb k0 k) eqn:E0; cbn [List.map fst orb].
  - reflexivity.
  - rewrite IH. destruct (existsb (String.eqb k) (List.map fst m)); reflexivity.
Qed.

Lemma existsb_eqb_In (k : string) (l : list string) :
  existsb (String.eqb k) l = true <-> In k l.
Proof.
  rewrite existsb_exists. split.
  - intros [x [Hx E]]. apply String.eqb_eq in E. subst x. exact Hx.
  - intros H. exists k. split; [exact H | apply String.eqb_refl].
Qed.

Lemma keys_set_NoDup (m : CourseMap) (k : string) (v : CourseEntry) :
  List.NoDup (keysOf m) -> List.NoDup (keysOf (map_set m k v)).
Proof.
  intros H. rewrite keys_set.
  destruct (existsb (String.eqb k) (keysOf m)) eqn:E; [exact H|].
  apply List.NoDup_app; [exact H | constructor; [intros []|constructor] |].
  intros x Hx [<-|[]]. apply existsb_eqb_In in Hx. congruence.
Qed.

Lemma map_get_In (m : CourseMap) (k : string) (v : CourseEntry) :
  List.NoDup (keysOf m) -> In (k, v) m -> map_get m k = Some v.
Proof.
  unfold keysOf. induction m as [|[k0 v0] m IH]; intros Hnd Hin; [contradiction|].
  cbn [List.map fst] in Hnd. apply List.NoDup_cons_iff in Hnd as [Hk0 Hnd].
  cbn [map_get]. destruct Hin as [[= -> ->]|Hin].
  - rewrite String.eqb_refl. reflexivity.
  - destruct (String.eqb k0 k) eqn:E; [|exact (IH Hnd Hin)].
    apply String.eqb_eq in E. subst k0. exfalso. apply Hk0.
    apply in_map_iff. exists (k, v). split; [reflexivity | exact Hin].
Qed.

Lemma map_get_keys (m : CourseMap) (k : string) :
  In k (keysOf m) <-> exists v, map_get m k = Some v /\ In (k, v) m.
Proof.
  unfold keysOf. induction m as [|[k0 v0] m IH]; cbn [List.map fst map_get In].
  - split; [contradiction | intros [v [H _]]; discriminate].
  - destruct (String.eqb k0 k) eqn:E.
    + apply String.eqb_eq in E. subst k0. split; [|auto].
      intros _. exists v0. auto.
    + apply String.eqb_neq in E. rewrite IH. split.
      * intros [Hk|[v [Hv Hin]]]; [contradiction|]. exists v. auto.
      * intros [v [Hv [[= Hk _]|Hin]]]; [contradiction|]. right. exists v. auto.
Qed.

Lemma sum_set (m : CourseMap) (k : string) (v : CourseEntry) :
  let old := default (mkCourseEntry O O) (map_get m k) in
  (sumTotal (map_set m k v) + entry_total old = sumTotal m + entry_total v)%nat /\
  (sumSubmitted (map_set m k v) + entry_submitted old
   = sumSubmitted m + entry_submitted v)%nat.
Proof.
  unfold sumTotal, sumSubmitted.
  induction m as [|[k0 v0] m IH]; cbn [map_set map_get List.map sum_list snd default].
  - cbn. lia.
  - destruct (String.eqb k0 k); cbn [List.map sum_list snd default] in *;
      unfold Datatypes.id in *; lia.
Qed.

Lemma count_app {A : Type} (p : A -> bool) (l : list A) (x : A) :
  length (List.filter p (l ++ [x]))
  = (length (List.filter p l) + (if p x then 1 else 0))%nat.
Proof.
  rewrite List.filter_app, length_app. cbn [List.filter].
  destruct (p x); reflexivity.
Qed.

Lemma submittedOf_le (c : string) (homeworks : list Homework) :
  (submittedOf c homeworks <= totalOf c homeworks)%nat.
Proof.
  unfold submittedOf, totalOf. induction homeworks as [|hw hws IH]; cbn [List.filter];
    [lia|].
  destruct (String.eqb (courseId hw) c); cbn [andb length]; [|exact IH].
  destruct (submitted hw); cbn [length]; lia.
Qed.

(** The map after the loop over the records. *)
Lemma courseMap_spec (homeworks : list Homework) :
  let m := fold_left courseStep homeworks [] in
  List.NoDup (keysOf m) /\
  (forall c,
     map_get m c
     = if Nat.eqb (totalOf c homeworks) 0 then None
       else Some (mkCourseEntry (totalOf c homeworks) (submittedOf c homeworks))) /\
  sumTotal m = length homeworks /\
  sumSubmitted m = length (submittedAll homeworks).
Proof.
  induction homeworks as [|hw hws IH] using rev_ind.
  - cbn. split; [constructor|]. split; [reflexivity|]. split; reflexivity.
  - rewrite fold_left_app. cbn [fold_left]. cbv zeta in IH.
    set (m := fold_left courseStep hws []) in *.
    destruct IH as [Hnd [Hget [HsumT HsumS]]].
    assert (Hentry : default (mkCourseEntry O O) (map_get m (courseId hw))
                     = mkCourseEntry (totalOf (courseId hw) hws) (submittedOf (courseId hw) hws)).
    { rewrite Hget. pose proof (submittedOf_le (courseId hw) hws) as Hle.
      destruct (Nat.eqb (totalOf (courseId hw) hws) 0) eqn:E; [|reflexivity].
      apply Nat.eqb_eq in E. cbn [default]. f_equal; lia. }
    set (T := totalOf (courseId hw) hws) in *.
    set (U := submittedOf (courseId hw) hws) in *.
    assert (Hstep : courseStep m hw
                    = map_set m (courseId hw)
                        (mkCourseEntry (S T) (if submitted hw then S U else U))).
    { unfold courseStep. rewrite Hentry. cbn [entry_total entry_submitted].
      destruct (submitted hw); reflexivity. }
    rewrite Hstep.
    destruct (sum_set m (courseId hw) (mkCourseEntry (S T) (if submitted hw then S U else U)))
      as [HT HS].
    rewrite Hentry in HT, HS. cbn [entry_total entry_submitted] in HT, HS.
    split; [apply keys_set_NoDup; exact Hnd|].
    split; [|split].
    + intros c. rewrite map_get_set. unfold totalOf, submittedOf. rewrite !count_app.
      fold (totalOf c hws) (submittedOf c hws).
      destruct (String.eqb (courseId hw) c) eqn:E; cbn [andb].
      * apply String.eqb_eq in E. subst c. fold T U.
        replace (Nat.eqb (T + 1) 0) with false by (symmetry; apply Nat.eqb_neq; lia).
        destruct (submitted hw); f_equal; f_equal; lia.
      * rewrite !Nat.add_0_r. apply Hget.
    + rewrite length_app. cbn [length]. lia.
    + unfold submittedAll. rewrite count_app. fold (submittedAll hws).
      destruct (submitted hw); lia.
Qed.

Lemma map_get_Some_In (m : CourseMap) (k : string) (v : CourseEntry) :
  map_get m k = Some v -> In (k, v) m.
Proof.
  induction m as [|[k0 v0] m IH]; cbn [map_get]; [discriminate|].
  destruct (String.eqb k0 k) eqn:E.
  - apply String.eqb_eq in E. subst k0. intros [= ->]. left. reflexivity.
  - intros H. right. exact (IH H).
Qed.

Lemma sum_list_perm (l l' : list nat) : Permutation l l' -> sum_list l = sum_list l'.
Proof. induction 1; cbn [sum_list]; lia. Qed.

Lemma gt_zero_nat_sub (a b : nat) :
  num_gt (num_sub (ofNat b) (ofNat a)) (ofZ 0) = (a <? b)%nat.
Proof.
  unfold num_gt, num_sub, ofNat, ofZ. cbn [num_opp num_add num_lt].
  destruct (a <? b)%nat eqn:E.
  - apply Nat.ltb_lt in E. apply Qlt_bool_iff.
    rewrite <- inject_Z_opp, <- inject_Z_plus, <- Zlt_Qlt. lia.
  - apply Nat.ltb_ge in E. apply Qlt_bool_false_iff.
    rewrite <- inject_Z_opp, <- inject_Z_plus, <- Zle_Qle. lia.
Qed.

Lemma totalOf_pos (c : string) (homeworks : list Homework) :
  totalOf c homeworks <> O <-> exists hw, In hw homeworks /\ courseId hw = c.
Proof.
  unfold totalOf. induction homeworks as [|hw hws IH]; cbn [List.filter length In].
  - split; [intros H; contradiction | intros [hw [[] _]]].
  - destruct (String.eqb (courseId hw) c) eqn:E.
    + apply String.eqb_eq in E. cbn [length]. split; [|discriminate].
      intros _. exists hw. auto.
    + apply String.eqb_neq in E. rewrite IH. split.
      * intros [h [Hin Hc]]. exists h. auto.
      * intros [h [[<-|Hin] Hc]]; [contradiction|]. exists h. auto.
Qed.

(** X1.  The per-course table.  Each course that occurs among the records has
    exactly one row; the row holds the number of records of the course and
    the number of submitted ones; the rows are in descending order of the
    submitted count; and the totals of the rows add up to the number of
    records, the submitted counts to the number of submitted records. *)
Theorem courseStats_grouped (homeworks : list Homework) :
  let stats := courseStats homeworks in
  List.NoDup (List.map stat_courseId stats) /\
  (forall c, In c (List.map stat_courseId stats)
             <-> exists hw, In hw homeworks /\ courseId hw = c) /\
  (forall st, In st stats ->
     stat_total st = totalOf (stat_courseId st) homeworks /\
     stat_submitted st = submittedOf (stat_courseId st) homeworks) /\
  StronglySorted (fun a b => (stat_submitted b <= stat_submitted a)%nat) stats /\
  sum_list (List.map stat_total stats) = length homeworks /\
  sum_list (List.map stat_submitted stats) = length (submittedAll homeworks).
Proof.
  intros stats.
  destruct (courseMap_spec homeworks) as [Hnd [Hget [HsumT HsumS]]].
  set (m := fold_left courseStep homeworks []) in *.
  assert (Hperm : Permutation stats (courseGroups homeworks)) by apply jsSort_perm.
  assert (Hkeys : List.map stat_courseId (courseGroups homeworks) = keysOf m).
  { unfold courseGroups, keysOf. fold m. rewrite List.map_map.
    apply map_ext. intros [k v]. reflexivity. }
  assert (Hgroup : forall st, In st (courseGroups homeworks) ->
            map_get m (stat_courseId st)
            = Some (mkCourseEntry (stat_total st) (stat_submitted st))).
  { intros st Hst. unfold courseGroups in Hst. fold m in Hst.
    apply in_map_iff in Hst as [[k v] [<- Hin]]. cbn [stat_courseId stat_total stat_submitted].
    rewrite (map_get_In m k v Hnd Hin). destruct v; reflexivity. }
  split.
  { eapply Permutation_NoDup; [apply Permutation_map; symmetry; exact Hperm|].
    rewrite Hkeys. exact Hnd. }
  split.
  { intros c. rewrite <- totalOf_pos.
    transitivity (In c (keysOf m)).
    - rewrite <- Hkeys. split; apply Permutation_in, Permutation_map;
        [exact Hperm | symmetry; exact Hperm].
    - rewrite map_get_keys. specialize (Hget c). split.
      + intros [v [Hv _]]. rewrite Hv in Hget.
        destruct (Nat.eqb (totalOf c homeworks) 0) eqn:E; [discriminate|].
        apply Nat.eqb_neq. exact E.
      + intros Hpos. apply Nat.eqb_neq in Hpos. rewrite Hpos in Hget.
        eexists. split; [exact Hget | apply map_get_Some_In; exact Hget]. }
  split.
  { intros st Hst. apply (Permutation_in _ Hperm) in Hst.
    specialize (Hgroup st Hst). rewrite Hget in Hgroup.
    destruct (Nat.eqb (totalOf (stat_courseId st) homeworks) 0); [discriminate|].
    injection Hgroup as H1 H2. auto. }
  split.
  { apply (jsSort_sorted bySubmittedDesc
             (fun a b => (stat_submitted b <= stat_submitted a)%nat) (fun _ => True)).
    - intros x y z Hxy Hyz. lia.
    - intros x y _ _ H. unfold bySubmittedDesc in H. rewrite gt_zero_nat_sub in H.
      apply Nat.ltb_ge in H. exact H.
    - intros x y _ _ H. unfold bySubmittedDesc in H. rewrite gt_zero_nat_sub in H.
      apply Nat.ltb_lt in H. lia.
    - apply List.Forall_forall. intros; exact I. }
  split.
  { rewrite (sum_list_perm _ _ (Permutation_map stat_total Hperm)).
    unfold courseGroups. fold m. rewrite List.map_map, <- HsumT. unfold sumTotal.
    f_equal. apply map_ext. intros [k v]. reflexivity. }
  rewrite (sum_list_perm _ _ (Permutation_map stat_submitted Hperm)).
  unfold courseGroups. fold m. rewrite List.map_map, <- HsumS. unfold sumSubmitted.
  f_equal. apply map_ext. intros [k v]. reflexivity.
Qed.

(** ** Recent submissions and lead-time statistics *)

Lemma gt_zero_Z_sub (a b : Z) :
  num_gt (num_sub (ofZ b) (ofZ a)) (ofZ 0) = (a <? b).
Proof.
  unfold num_gt, num_sub, ofZ. cbn [num_opp num_add num_lt].
  destruct (a <? b) eqn:E.
  - apply Z.ltb_lt in E. apply Qlt_bool_iff.
    rewrite <- inject_Z_opp, <- inject_Z_plus, <- Zlt_Qlt. lia.
  - apply Z.ltb_ge in E. apply Qlt_bool_false_iff.
    rewrite <- inject_Z_opp, <- inject_Z_plus, <- Zle_Qle. lia.
Qed.

Lemma valid_submitTimeValue (hw : Homework) :
  validDate (submitDate hw) = true -> submitTimeValue hw = ofZ (submitMs hw).
Proof.
  unfold submitDate, submitTimeValue, submitMs.
  destruct (submitTime hw) as [[t|]|]; try discriminate. reflexivity.
Qed.

(** X2.  The list of recent submissions.  It has at most 20 entries, all of
    them when there are fewer submissions.  When every submit time is a valid
    date it is in order of submit time, latest first, and no submission left
    out is later than one that is listed. *)
Theorem recentSubmissions_latest (homeworks : list Homework) :
  let sh := submittedHomeworks homeworks in
  let recent := recentSubmissions homeworks in
  length recent = Nat.min 20 (length sh) /\
  (List.Forall (fun hw => validDate (submitDate hw) = true) sh ->
   StronglySorted (fun a b => submitMs b <= submitMs a) recent /\
   exists rest,
     Permutation sh (recent ++ rest) /\
     forall a b, In a recent -> In b rest -> submitMs b <= submitMs a).
Proof.
  intros sh recent. split.
  - unfold recent, recentSubmissions. rewrite length_take, jsSort_length. reflexivity.
  - intros Hvalid.
    assert (Hs : StronglySorted (fun a b => submitMs b <= submitMs a) (jsSort byTimeDesc sh)).
    { apply (jsSort_sorted byTimeDesc (fun a b => submitMs b <= submitMs a)
               (fun hw => validDate (submitDate hw) = true)).
      - intros x y z Hxy Hyz. lia.
      - intros x y Hx Hy H. unfold byTimeDesc in H.
        rewrite (valid_submitTimeValue x Hx), (valid_submitTimeValue y Hy), gt_zero_Z_sub in H.
        apply Z.ltb_ge in H. exact H.
      - intros x y Hx Hy H. unfold byTimeDesc in H.
        rewrite (valid_submitTimeValue x Hx), (valid_submitTimeValue y Hy), gt_zero_Z_sub in H.
        apply Z.ltb_lt in H. lia.
      - exact Hvalid. }
    split.
    + unfold recent, recentSubmissions. fold sh.
      rewrite <- (take_drop 20 (jsSort byTimeDesc sh)) in Hs.
      clear -Hs. revert Hs. generalize (drop 20 (jsSort byTimeDesc sh)) as rest.
      induction (take 20 (jsSort byTimeDesc sh)) as [|x l IH]; intros rest Hs; [constructor|].
      cbn [app] in Hs. apply StronglySorted_inv in Hs as [Hs Hx].
      constructor; [exact (IH rest Hs)|].
      apply List.Forall_app in Hx as [Hx _]. exact Hx.
    + exists (drop 20 (jsSort byTimeDesc sh)). split.
      * unfold recent, recentSubmissions. fold sh. rewrite take_drop.
        symmetry. apply jsSort_perm.
      * intros a b Ha Hb.
        exact (sorted_take_drop _ (jsSort byTimeDesc sh) 20 Hs a b Ha Hb).
Qed.

Lemma num_le_trans (a b c : number) :
  num_le a b = true -> num_le b c = true -> num_le a c = true.
Proof.
  destruct a as [| |x|], b as [| |y|], c as [| |z|]; cbn [num_le];
    try discriminate; try reflexivity.
  rewrite !Qle_bool_iff. apply Qle_trans.
Qed.

Lemma gt_zero_sub_finite (x y : Q) :
  num_gt (num_sub (Num x) (Num y)) (ofZ 0) = Qlt_bool y x.
Proof.
  unfold num_gt, num_sub, ofZ. cbn [num_opp num_add num_lt].
  destruct (Qlt_bool y x) eqn:E.
  - apply Qlt_bool_iff in E. apply Qlt_bool_iff. change (inject_Z 0) with 0%Q. lra.
  - apply Qlt_bool_false_iff in E. apply Qlt_bool_false_iff.
    change (inject_Z 0) with 0%Q. lra.
Qed.

Lemma filter_length_perm {A : Type} (p : A -> bool) (l l' : list A) :
  Permutation l l' -> length (List.filter p l) = length (List.filter p l').
Proof.
  induction 1 as [|x l l' _ IH|x y l|l l' l'' _ IH1 _ IH2]; cbn [List.filter].
  - reflexivity.
  - destruct (p x); cbn [length]; lia.
  - destruct (p x), (p y); reflexivity.
  - lia.
Qed.

Lemma filter_length_app_all {A : Type} (p : A -> bool) (l1 l2 : list A) :
  (List.Forall (fun x => p x = true) l1 ->
   length l1 <= length (List.filter p (l1 ++ l2)))%nat /\
  (List.Forall (fun x => p x = true) l2 ->
   length l2 <= length (List.filter p (l1 ++ l2)))%nat.
Proof.
  rewrite List.filter_app, length_app. split; intros H.
  - rewrite (filter_length_all p l1); [lia|].
    rewrite List.Forall_forall in H. exact H.
  - rewrite (filter_length_all p l2); [lia|].
    rewrite List.Forall_forall in H. exact H.
Qed.

Lemma fold_add_finite (l : list number) (a0 : Q) :
  List.Forall (fun v => isFinite v = true) l ->
  exists q, fold_left num_add l (Num a0) = Num q.
Proof.
  revert a0. induction l as [|v l IH]; intros a0 H; cbn [fold_left]; [eauto|].
  apply List.Forall_cons_iff in H as [Hv H].
  destruct v as [| |x|]; try discriminate. cbn [num_add]. apply IH. exact H.
Qed.

(** X3.  Average and median lead time.  There is no result exactly when there
    is no lead time.  For finite lead times the median is one of them, more
    than half of them (rounded down) are at most the median, and at least
    half of them (rounded up) are at least the median. *)
Theorem timeStats_median (leadHours : list number) :
  (timeStats leadHours = None <-> leadHours = []) /\
  (List.Forall (fun v => isFinite v = true) leadHours -> leadHours <> [] ->
   exists a m,
     timeStats leadHours = Some (mkTimeStats (Num a) (Num m)) /\
     In (Num m) leadHours /\
     (length leadHours / 2
      < length (List.filter (fun v => num_le v (Num m)) leadHours))%nat /\
     (length leadHours - length leadHours / 2
      <= length (List.filter (fun v => num_ge v (Num m)) leadHours))%nat).
Proof.
  split.
  - unfold timeStats. destruct leadHours as [|v l]; cbn [length Nat.eqb].
    + split; reflexivity.
    + split; discriminate.
  - intros Hfin Hne.
    assert (Hlen : length leadHours <> O) by (destruct leadHours; [contradiction|discriminate]).
    set (sorted := jsSort (fun a b => num_sub a b) leadHours).
    assert (Hperm : Permutation sorted leadHours) by apply jsSort_perm.
    assert (Hslen : length sorted = length leadHours) by apply jsSort_length.
    assert (Hsfin : List.Forall (fun v => isFinite v = true) sorted)
      by (eapply Permutation_Forall; [symmetry; exact Hperm | exact Hfin]).
    assert (Hs : StronglySorted (fun a b => num_le a b = true) sorted).
    { apply (jsSort_sorted (fun a b => num_sub a b) (fun a b => num_le a b = true)
               (fun v => isFinite v = true)).
      - exact num_le_trans.
      - intros [| |x|] [| |y|] Hx Hy H; try discriminate.
        rewrite gt_zero_sub_finite in H. cbn [num_le].
        apply Qle_bool_iff. apply Qlt_bool_false_iff in H. exact H.
      - intros [| |x|] [| |y|] Hx Hy H; try discriminate.
        rewrite gt_zero_sub_finite in H. cbn [num_le].
        apply Qle_bool_iff. apply Qlt_bool_iff in H. lra.
      - exact Hfin. }
    set (k := (length leadHours / 2)%nat).
    assert (Hk : (k < length sorted)%nat).
    { rewrite Hslen. unfold k. apply Nat.div_lt; lia. }
    destruct (lookup_lt_is_Some_2 sorted k Hk) as [vm Hvm].
    assert (Hin : In vm sorted) by (eapply list_elem_of_In, list_elem_of_lookup_2, Hvm).
    assert (Hvfin : isFinite vm = true)
      by (rewrite List.Forall_forall in Hsfin; exact (Hsfin vm Hin)).
    destruct vm as [| |m|]; try discriminate.
    destruct (fold_add_finite leadHours 0 Hfin) as [total Htotal].
    pose proof (take_drop_middle sorted k (Num m) Hvm) as Hsplit.
    assert (Hmid : drop k sorted = Num m :: drop (S k) sorted).
    { apply (app_inv_head (take k sorted)). rewrite take_drop. symmetry. exact Hsplit. }
    eexists. exists m. split; [|split; [|split]].
    + unfold timeStats. rewrite (proj2 (Nat.eqb_neq _ _) Hlen).
      fold sorted. rewrite Hslen. fold k. rewrite Hvm. cbn [default].
      change (ofZ 0) with (Num 0). rewrite Htotal.
      unfold num_div, ofNat.
      destruct (Qeq_bool (inject_Z (Z.of_nat (length leadHours))) 0) eqn:E.
      * exfalso. apply Qeq_bool_iff in E.
        pose proof (inject_Z_nat_pos _ Hlen) as Hpos. rewrite E in Hpos.
        revert Hpos. apply Qlt_irrefl.
      * reflexivity.
    + apply (Permutation_in _ Hperm). exact Hin.
    + rewrite <- (filter_length_perm _ _ _ Hperm).
      rewrite <- (take_drop (S k) sorted).
      assert (Hall : List.Forall (fun v => num_le v (Num m) = true) (take (S k) sorted)).
      { apply List.Forall_forall. intros a Ha.
        rewrite (take_S_r sorted k (Num m) Hvm) in Ha.
        apply in_app_iff in Ha as [Ha|[<-|[]]].
        - apply (sorted_take_drop _ sorted k Hs a (Num m) Ha).
          rewrite Hmid. left. reflexivity.
        - cbn [num_le]. apply Qle_bool_iff, Qle_refl. }
      pose proof (proj1 (filter_length_app_all (fun v => num_le v (Num m))
                           (take (S k) sorted) (drop (S k) sorted)) Hall) as Hcount.
      rewrite length_take in Hcount. fold k. lia.
    + rewrite <- (filter_length_perm _ _ _ Hperm).
      rewrite <- (take_drop k sorted).
      assert (Hall : List.Forall (fun v => num_ge v (Num m) = true) (drop k sorted)).
      { apply List.Forall_forall. intros b Hb. unfold num_ge.
        rewrite Hmid in Hb. destruct Hb as [<-|Hb].
        - cbn [num_le]. apply Qle_bool_iff, Qle_refl.
        - rewrite <- (take_drop k sorted), Hmid in Hs.
          clear -Hs Hb. induction (take k sorted) as [|x l IH]; cbn [app] in Hs.
          + apply StronglySorted_inv in Hs as [_ Hx].
            rewrite List.Forall_forall in Hx. exact (Hx b Hb).
          + apply StronglySorted_inv in Hs as [Hs _]. exact (IH Hs). }
      pose proof (proj2 (filter_length_app_all (fun v => num_ge v (Num m))
                           (take k sorted) (drop k sorted)) Hall) as Hcount.
      rewrite length_drop in Hcount. fold k. lia.
Qed.

(** ** How the rates of the profile relate *)

Lemma filter_disjoint_length {A : Type} (p q : A -> bool) (l : list A) :
  (forall x, p x = true -> q x = false) ->
  (length (List.filter p l) + length (List.filter q l) <= length l)%nat.
Proof.
  intros H. induction l as [|x l IH]; cbn [List.filter length]; [lia|].
  destruct (p x) eqn:Ep.
  - rewrite (H x Ep). cbn [length]. lia.
  - destruct (q x); cbn [length]; lia.
Qed.

Lemma filter_implies_length {A : Type} (p q : A -> bool) (l : list A) :
  (forall x, p x = true -> q x = true) ->
  (length (List.filter p l) <= length (List.filter q l))%nat.
Proof.
  intros H. induction l as [|x l IH]; cbn [List.filter length]; [lia|].
  destruct (p x) eqn:Ep.
  - rewrite (H x Ep). cbn [length]. lia.
  - destruct (q x); cbn [length]; lia.
Qed.

Lemma filter_filter_length {A : Type} (p q : A -> bool) (l : list A) :
  (forall x, p x = true -> q x = true) ->
  length (List.filter p (List.filter q l)) = length (List.filter p l).
Proof.
  intros H. induction l as [|x l IH]; cbn [List.filter]; [reflexivity|].
  destruct (q x) eqn:Eq; cbn [List.filter].
  - destruct (p x); cbn [length]; lia.
  - destruct (p x) eqn:Ep; [|exact IH]. rewrite (H x Ep) in Eq. discriminate.
Qed.

(** A record handed in after its deadline has a negative lag. *)
Lemma late_negative_lag (hw : Homework) (dl : Date) (hi : Z) :
  deadline hw = Some dl ->
  num_gt (submitTimeValue hw) (getTime dl) = true ->
  num_ge (lag hw) (ofZ 0) && num_le (lag hw) (ofZ hi) = false.
Proof.
  intros Hdl Hlate. unfold lag. rewrite Hdl.
  unfold submitTimeValue in *.
  destruct dl as [d|], (submitTime hw) as [[t|]|]; try discriminate Hlate.
  unfold diffHoursOf, getTime, num_sub, ofZ in *. cbn [num_opp num_add] in *.
  unfold num_div. change (Qeq_bool (inject_Z msPerHour) 0) with false.
  cbn iota. unfold num_ge. cbn [num_le].
  apply andb_false_iff. left. apply Qle_bool_false_iff.
  unfold num_gt in Hlate. cbn [num_lt] in Hlate. apply Qlt_bool_iff in Hlate.
  change (inject_Z 0) with 0%Q.
  apply Qlt_shift_div_r; [reflexivity|]. lra.
Qed.

(** The counts behind the three rates: late records and records handed in
    during the last 24 hours are different records with a deadline. *)
Lemma page_counts (homeworks : list Homework) :
  let sh := submittedHomeworks homeworks in
  let lh := leadHours homeworks in
  let lateCount :=
    length (List.filter
              (fun hw => match deadline hw with
                         | Some dl => num_gt (submitTimeValue hw) (getTime dl)
                         | None => false
                         end) sh) in
  let c24 := length (List.filter (fun h => num_ge h (ofZ 0) && num_le h (ofZ 24)) lh) in
  let c6 := length (List.filter (fun h => num_ge h (ofZ 0) && num_le h (ofZ 6)) lh) in
  (lateCount + c24 <= length lh)%nat /\
  (length lh <= length sh)%nat /\
  (c6 <= c24)%nat.
Proof.
  intros sh lh lateCount c24 c6.
  assert (Hlh : lh = List.map lag (List.filter (fun hw => isSome (deadline hw)) sh))
    by apply leadHours_lags.
  split; [|split].
  - unfold lateCount, c24. rewrite Hlh, length_map.
    rewrite <- (filter_filter_length _ (fun hw => isSome (deadline hw)) sh).
    + pose proof (filter_disjoint_length
                    (fun hw => match deadline hw with
                               | Some dl => num_gt (submitTimeValue hw) (getTime dl)
                               | None => false
                               end)
                    (fun hw => num_ge (lag hw) (ofZ 0) && num_le (lag hw) (ofZ 24))
                    (List.filter (fun hw => isSome (deadline hw)) sh)) as H.
      assert (Hmap : forall (p : number -> bool) l,
                 length (List.filter p (List.map lag l))
                 = length (List.filter (fun hw => p (lag hw)) l)).
      { intros p l. induction l as [|x l IH]; cbn [List.map List.filter]; [reflexivity|].
        destruct (p (lag x)); cbn [length]; lia. }
      rewrite (Hmap (fun h => num_ge h (ofZ 0) && num_le h (ofZ 24))).
      apply H. intros hw Hlate.
      destruct (deadline hw) as [dl|] eqn:Hdl; [|discriminate].
      exact (late_negative_lag hw dl 24 Hdl Hlate).
    + intros hw H. destruct (deadline hw); [reflexivity | discriminate].
  - rewrite Hlh, length_map. apply filter_length_le.
  - unfold c6, c24. apply filter_implies_length.
    intros h H. apply andb_true_iff in H as [H0 H6]. rewrite H0. cbn [andb].
    destruct h as [| |x|]; try discriminate H6; [reflexivity|].
    unfold ofZ in *. cbn [num_le] in *. apply Qle_bool_iff in H6. apply Qle_bool_iff.
    Qliterals. change (inject_Z 24) with 24%Q. lra.
Qed.

Lemma guarded_ratio_value (a b : nat) :
  exists q, (if Nat.eqb b 0 then ofZ 0 else num_div (ofNat a) (ofNat b)) = Num q /\
            (q * inject_Z (Z.of_nat b) == if Nat.eqb b 0 then 0 else inject_Z (Z.of_nat a))%Q.
Proof.
  destruct (Nat.eqb b 0) eqn:E.
  - exists 0%Q. split; [reflexivity|]. lra.
  - apply Nat.eqb_neq in E. destruct (ratio_value a b E) as [q [Hq Hv]].
    exists q. split; [exact Hq|]. rewrite Hv.
    pose proof (inject_Z_nat_pos b E) as Hpos. field. lra.
Qed.

Lemma page_rates (homeworks : list Homework) :
  exists l r24 r6 : Q,
    lateRate homeworks = Num l /\
    last24Rate (leadHours homeworks) = Num r24 /\
    last6Rate (leadHours homeworks) = Num r6 /\
    (0 <= l)%Q /\ (0 <= r6)%Q /\ (r6 <= r24)%Q /\ (l + r24 <= 1)%Q.
Proof.
  destruct (page_counts homeworks) as [Hsum [Hns H6]].
  cbv zeta in Hsum, Hns, H6.
  unfold lateRate, last24Rate, last6Rate.
  set (lh := leadHours homeworks) in *.
  set (sh := submittedHomeworks homeworks) in *.
  set (L := length (List.filter _ sh)) in *.
  set (c24 := length (List.filter (fun h => num_ge h (ofZ 0) && num_le h (ofZ 24)) lh)) in *.
  set (c6 := length (List.filter (fun h => num_ge h (ofZ 0) && num_le h (ofZ 6)) lh)) in *.
  destruct (guarded_ratio_value L (length sh)) as [l [El Vl]].
  destruct (guarded_ratio_value c24 (length lh)) as [r24 [E24 V24]].
  destruct (guarded_ratio_value c6 (length lh)) as [r6 [E6 V6]].
  exists l, r24, r6. split; [exact El|]. split; [exact E24|]. split; [exact E6|].
  pose proof (inject_Z_nat_nonneg L) as PL.
  pose proof (inject_Z_nat_nonneg c24) as P24.
  pose proof (inject_Z_nat_nonneg c6) as P6.
  assert (Q1 : (inject_Z (Z.of_nat L) + inject_Z (Z.of_nat c24)
                <= inject_Z (Z.of_nat (length lh)))%Q)
    by (rewrite <- inject_Z_plus, <- Zle_Qle; lia).
  assert (Q2 : (inject_Z (Z.of_nat (length lh)) <= inject_Z (Z.of_nat (length sh)))%Q)
    by (rewrite <- Zle_Qle; lia).
  assert (Q3 : (inject_Z (Z.of_nat c6) <= inject_Z (Z.of_nat c24))%Q)
    by (rewrite <- Zle_Qle; lia).
  destruct (Nat.eqb (length lh) 0) eqn:En.
  - apply Nat.eqb_eq in En. assert (HL : L = O) by lia.
    assert (l == 0)%Q as ->.
    { destruct (Nat.eqb (length sh) 0) eqn:Es.
      - injection El as El. rewrite <- El. reflexivity.
      - apply Nat.eqb_neq in Es. pose proof (inject_Z_nat_pos _ Es) as Hpos.
        rewrite HL in Vl. change (inject_Z (Z.of_nat 0)) with 0%Q in Vl. nra. }
    injection E24 as E24. injection E6 as E6. rewrite <- E24, <- E6.
    change (inject_Z 0) with 0%Q. lra.
  - apply Nat.eqb_neq in En. pose proof (inject_Z_nat_pos _ En) as Hn.
    assert (Es : length sh <> O) by lia.
    rewrite (proj2 (Nat.eqb_neq _ _) Es) in Vl.
    pose proof (inject_Z_nat_pos _ Es) as Hs.
    set (s := inject_Z (Z.of_nat (length sh))) in *.
    set (n := inject_Z (Z.of_nat (length lh))) in *.
    set (a := inject_Z (Z.of_nat L)) in *.
    set (c := inject_Z (Z.of_nat c24)) in *.
    set (d := inject_Z (Z.of_nat c6)) in *.
    assert (Hl0 : (0 <= l)%Q) by nra.
    assert (H60 : (0 <= r6)%Q) by nra.
    assert (H624 : (r6 <= r24)%Q) by nra.
    assert (H241 : (r24 <= 1)%Q) by nra.
    split; [exact Hl0|]. split; [exact H60|]. split; [exact H624|].
    assert (Hls : (l * s <= (1 - r24) * s)%Q) by nra.
    nra.
Qed.

(** X4.  The three rates of one record set.  The rate of the last 6 hours
    is at most the rate of the last 24 hours, and the late rate and the rate
    of the last 24 hours together are at most 1. *)
Theorem rates_consistent (homeworks : list Homework) :
  exists l r24 r6 : Q,
    lateRate homeworks = Num l /\
    last24Rate (leadHours homeworks) = Num r24 /\
    last6Rate (leadHours homeworks) = Num r6 /\
    (0 <= r6 <= r24)%Q /\ (0 <= l)%Q /\ (l + r24 <= 1)%Q.
Proof.
  destruct (page_rates homeworks) as [l [r24 [r6 [El [E24 [E6 [Hl [H6 [H624 Hsum]]]]]]]]].
  exists l, r24, r6. auto 10.
Qed.

(** X5.  The profile of the page.  For every record set the score is an
    integer from 0 to 50, so the two highest bands are never shown: the label
    is one of the three lowest. *)
Theorem profile_capped (homeworks : list Homework) :
  let p := procrastinationProfile (lateRate homeworks) (last24Rate (leadHours homeworks))
             (last6Rate (leadHours homeworks)) in
  exists s : Z,
    score p = ofZ s /\ 0 <= s <= 50 /\
    In (profile_label p) ["临界型"; "稳健型"; "超前型"]%string.
Proof.
  destruct (page_rates homeworks) as [l [r24 [r6 [El [E24 [E6 [Hl [H6 [H624 Hsum]]]]]]]]].
  rewrite El, E24, E6.
  assert (H24 : (0 <= r24)%Q) by lra.
  destruct (profile_scored l r24 r6 Hl H24 H6) as [s [Hs [[Hlo Hhi] [Hrange Hband]]]].
  intros p. exists s. split; [exact Hs|].
  set (raw := (l * (5 # 10) + r24 * (3 # 10) + r6 * (2 # 10))%Q) in *.
  assert (Hraw : (0 <= raw /\ raw <= (1 # 2))%Q) by (unfold raw; lra).
  assert (Hclamp : (clamp01 raw == raw)%Q).
  { unfold clamp01.
    destruct (Qlt_bool raw 0) eqn:E0; [apply Qlt_bool_iff in E0; lra|].
    destruct (Qlt_bool 1 raw) eqn:E1; [apply Qlt_bool_iff in E1; lra|]. reflexivity. }
  rewrite Hclamp in Hlo.
  assert (Hs50 : s <= 50).
  { assert (H : (inject_Z s < inject_Z 51)%Q) by (change (inject_Z 51) with 51%Q; lra).
    rewrite <- Zlt_Qlt in H. lia. }
  split; [lia|].
  assert (Hlabel : profile_label p = fst (bandOf s)).
  { change (profile_label p) with (fst (profile_label p, desc p)). unfold p. rewrite Hband.
    reflexivity. }
  rewrite Hlabel. unfold bandOf.
  assert (E80 : (80 <? s) = false) by (apply Z.ltb_ge; lia).
  assert (E60 : (60 <? s) = false) by (apply Z.ltb_ge; lia).
  rewrite E80, E60.
  destruct (40 <? s); [left; reflexivity|].
  destruct (20 <? s); [right; left; reflexivity | right; right; left; reflexivity].
Qed.

(** ** Histograms by hour and by weekday *)

Lemma bumpAt_fold {A : Type} (k : A -> option Z) (n : nat) (l : list A) (c0 : list nat) :
  (forall x z, k x = Some z -> 0 <= z < Z.of_nat n) ->
  length c0 = n ->
  let c := fold_left (fun cs x => bumpAt (k x) cs) l c0 in
  length c = n /\
  (forall i, (i < n)%nat ->
     c !! i = Some (default O (c0 !! i) + countIf (fun x => eq_int (k x) (Z.of_nat i)) l)%nat) /\
  sum_list c = (sum_list c0 + countIf (fun x => isSome (k x)) l)%nat.
Proof.
  intros Hk. revert c0. induction l as [|x l IH]; intros c0 Hlen; cbn [fold_left].
  - split; [exact Hlen|]. split.
    + intros i Hi. unfold countIf. cbn [List.filter length]. rewrite Nat.add_0_r.
      rewrite <- Hlen in Hi. destruct (lookup_lt_is_Some_2 c0 i Hi) as [v ->]. reflexivity.
    + unfold countIf. cbn [List.filter length]. lia.
  - assert (Hlen1 : length (bumpAt (k x) c0) = n).
    { unfold bumpAt. destruct (k x); [rewrite length_alter|]; exact Hlen. }
    destruct (IH (bumpAt (k x) c0) Hlen1) as [H1 [H2 H3]]. cbv zeta in H1, H2, H3.
    split; [exact H1|]. split.
    + intros i Hi. rewrite (H2 i Hi). f_equal.
      unfold countIf. cbn [List.filter].
      assert (Hi0 : (i < length c0)%nat) by lia.
      destruct (lookup_lt_is_Some_2 c0 i Hi0) as [v Hv].
      unfold bumpAt. destruct (k x) as [z|] eqn:Ekx; cbn [eq_int].
      * destruct (Hk x z Ekx) as [Hz0 Hzn].
        destruct (z =? Z.of_nat i) eqn:Ez.
        -- apply Z.eqb_eq in Ez. subst z. rewrite Nat2Z.id.
           rewrite list_lookup_alter, Hv. cbn.
           destruct (decide (i = i)); [cbn; lia | contradiction].
        -- apply Z.eqb_neq in Ez. rewrite list_lookup_alter_ne by lia. reflexivity.
      * reflexivity.
    + rewrite H3. unfold countIf. cbn [List.filter].
      unfold bumpAt. destruct (k x) as [z|] eqn:Ekx; cbn [isSome length].
      * destruct (Hk x z Ekx) as [Hz0 Hzn]. rewrite sum_alter_S by lia. lia.
      * reflexivity.
Qed.

Lemma submitHour_range (tz : Z) (hw : Homework) (z : Z) :
  submitHour tz hw = Some z -> 0 <= z < Z.of_nat 24.
Proof.
  unfold submitHour. destruct (submitTime hw) as [[t|]|]; try discriminate.
  cbn [getHours]. intros H. injection H as <-.
  unfold localTimeInDay, msPerHour, msPerDay. Z.div_mod_to_equations. lia.
Qed.

Lemma submitDay_range (tz : Z) (hw : Homework) (z : Z) :
  submitDay tz hw = Some z -> 0 <= z < Z.of_nat 7.
Proof.
  unfold submitDay. destruct (submitTime hw) as [[t|]|]; try discriminate.
  cbn [getDay]. intros H. injection H as <-.
  Z.div_mod_to_equations. lia.
Qed.

Lemma submitHour_valid (tz : Z) (hw : Homework) :
  isSome (submitTime hw) = true -> isSome (submitHour tz hw) = validSubmit hw.
Proof.
  unfold submitHour, validSubmit, submitDate.
  destruct (submitTime hw) as [[t|]|]; try discriminate; reflexivity.
Qed.

Lemma submitDay_valid (tz : Z) (hw : Homework) :
  isSome (submitTime hw) = true -> isSome (submitDay tz hw) = validSubmit hw.
Proof.
  unfold submitDay, validSubmit, submitDate.
  destruct (submitTime hw) as [[t|]|]; try discriminate; reflexivity.
Qed.

Lemma countIf_ext_in {A : Type} (p q : A -> bool) (l : list A) :
  (forall x, In x l -> p x = q x) -> countIf p l = countIf q l.
Proof.
  unfold countIf. induction l as [|x l IH]; intros H; cbn [List.filter]; [reflexivity|].
  rewrite (H x (or_introl eq_refl)).
  destruct (q x); cbn [length]; rewrite IH; auto; intros y Hy; apply H; right; exact Hy.
Qed.

Lemma submittedHomeworks_time (homeworks : list Homework) (hw : Homework) :
  In hw (submittedHomeworks homeworks) -> isSome (submitTime hw) = true.
Proof.
  unfold submittedHomeworks. intros H. apply List.filter_In in H as [_ H]. exact H.
Qed.

Lemma imap_values {A : Type} (f : nat -> A) (counts : list nat) (mk : A -> nat -> BarItem) :
  (forall a v, bar_value (mk a v) = v) ->
  List.map bar_value (imap (fun idx value => mk (f idx) value) counts) = counts.
Proof.
  intros Hmk. apply list_eq. intros i.
  change (List.map ?f ?l) with (f <$> l).
  rewrite list_lookup_fmap, list_lookup_imap.
  destruct (counts !! i) as [c|]; cbn; [rewrite Hmk|]; reflexivity.
Qed.

(** X6.  The histogram by hour of day.  It has the 24 bars 0 to 23 in
    order; the bar of an hour counts the submissions made in that hour, and
    the bars together count the submissions whose submit time is a valid
    date. *)
Theorem hourBuckets_histogram (tz : Z) (homeworks : list Homework) :
  let sh := submittedHomeworks homeworks in
  let items := hourBuckets tz homeworks in
  List.map bar_label items
  = List.map (fun h => toString (Some (Z.of_nat h))) (seq 0 24) /\
  (forall h, (h < 24)%nat ->
     bar_value <$> items !! h = Some (countIf (inHour tz h) sh)) /\
  sum_list (List.map bar_value items) = countIf validSubmit sh.
Proof.
  intros sh items. unfold items, hourBuckets. fold sh.
  destruct (bumpAt_fold (submitHour tz) 24 sh (replicate 24 O)
              (submitHour_range tz) (length_replicate _ _)) as [Hlen [Hat Hsum]].
  cbv zeta in Hlen, Hat, Hsum.
  set (counts := fold_left (fun cs hw => bumpAt (submitHour tz hw) cs) sh (replicate 24 O)) in *.
  split; [|split].
  - apply list_eq. intros i.
    change (List.map ?f ?l) with (f <$> l).
    rewrite !list_lookup_fmap, list_lookup_imap.
    destruct (counts !! i) as [c|] eqn:Hc.
    + apply lookup_lt_Some in Hc. rewrite Hlen in Hc.
      rewrite (lookup_seq_lt 0 _ i Hc). reflexivity.
    + apply lookup_ge_None in Hc. rewrite Hlen in Hc.
      rewrite (lookup_seq_ge 0 _ i Hc). reflexivity.
  - intros h Hh. rewrite list_lookup_imap, (Hat h Hh).
    rewrite (lookup_replicate_2 24 O h Hh). reflexivity.
  - rewrite (imap_values (fun idx => toString (Some (Z.of_nat idx))) counts mkBarItem)
      by reflexivity.
    rewrite Hsum, sum_replicate_0. cbn [Nat.add].
    apply countIf_ext_in. intros hw Hin.
    apply submitHour_valid. exact (submittedHomeworks_time homeworks hw Hin).
Qed.

(** X7.  The histogram by weekday.  It has the 7 bars Sunday to Saturday in
    order; the bar of a weekday counts the submissions made on it, and the
    bars together count the submissions whose submit time is a valid date. *)
Theorem weekdayBuckets_histogram (tz : Z) (homeworks : list Homework) :
  let sh := submittedHomeworks homeworks in
  let items := weekdayBuckets tz homeworks in
  List.map bar_label items = weekdayLabels /\
  (forall d, (d < 7)%nat ->
     bar_value <$> items !! d = Some (countIf (onWeekday tz d) sh)) /\
  sum_list (List.map bar_value items) = countIf validSubmit sh.
Proof.
  intros sh items. unfold items, weekdayBuckets. fold sh.
  destruct (bumpAt_fold (submitDay tz) 7 sh (replicate 7 O)
              (submitDay_range tz) (length_replicate _ _)) as [Hlen [Hat Hsum]].
  cbv zeta in Hlen, Hat, Hsum.
  set (counts := fold_left (fun cs hw => bumpAt (submitDay tz hw) cs) sh (replicate 7 O)) in *.
  split; [|split].
  - apply list_eq. intros i.
    change (List.map ?f ?l) with (f <$> l).
    rewrite !list_lookup_fmap, list_lookup_imap.
    destruct (counts !! i) as [c|] eqn:Hc.
    + apply lookup_lt_Some in Hc. rewrite Hlen in Hc.
      unfold weekdayLabel.
      destruct (lookup_lt_is_Some_2 weekdayLabels i Hc) as [s ->]. reflexivity.
    + apply lookup_ge_None in Hc. rewrite Hlen in Hc.
      symmetry. apply lookup_ge_None. exact Hc.
  - intros d Hd. rewrite list_lookup_imap, (Hat d Hd).
    rewrite (lookup_replicate_2 7 O d Hd). reflexivity.
  - rewrite (imap_values weekdayLabel counts mkBarItem) by reflexivity.
    rewrite Hsum, sum_replicate_0. cbn [Nat.add].
    apply countIf_ext_in. intros hw Hin.
    apply submitDay_valid. exact (submittedHomeworks_time homeworks hw Hin).
Qed.

(** ** Weekday-hour heat map *)

Lemma valid_submit_time (hw : Homework) :
  validSubmit hw = true -> exists t, submitTime hw = Some (mkDate t).
Proof.
  unfold validSubmit, submitDate.
  destruct (submitTime hw) as [[t|]|]; try discriminate. eauto.
Qed.

Lemma heat_fold (tz : Z) (l : list Homework) (c0 : list (list nat)) :
  length c0 = 7%nat ->
  (forall d row, c0 !! d = Some row -> length row = 24%nat) ->
  List.Forall (fun hw => validSubmit hw = true) l ->
  exists c,
    fold_left (heatStep tz) l (Returned c0) = Returned c /\
    length c = 7%nat /\
    (forall d row, c !! d = Some row -> length row = 24%nat) /\
    forall d h, (d < 7)%nat -> (h < 24)%nat ->
      cellAt c d h = Some (default O (cellAt c0 d h) + heatCount tz d h l)%nat.
Proof.
  revert c0. induction l as [|hw l IH]; intros c0 Hlen Hrows Hvalid; cbn [fold_left].
  - exists c0. split; [reflexivity|]. split; [exact Hlen|]. split; [exact Hrows|].
    intros d h Hd Hh. unfold heatCount, countIf. cbn [List.filter length].
    rewrite Nat.add_0_r. unfold cellAt.
    assert (Hd0 : (d < length c0)%nat) by lia.
    destruct (lookup_lt_is_Some_2 c0 d Hd0) as [row Hrow]. rewrite Hrow.
    assert (Hh0 : (h < length row)%nat) by (rewrite (Hrows d row Hrow); exact Hh).
    destruct (lookup_lt_is_Some_2 row h Hh0) as [v ->]. reflexivity.
  - apply List.Forall_cons_iff in Hvalid as [Hhw Hvalid].
    destruct (valid_submit_time hw Hhw) as [t Ht].
    assert (Eday : submitDay tz hw = Some ((localDay tz t + 4) mod 7))
      by (unfold submitDay; rewrite Ht; reflexivity).
    assert (Ehour : submitHour tz hw = Some (localTimeInDay tz t / msPerHour))
      by (unfold submitHour; rewrite Ht; reflexivity).
    pose proof (submitDay_range tz hw _ Eday) as Rday.
    pose proof (submitHour_range tz hw _ Ehour) as Rhour.
    set (day := (localDay tz t + 4) mod 7) in *.
    set (hour := localTimeInDay tz t / msPerHour) in *.
    assert (Hdn : (Z.to_nat day < length c0)%nat) by lia.
    destruct (lookup_lt_is_Some_2 c0 _ Hdn) as [row Hrow].
    assert (Hrowlen : length row = 24%nat) by exact (Hrows _ row Hrow).
    set (c1 := <[ Z.to_nat day := alter S (Z.to_nat hour) row ]> c0).
    assert (Hstep : heatStep tz (Returned c0) hw = Returned c1).
    { unfold heatStep. rewrite Eday, Hrow, Ehour. reflexivity. }
    rewrite Hstep.
    assert (Hlen1 : length c1 = 7%nat) by (unfold c1; rewrite length_insert; exact Hlen).
    assert (Hrows1 : forall d r, c1 !! d = Some r -> length r = 24%nat).
    { intros d r Hr. unfold c1 in Hr.
      destruct (Nat.eq_dec (Z.to_nat day) d) as [<-|Hne].
      - rewrite list_lookup_insert_eq in Hr by exact Hdn.
        injection Hr as <-. rewrite length_alter. exact Hrowlen.
      - rewrite list_lookup_insert_ne in Hr by exact Hne. exact (Hrows d r Hr). }
    destruct (IH c1 Hlen1 Hrows1 Hvalid) as [c [Hc [Hclen [Hcrows Hcells]]]].
    exists c. split; [exact Hc|]. split; [exact Hclen|]. split; [exact Hcrows|].
    intros d h Hd Hh. rewrite (Hcells d h Hd Hh). f_equal.
    unfold heatCount, countIf. cbn [List.filter].
    assert (Ehw : onWeekday tz d hw && inHour tz h hw
                  = (day =? Z.of_nat d) && (hour =? Z.of_nat h))
      by (unfold onWeekday, inHour; rewrite Eday, Ehour; reflexivity).
    rewrite Ehw.
    assert (Hd0 : (d < length c0)%nat) by lia.
    destruct (lookup_lt_is_Some_2 c0 d Hd0) as [row0 Hrow0].
    assert (Hh0 : (h < length row0)%nat) by (rewrite (Hrows d row0 Hrow0); exact Hh).
    destruct (lookup_lt_is_Some_2 row0 h Hh0) as [v Hv].
    unfold cellAt, c1. rewrite Hrow0, Hv. cbn [default].
    destruct (day =? Z.of_nat d) eqn:Ed.
    + apply Z.eqb_eq in Ed. rewrite Ed, Nat2Z.id in *.
      rewrite list_lookup_insert_eq by exact Hd0.
      assert (row0 = row) by congruence. subst row0.
      destruct (hour =? Z.of_nat h) eqn:Eh; cbn [andb].
      * apply Z.eqb_eq in Eh. rewrite Eh, Nat2Z.id.
        rewrite list_lookup_alter_eq, Hv. cbn [length]. cbn. lia.
      * apply Z.eqb_neq in Eh.
        rewrite list_lookup_alter_ne by lia. rewrite Hv. reflexivity.
    + apply Z.eqb_neq in Ed. cbn [andb].
      rewrite list_lookup_insert_ne by lia. rewrite Hrow0, Hv. reflexivity.
Qed.

Lemma heat_fold_TypeError (tz : Z) (l : list Homework) :
  fold_left (heatStep tz) l TypeError = TypeError.
Proof. induction l as [|hw l IH]; [reflexivity | exact IH]. Qed.

Lemma heat_fold_invalid (tz : Z) (l : list Homework) (c0 : list (list nat)) :
  (exists hw, In hw l /\ validSubmit hw = false) ->
  fold_left (heatStep tz) l (Returned c0) = TypeError.
Proof.
  revert c0. induction l as [|hw l IH]; intros c0 [bad [Hin Hbad]]; [destruct Hin|].
  cbn [fold_left].
  destruct (heatStep tz (Returned c0) hw) as [c1|] eqn:Hstep; [|apply heat_fold_TypeError].
  apply IH. exists bad. split; [|exact Hbad].
  destruct Hin as [<-|Hin]; [|exact Hin]. exfalso.
  unfold heatStep, submitDay in Hstep. unfold validSubmit, submitDate in Hbad.
  destruct (submitTime hw) as [[t|]|]; discriminate.
Qed.

Lemma all_or_some_invalid (l : list Homework) :
  List.Forall (fun hw => validSubmit hw = true) l \/
  exists hw, In hw l /\ validSubmit hw = false.
Proof.
  induction l as [|hw l [IH|[bad [Hin Hbad]]]].
  - left. constructor.
  - destruct (validSubmit hw) eqn:E.
    + left. constructor; assumption.
    + right. exists hw. split; [left; reflexivity | exact E].
  - right. exists bad. split; [right; exact Hin | exact Hbad].
Qed.

Lemma maxOver_spec (values : list nat) (max0 : nat) :
  (max0 <= maxOver values max0)%nat /\
  (forall v, In v values -> (v <= maxOver values max0)%nat) /\
  (maxOver values max0 = max0 \/ In (maxOver values max0) values).
Proof.
  revert max0. induction values as [|x values IH]; intros max0; unfold maxOver; cbn [fold_left].
  - split; [lia|]. split; [intros v []|]. left. reflexivity.
  - fold (maxOver values (if (max0 <? x)%nat then x else max0)).
    destruct (IH (if (max0 <? x)%nat then x else max0)) as [H1 [H2 H3]].
    destruct (max0 <? x)%nat eqn:E.
    + apply Nat.ltb_lt in E. split; [lia|]. split.
      * intros v [<-|Hv]; [exact H1 | exact (H2 v Hv)].
      * right. destruct H3 as [->|H3]; [left; reflexivity | right; exact H3].
    + apply Nat.ltb_ge in E. split; [exact H1|]. split.
      * intros v [<-|Hv]; [lia | exact (H2 v Hv)].
      * destruct H3 as [H3|H3]; [left; exact H3 | right; right; exact H3].
Qed.

Lemma cellAt_In {A : Type} (grid : list (list A)) (d h : nat) (v : A) :
  cellAt grid d h = Some v -> In v (concat grid).
Proof.
  unfold cellAt. destruct (grid !! d) as [row|] eqn:Hrow; [|discriminate].
  intros Hv. apply in_concat. exists row. split.
  - apply list_elem_of_In. exact (list_elem_of_lookup_2 _ _ _ Hrow).
  - apply list_elem_of_In. exact (list_elem_of_lookup_2 _ _ _ Hv).
Qed.

Lemma In_concat_cellAt {A : Type} (grid : list (list A)) (v : A) :
  In v (concat grid) -> exists d h, cellAt grid d h = Some v.
Proof.
  intros H. apply in_concat in H as [row [Hrow Hv]].
  apply list_elem_of_In, list_elem_of_lookup_1 in Hrow as [d Hd].
  apply list_elem_of_In, list_elem_of_lookup_1 in Hv as [h Hh].
  exists d, h. unfold cellAt. rewrite Hd. exact Hh.
Qed.

(** X8.  When the heat map fails.  Building the weekday-hour grid throws a
    TypeError exactly when some submission's submit time is an invalid date;
    with no submission the result is the empty grid with maximum 0. *)
Theorem weeklyHourHeatmap_throws (tz : Z) (homeworks : list Homework) :
  let sh := submittedHomeworks homeworks in
  (weeklyHourHeatmap tz homeworks = TypeError
   <-> exists hw, In hw sh /\ validSubmit hw = false) /\
  (sh = [] -> weeklyHourHeatmap tz homeworks = Returned (mkWeeklyHourHeatmap [] O)).
Proof.
  intros sh. unfold weeklyHourHeatmap. fold sh. split.
  - destruct (Nat.eqb (length sh) 0) eqn:E.
    + apply Nat.eqb_eq in E. destruct sh; [|discriminate]. split; [discriminate|].
      intros [hw [[] _]].
    + split.
      * intros Hthrow. destruct (all_or_some_invalid sh) as [Hvalid|Hbad]; [|exact Hbad].
        destruct (heat_fold tz sh (replicate 7 (replicate 24 O))) as [c [Hc _]].
        -- reflexivity.
        -- intros d row Hrow. apply lookup_replicate in Hrow as [-> _]. reflexivity.
        -- exact Hvalid.
        -- rewrite Hc in Hthrow. discriminate.
      * intros Hbad. rewrite (heat_fold_invalid tz sh _ Hbad). reflexivity.
  - intros ->. reflexivity.
Qed.

(** X9.  The weekday-hour grid.  When there is a submission and every submit
    time is a valid date, the grid has 7 rows of 24 cells; the cell of a
    weekday and an hour carries their label and the number of submissions
    made then, and the maximum is the largest of these numbers. *)
Theorem weeklyHourHeatmap_grid (tz : Z) (homeworks : list Homework) :
  let sh := submittedHomeworks homeworks in
  sh <> [] ->
  List.Forall (fun hw => validSubmit hw = true) sh ->
  exists hm,
    weeklyHourHeatmap tz homeworks = Returned hm /\
    length (heat_rows hm) = 7%nat /\
    List.Forall (fun row => length row = 24%nat) (heat_rows hm) /\
    (forall d h, (d < 7)%nat -> (h < 24)%nat ->
       cellAt (heat_rows hm) d h
       = Some (mkHeatCell (heatLabel d h) (heatCount tz d h sh))) /\
    (forall d h, (d < 7)%nat -> (h < 24)%nat -> (heatCount tz d h sh <= heat_max hm)%nat) /\
    exists d h, (d < 7)%nat /\ (h < 24)%nat /\ heatCount tz d h sh = heat_max hm.
Proof.
  intros sh Hne Hvalid. unfold weeklyHourHeatmap. fold sh.
  assert (E : Nat.eqb (length sh) 0 = false)
    by (apply Nat.eqb_neq; destruct sh; [contradiction | discriminate]).
  rewrite E.
  destruct (heat_fold tz sh (replicate 7 (replicate 24 O))) as [c [Hc [Hlen [Hrows Hcells]]]].
  { reflexivity. }
  { intros d row Hrow. apply lookup_replicate in Hrow as [-> _]. reflexivity. }
  { exact Hvalid. }
  rewrite Hc.
  assert (Hcell : forall d h, (d < 7)%nat -> (h < 24)%nat ->
            cellAt c d h = Some (heatCount tz d h sh)).
  { intros d h Hd Hh. rewrite (Hcells d h Hd Hh). unfold cellAt.
    rewrite (lookup_replicate_2 7 _ d Hd), (lookup_replicate_2 24 O h Hh). reflexivity. }
  eexists. split; [reflexivity|]. cbn [heat_rows heat_max].
  destruct (maxOver_spec (concat c) O) as [_ [Hupper Hattained]].
  split; [|split; [|split; [|split]]].
  - rewrite length_imap. exact Hlen.
  - apply List.Forall_forall. intros cells Hin.
    apply list_elem_of_In, list_elem_of_lookup_1 in Hin as [d Hd].
    rewrite list_lookup_imap in Hd.
    destruct (c !! d) as [row|] eqn:Hrow; [|discriminate].
    cbn in Hd. injection Hd as <-. rewrite length_imap. exact (Hrows d row Hrow).
  - intros d h Hd Hh. pose proof (Hcell d h Hd Hh) as Hv. unfold cellAt in *.
    rewrite list_lookup_imap.
    destruct (c !! d) as [row|]; [|discriminate]. cbn [fmap option_fmap option_map].
    rewrite list_lookup_imap, Hv. reflexivity.
  - intros d h Hd Hh. apply Hupper. exact (cellAt_In c d h _ (Hcell d h Hd Hh)).
  - destruct Hattained as [H0|Hin].
    + exists O, O. split; [lia|]. split; [lia|]. rewrite H0.
      pose proof (Hupper _ (cellAt_In c 0 0 _ (Hcell O O ltac:(lia) ltac:(lia)))) as H. lia.
    + apply In_concat_cellAt in Hin as [d [h Hdh]].
      assert (Hd : (d < 7)%nat).
      { unfold cellAt in Hdh. destruct (c !! d) eqn:Hrow; [|discriminate].
        apply lookup_lt_Some in Hrow. lia. }
      assert (Hh : (h < 24)%nat).
      { unfold cellAt in Hdh. destruct (c !! d) as [row|] eqn:Hrow; [|discriminate].
        apply lookup_lt_Some in Hdh. rewrite (Hrows d row Hrow) in Hdh. exact Hdh. }
      exists d, h. split; [exact Hd|]. split; [exact Hh|].
      rewrite (Hcell d h Hd Hh) in Hdh. injection Hdh as Hdh. exact Hdh.
Qed.

(** ** Date helpers *)

(** X10.  The start of the week.  For a valid date the result is the latest
    local midnight that begins a Sunday and is not after the date, so it lies
    less than seven days before it; applying the function again changes
    nothing.  An invalid date stays invalid. *)
Theorem startOfWeek_sunday_midnight (tz t : Z) :
  (exists t0,
     startOfWeek tz (mkDate t) = mkDate t0 /\
     getDay tz (mkDate t0) = Some 0 /\
     localTimeInDay tz t0 = 0 /\
     t0 <= t < t0 + 7 * msPerDay /\
     startOfWeek tz (mkDate t0) = mkDate t0) /\
  startOfWeek tz InvalidDate = InvalidDate.
Proof.
  split; [|reflexivity].
  unfold startOfWeek. cbn [getDay].
  set (diff := (localDay tz t + 4) mod 7).
  set (t0 := t - diff * msPerDay - localTimeInDay tz (t - diff * msPerDay)).
  assert (Hmid : localTimeInDay tz t0 = 0).
  { unfold t0, localTimeInDay, msPerDay. Z.div_mod_to_equations. lia. }
  assert (Hday : localDay tz t0 = localDay tz t - diff).
  { unfold t0, localTimeInDay, localDay, msPerDay. Z.div_mod_to_equations. lia. }
  assert (Hsun : (localDay tz t0 + 4) mod 7 = 0).
  { rewrite Hday. unfold diff. Z.div_mod_to_equations. lia. }
  exists t0. split; [reflexivity|]. split; [rewrite Hsun; reflexivity|].
  split; [exact Hmid|]. split.
  - assert (Hd : 0 <= diff < 7) by (unfold diff; Z.div_mod_to_equations; lia).
    unfold t0, localTimeInDay, msPerDay. Z.div_mod_to_equations. lia.
  - rewrite Hsun. f_equal.
    replace (t0 - 0 * msPerDay) with t0 by lia. rewrite Hmid. lia.
Qed.

(** X11.  Adding days.  For a valid date and any offset, also a negative one,
    the result is that many local calendar days away at the same time of
    day, its weekday moves by the offset modulo 7, and two additions add up.
    An invalid date stays invalid. *)
Theorem addDays_shift (tz t a b : Z) :
  (exists t1,
     addDays (mkDate t) a = mkDate t1 /\
     localDay tz t1 = localDay tz t + a /\
     localTimeInDay tz t1 = localTimeInDay tz t /\
     getHours tz (mkDate t1) = getHours tz (mkDate t) /\
     getDay tz (mkDate t1) = Some ((localDay tz t + 4 + a) mod 7)) /\
  addDays (addDays (mkDate t) a) b = addDays (mkDate t) (a + b) /\
  addDays InvalidDate a = InvalidDate.
Proof.
  split; [|split; [|reflexivity]].
  - exists (t + a * msPerDay). split; [reflexivity|].
    assert (Hday : localDay tz (t + a * msPerDay) = localDay tz t + a).
    { unfold localDay, msPerDay. Z.div_mod_to_equations. lia. }
    assert (Htime : localTimeInDay tz (t + a * msPerDay) = localTimeInDay tz t).
    { unfold localTimeInDay, msPerDay. Z.div_mod_to_equations. lia. }
    split; [exact Hday|]. split; [exact Htime|]. split.
    + cbn [getHours]. rewrite Htime. reflexivity.
    + cbn [getDay]. rewrite Hday. f_equal. f_equal. lia.
  - cbn [addDays]. f_equal. lia.
Qed.

(** ** What the size parser returns *)








(** ** A size in bytes, spelled out *)













(** ** Active days and the longest streak *)

Lemma existsb_eqb_In_rev (x : string) (l : list string) :
  existsb (String.eqb x) l = true <-> In x l.
Proof.
  rewrite existsb_exists. split.
  - intros [y [Hy E]]. apply String.eqb_eq in E. subst y. exact Hy.
  - intros H. exists x. split; [exact H | apply String.eqb_refl].
Qed.

Lemma distinct_fold (xs seen : list string) :
  List.NoDup seen ->
  let out := fold_left (fun seen x => if existsb (String.eqb x) seen then seen else seen ++ [x])
               xs seen in
  List.NoDup out /\
  (forall k, In k out <-> In k seen \/ In k xs) /\
  (length out <= length seen + length xs)%nat.
Proof.
  revert seen. induction xs as [|x xs IH]; intros seen Hnd; cbn [fold_left].
  - split; [exact Hnd|]. split; [|cbn [length]; lia].
    intros k. split; [auto | intros [H|[]]; exact H].
  - destruct (existsb (String.eqb x) seen) eqn:E.
    + apply existsb_eqb_In_rev in E.
      destruct (IH seen Hnd) as [H1 [H2 H3]]. cbv zeta in H1, H2, H3.
      split; [exact H1|]. split; [|cbn [length]; lia].
      intros k. rewrite H2. cbn [In]. split.
      * intros [H|H]; auto.
      * intros [H|[<-|H]]; auto.
    + assert (Hx : ~ In x seen).
      { intros H. apply existsb_eqb_In_rev in H. rewrite H in E. discriminate. }
      assert (Hnd' : List.NoDup (seen ++ [x])).
      { apply List.NoDup_app; [exact Hnd | constructor; [intros []|constructor] |].
        intros y Hy [<-|[]]. exact (Hx Hy). }
      destruct (IH (seen ++ [x]) Hnd') as [H1 [H2 H3]]. cbv zeta in H1, H2, H3.
      split; [exact H1|]. split.
      * intros k. rewrite H2, in_app_iff. cbn [In]. tauto.
      * rewrite length_app in H3. cbn [length] in *. lia.
Qed.

Lemma distinct_spec (xs : list string) :
  List.NoDup (distinct xs) /\
  (forall k, In k (distinct xs) <-> In k xs) /\
  (length (distinct xs) <= length xs)%nat.
Proof.
  destruct (distinct_fold xs [] (List.NoDup_nil _)) as [H1 [H2 H3]]. cbv zeta in H1, H2, H3.
  split; [exact H1|]. split; [|exact H3].
  intros k. rewrite (H2 k). cbn [In]. tauto.
Qed.

Lemma streak_fold (parseDate : string -> Date) (pairs : list (string * string))
    (longest current n : nat) :
  (1 <= longest <= n)%nat -> (1 <= current <= n)%nat ->
  let '(longest', current') := fold_left (streakStep parseDate) pairs (longest, current) in
  (1 <= longest' <= n + length pairs)%nat /\ (1 <= current' <= n + length pairs)%nat.
Proof.
  revert longest current n. induction pairs as [|p pairs IH]; intros longest current n Hl Hc.
  - cbn [fold_left length]. lia.
  - cbn [fold_left length]. unfold streakStep at 2.
    destruct (num_strict_eq _ _).
    + specialize (IH longest (S current) (S n) ltac:(lia) ltac:(lia)).
      destruct (fold_left (streakStep parseDate) pairs (longest, S current)) as [l' c'].
      lia.
    + specialize (IH (Nat.max longest current) 1%nat (S n) ltac:(lia) ltac:(lia)).
      destruct (fold_left (streakStep parseDate) pairs (Nat.max longest current, 1%nat))
        as [l' c'].
      lia.
Qed.

Lemma neighbours_length (days : list string) :
  length (neighbours days) = (length days - 1)%nat.
Proof.
  destruct days as [|d rest]; [reflexivity|].
  unfold neighbours. rewrite length_combine. cbn [length]. lia.
Qed.

(** X14.  Active days and the longest streak.  However the day keys are read
    back as dates, the number of active days is the number of different day
    keys among the submissions; with no submission both numbers are 0, and
    otherwise the longest streak is at least 1 and at most the number of
    active days. *)
Theorem activityStats_bounds (parseDate : string -> Date) (tz : Z)
    (homeworks : list Homework) :
  let sh := submittedHomeworks homeworks in
  let stats := activityStats parseDate tz homeworks in
  (exists days,
     List.NoDup days /\
     (forall k, In k days <-> exists hw, In hw sh /\ dayKey tz hw = k) /\
     activeDays stats = length days) /\
  (activeDays stats <= length sh)%nat /\
  (sh = [] -> stats = mkActivityStats O O) /\
  (sh <> [] -> (1 <= longestStreak stats <= activeDays stats)%nat).
Proof.
  intros sh stats. unfold stats, activityStats. fold sh.
  set (keys := List.map (fun hw => formatDateKey tz (submitDate hw)) sh).
  destruct (distinct_spec keys) as [Hnd [Hin Hlen]].
  set (days := jsSort byString (distinct keys)).
  assert (Hperm : Permutation days (distinct keys)) by apply jsSort_perm.
  assert (Hdlen : length days = length (distinct keys)) by apply jsSort_length.
  assert (Hkeys : length keys = length sh) by apply length_map.
  assert (Hempty : sh = [] -> days = []) by (intros E; unfold days, keys; rewrite E; reflexivity).
  assert (Hnonempty : sh <> [] -> length days <> O).
  { intros Hne. rewrite Hdlen. destruct sh as [|hw sh'] eqn:Esh; [contradiction|].
    assert (Hk : In (formatDateKey tz (submitDate hw)) (distinct keys))
      by (apply Hin; left; reflexivity).
    destruct (distinct keys); [destruct Hk | discriminate]. }
  destruct (Nat.eqb (length days) 0) eqn:E.
  - apply Nat.eqb_eq in E. cbn [activeDays longestStreak].
    split; [|split; [lia|split; [reflexivity|]]].
    + exists days. split; [|split; [|exact (eq_sym E)]].
      * apply (Permutation_NoDup (l := distinct keys)); [symmetry; exact Hperm | exact Hnd].
      * destruct days; [|discriminate]. intros k. split; [intros []|].
        intros [hw [Hhw _]]. destruct sh as [|h sh'] eqn:Esh; [destruct Hhw|].
        exfalso. exact (Hnonempty ltac:(discriminate) eq_refl).
    + intros Hne. exfalso. exact (Hnonempty Hne E).
  - apply Nat.eqb_neq in E.
    pose proof (streak_fold parseDate (neighbours days) 1 1 1 ltac:(lia) ltac:(lia)) as Hfold.
    destruct (fold_left (streakStep parseDate) (neighbours days) (1%nat, 1%nat))
      as [longest current].
    rewrite neighbours_length in Hfold. cbn [activeDays longestStreak].
    split; [|split; [lia|split]].
    + exists days. split; [|split; [|reflexivity]].
      * apply (Permutation_NoDup (l := distinct keys)); [symmetry; exact Hperm | exact Hnd].
      * intros k. split.
        -- intros Hk. apply (Permutation_in _ Hperm), Hin in Hk.
           unfold keys in Hk. apply in_map_iff in Hk as [hw [Hkey Hhw]].
           exists hw. split; [exact Hhw | exact Hkey].
        -- intros [hw [Hhw Hkey]]. apply (Permutation_in _ (Permutation_sym Hperm)), Hin.
           unfold keys. apply in_map_iff. exists hw. split; [exact Hkey | exact Hhw].
    + intros Esh. rewrite (Hempty Esh) in E. contradiction.
    + intros _. lia.
Qed.

(** ** Rates and histograms agree *)

Lemma bins_once (o : option Z) (bins : list nat) :
  List.NoDup bins ->
  sum_list (List.map (fun i => if eq_int o (Z.of_nat i) then 1%nat else O) bins)
  = if existsb (fun i => eq_int o (Z.of_nat i)) bins then 1%nat else O.
Proof.
  induction bins as [|i bins IH]; intros Hnd; [reflexivity|].
  apply List.NoDup_cons_iff in Hnd as [Hi Hnd].
  cbn [List.map existsb]. change (sum_list (?x :: ?l)) with (x + sum_list l)%nat.
  rewrite (IH Hnd).
  destruct (eq_int o (Z.of_nat i)) eqn:E; cbn [orb]; [|reflexivity].
  destruct (existsb (fun j => eq_int o (Z.of_nat j)) bins) eqn:Ex; [|reflexivity].
  exfalso. apply existsb_exists in Ex as [j [Hj Ej]].
  destruct o as [z|]; [|discriminate]. cbn [eq_int] in E, Ej.
  apply Z.eqb_eq in E, Ej. assert (i = j) by lia. subst j. exact (Hi Hj).
Qed.

Lemma count_bins {A : Type} (k : A -> option Z) (bins : list nat) (l : list A) :
  List.NoDup bins ->
  sum_list (List.map (fun i => countIf (fun x => eq_int (k x) (Z.of_nat i)) l) bins)
  = countIf (fun x => existsb (fun i => eq_int (k x) (Z.of_nat i)) bins) l.
Proof.
  intros Hnd. induction l as [|x l IH].
  - unfold countIf. cbn [List.filter length].
    induction bins as [|i bins IHb]; [reflexivity|].
    apply List.NoDup_cons_iff in Hnd as [_ Hnd]. cbn [List.map].
    change (sum_list (?x :: ?l)) with (x + sum_list l)%nat. rewrite (IHb Hnd). reflexivity.
  - assert (Hsplit : forall bs,
              sum_list (List.map (fun i => countIf (fun y => eq_int (k y) (Z.of_nat i)) (x :: l)) bs)
              = (sum_list (List.map (fun i => if eq_int (k x) (Z.of_nat i) then 1%nat else O) bs)
                 + sum_list (List.map (fun i => countIf (fun y => eq_int (k y) (Z.of_nat i)) l) bs))%nat).
    { induction bs as [|i bs IHb]; [reflexivity|].
      cbn [List.map]. change (sum_list (?x :: ?l)) with (x + sum_list l)%nat.
      rewrite IHb. unfold countIf at 1. cbn [List.filter].
      destruct (eq_int (k x) (Z.of_nat i)); cbn [length]; unfold countIf; lia. }
    rewrite Hsplit, IH, (bins_once (k x) bins Hnd).
    unfold countIf. cbn [List.filter].
    destruct (existsb (fun i => eq_int (k x) (Z.of_nat i)) bins); cbn [length]; lia.
Qed.

Lemma hourBuckets_values (tz : Z) (homeworks : list Homework) :
  List.map bar_value (hourBuckets tz homeworks)
  = List.map (fun h => countIf (inHour tz h) (submittedHomeworks homeworks)) (seq 0 24).
Proof.
  unfold hourBuckets.
  destruct (bumpAt_fold (submitHour tz) 24 (submittedHomeworks homeworks) (replicate 24 O)
              (submitHour_range tz) (length_replicate _ _)) as [Hlen [Hat _]].
  cbv zeta in Hlen, Hat.
  rewrite (imap_values (fun idx => toString (Some (Z.of_nat idx))) _ mkBarItem) by reflexivity.
  apply list_eq. intros i. change (List.map ?f ?l) with (f <$> l).
  rewrite list_lookup_fmap.
  destruct (Nat.lt_ge_cases i 24) as [Hi|Hi].
  - rewrite (Hat i Hi), (lookup_replicate_2 24 O i Hi), (lookup_seq_lt 0 24 i Hi). reflexivity.
  - rewrite (lookup_seq_ge 0 24 i Hi). apply lookup_ge_None. rewrite Hlen. exact Hi.
Qed.

Lemma weekdayBuckets_values (tz : Z) (homeworks : list Homework) :
  List.map bar_value (weekdayBuckets tz homeworks)
  = List.map (fun d => countIf (onWeekday tz d) (submittedHomeworks homeworks)) (seq 0 7).
Proof.
  unfold weekdayBuckets.
  destruct (bumpAt_fold (submitDay tz) 7 (submittedHomeworks homeworks) (replicate 7 O)
              (submitDay_range tz) (length_replicate _ _)) as [Hlen [Hat _]].
  cbv zeta in Hlen, Hat.
  rewrite (imap_values weekdayLabel _ mkBarItem) by reflexivity.
  apply list_eq. intros i. change (List.map ?f ?l) with (f <$> l).
  rewrite list_lookup_fmap.
  destruct (Nat.lt_ge_cases i 7) as [Hi|Hi].
  - rewrite (Hat i Hi), (lookup_replicate_2 7 O i Hi), (lookup_seq_lt 0 7 i Hi). reflexivity.
  - rewrite (lookup_seq_ge 0 7 i Hi). apply lookup_ge_None. rewrite Hlen. exact Hi.
Qed.

Lemma night_hours (o : option Z) :
  (forall z, o = Some z -> 0 <= z < Z.of_nat 24) ->
  ge_int o 22 || lt_int o 6
  = existsb (fun i => eq_int o (Z.of_nat i)) [0; 1; 2; 3; 4; 5; 22; 23]%nat.
Proof.
  intros Hrange. destruct o as [z|]; [|reflexivity].
  specialize (Hrange z eq_refl). cbn [ge_int lt_int eq_int existsb].
  assert (Hz : In z [0; 1; 2; 3; 4; 5; 6; 7; 8; 9; 10; 11; 12; 13; 14; 15; 16; 17; 18; 19;
                     20; 21; 22; 23]) by (cbn [In]; lia).
  cbn [In] in Hz.
  repeat (destruct Hz as [<-|Hz]; [reflexivity|]). contradiction.
Qed.

Lemma weekend_days (o : option Z) :
  eq_int o 0 || eq_int o 6 = existsb (fun i => eq_int o (Z.of_nat i)) [0; 6]%nat.
Proof.
  destruct o as [z|]; [|reflexivity]. cbn [eq_int existsb]. rewrite orb_false_r. reflexivity.
Qed.

(** X15.  The rates agree with the histograms.  The night rate is the sum of
    the hour bars 0 to 5 and 22 to 23 over the number of submissions, and the
    weekend rate is the sum of the Sunday and Saturday bars over that number
    (both 0 when there is no submission). *)
Theorem rates_match_histograms (tz : Z) (homeworks : list Homework) :
  let sh := submittedHomeworks homeworks in
  let hours := List.map bar_value (hourBuckets tz homeworks) in
  let days := List.map bar_value (weekdayBuckets tz homeworks) in
  let night := (sum_list (take 6 hours) + sum_list (drop 22 hours))%nat in
  let weekend := (default O (days !! 0%nat) + default O (days !! 6%nat))%nat in
  nightRate tz homeworks
  = (if Nat.eqb (length sh) 0 then ofZ 0 else num_div (ofNat night) (ofNat (length sh))) /\
  weekendRate tz homeworks
  = (if Nat.eqb (length sh) 0 then ofZ 0 else num_div (ofNat weekend) (ofNat (length sh))).
Proof.
  intros sh hours days night weekend.
  assert (Hnight : night
                   = length (List.filter (fun hw => ge_int (submitHour tz hw) 22
                                                    || lt_int (submitHour tz hw) 6) sh)).
  { unfold night, hours. rewrite hourBuckets_values. fold sh.
    transitivity (countIf (fun hw => existsb (fun i => eq_int (submitHour tz hw) (Z.of_nat i))
                                       [0; 1; 2; 3; 4; 5; 22; 23]%nat) sh).
    - rewrite <- (count_bins (submitHour tz) [0; 1; 2; 3; 4; 5; 22; 23]%nat sh).
      + cbn [seq List.map take drop]. unfold inHour.
        repeat change (sum_list (?x :: ?l)) with (x + sum_list l)%nat.
        change (sum_list []) with O. unfold Datatypes.id. lia.
      + repeat (constructor; [cbn [In]; lia|]). constructor.
    - apply countIf_ext_in. intros hw _. cbv zeta. symmetry.
      apply night_hours. intros z Hz. exact (submitHour_range tz hw z Hz). }
  assert (Hweekend : weekend
                     = length (List.filter (fun hw => eq_int (submitDay tz hw) 0
                                                      || eq_int (submitDay tz hw) 6) sh)).
  { unfold weekend, days. rewrite weekdayBuckets_values. fold sh.
    transitivity (countIf (fun hw => existsb (fun i => eq_int (submitDay tz hw) (Z.of_nat i))
                                       [0; 6]%nat) sh).
    - rewrite <- (count_bins (submitDay tz) [0; 6]%nat sh).
      + cbn [seq List.map lookup list_lookup default]. unfold onWeekday.
        repeat change (sum_list (?x :: ?l)) with (x + sum_list l)%nat.
        change (sum_list []) with O. unfold Datatypes.id. lia.
      + repeat (constructor; [cbn [In]; lia|]). constructor.
    - apply countIf_ext_in. intros hw _. cbv zeta. symmetry. apply weekend_days. }
  split.
  - unfold nightRate. cbv zeta. fold sh. rewrite <- Hnight. reflexivity.
  - unfold weekendRate. cbv zeta. fold sh. rewrite <- Hweekend. reflexivity.
Qed.

(** ** Attachment sizes *)




Lemma countIf_filter {A : Type} (p q : A -> bool) (l : list A) :
  countIf p (List.filter q l) = countIf (fun x => q x && p x) l.
Proof.
  unfold countIf. induction l as [|x l IH]; [reflexivity|].
  cbn [List.filter]. destruct (q x); cbn [List.filter andb]; [|exact IH].
  destruct (p x); cbn [length]; rewrite IH; reflexivity.
Qed.


(** ** Submissions per day and the calendar *)

Lemma countByDay_fold (tz : Z) (hws : list Homework) (m : gmap string nat) (key : string) :
  default O
    (fold_left
       (fun counts hw =>
          let k := formatDateKey tz (submitDate hw) in
          <[ k := S (default O (counts !! k)) ]> counts)
       hws m !! key)
  = (default O (m !! key) + countIf (onDay tz key) hws)%nat.
Proof.
  revert m. induction hws as [|hw hws IH]; intros m; cbn [fold_left].
  - unfold countIf. cbn [List.filter length]. lia.
  - rewrite IH. unfold countIf, onDay, dayKey. cbn [List.filter].
    destruct (String.eqb (formatDateKey tz (submitDate hw)) key) eqn:E.
    + apply String.eqb_eq in E. rewrite E, lookup_insert_eq. cbn [default length].
      unfold Datatypes.id. lia.
    + apply String.eqb_neq in E. rewrite lookup_insert_ne by exact E. reflexivity.
Qed.

Lemma countByDay_count (tz : Z) (hws : list Homework) (key : string) :
  default O (countByDay tz hws !! key) = countIf (onDay tz key) hws.
Proof.
  unfold countByDay. rewrite countByDay_fold, lookup_empty. reflexivity.
Qed.

Lemma countByDay_positive (tz : Z) (hws : list Homework) (m : gmap string nat) (key : string)
    (n : nat) :
  (forall k v, m !! k = Some v -> (0 < v)%nat) ->
  fold_left
    (fun counts hw =>
       let k := formatDateKey tz (submitDate hw) in
       <[ k := S (default O (counts !! k)) ]> counts)
    hws m !! key = Some n ->
  (0 < n)%nat.
Proof.
  revert m. induction hws as [|hw hws IH]; intros m Hm; cbn [fold_left].
  - exact (Hm key n).
  - apply IH. intros k v Hk.
    destruct (decide (formatDateKey tz (submitDate hw) = k)) as [<-|Hne].
    + rewrite lookup_insert_eq in Hk. injection Hk as <-. lia.
    + rewrite lookup_insert_ne in Hk by exact Hne. exact (Hm k v Hk).
Qed.

(** X17.  The map of submissions per day.  The map holds, under a day key,
    the number of the submissions made on that day, and it has no entry for
    a day without submission. *)
Theorem countByDay_counts (tz : Z) (hws : list Homework) (key : string) :
  (countByDay tz hws !! key = None <-> countIf (onDay tz key) hws = O) /\
  (forall n, countByDay tz hws !! key = Some n ->
             n = countIf (onDay tz key) hws /\ (0 < n)%nat).
Proof.
  pose proof (countByDay_count tz hws key) as Hcount.
  assert (Hpos : forall n, countByDay tz hws !! key = Some n -> (0 < n)%nat).
  { intros n Hn. unfold countByDay in Hn.
    apply (countByDay_positive tz hws ∅ key n); [|exact Hn].
    intros k v Hk. rewrite lookup_empty in Hk. discriminate. }
  split.
  - destruct (countByDay tz hws !! key) as [n|] eqn:E; cbn [default] in Hcount;
      unfold Datatypes.id in Hcount.
    + specialize (Hpos n eq_refl). split; [discriminate | lia].
    + split; [intros _; symmetry; exact Hcount | reflexivity].
  - intros n Hn. rewrite Hn in Hcount. cbn [default] in Hcount. unfold Datatypes.id in Hcount.
    split; [exact Hcount | exact (Hpos n Hn)].
Qed.

Lemma week_fold_max (f : nat -> HeatCell) (ds : list nat) (week : list HeatCell) (mx : nat) :
  snd (fold_left
         (fun '(week, mx) d =>
            (week ++ [f d],
             if (mx <? cell_value (f d))%nat then cell_value (f d) else mx))
         ds (week, mx))
  = maxOver (List.map (fun d => cell_value (f d)) ds) mx.
Proof.
  revert week mx. induction ds as [|d ds IH]; intros week mx; [reflexivity|].
  cbn [fold_left List.map]. rewrite IH. reflexivity.
Qed.

Lemma calendarWeek_max (tz : Z) (counts : gmap string nat) (start : Date) (w mx : nat) :
  snd (calendarWeek tz counts start w mx)
  = maxOver (List.map (fun d => cell_value (gridCell tz counts start w d)) (seq 0 7)) mx.
Proof. exact (week_fold_max (gridCell tz counts start w) (seq 0 7) [] mx). Qed.

Lemma maxOver_app (a b : list nat) (mx : nat) :
  maxOver (a ++ b) mx = maxOver b (maxOver a mx).
Proof. unfold maxOver. apply fold_left_app. Qed.

(** The state of the calendar loop after the weeks [ws]. *)
Lemma calendar_fold (tz : Z) (counts : gmap string nat) (start : Date) (n : nat)
    (w0 : nat) (wks : list (list HeatCell)) (labels : list string) (mx : nat) :
  fold_left (calendarStep tz counts start) (seq w0 n)
    (wks, labels, mx, monthBefore tz start w0)
  = (wks ++ List.map (fun w => List.map (gridCell tz counts start w) (seq 0 7)) (seq w0 n),
     labels ++ List.map (monthLabel tz start) (seq w0 n),
     maxOver
       (concat (List.map
                  (fun w => List.map (fun d => cell_value (gridCell tz counts start w d))
                              (seq 0 7))
                  (seq w0 n)))
       mx,
     monthBefore tz start (w0 + n)).
Proof.
  revert w0 wks labels mx. induction n as [|n IH]; intros w0 wks labels mx.
  - cbn [seq fold_left List.map concat]. rewrite !app_nil_r, Nat.add_0_r. reflexivity.
  - cbn [seq fold_left].
    assert (Hstep : calendarStep tz counts start (wks, labels, mx, monthBefore tz start w0) w0
                    = (wks ++ [List.map (gridCell tz counts start w0) (seq 0 7)],
                       labels ++ [monthLabel tz start w0],
                       maxOver (List.map (fun d => cell_value (gridCell tz counts start w0 d))
                                  (seq 0 7)) mx,
                       monthBefore tz start (S w0))).
    { unfold calendarStep.
      pose proof (calendarWeek_cells tz counts start w0 mx) as Hc.
      pose proof (calendarWeek_max tz counts start w0 mx) as Hm.
      destruct (calendarWeek tz counts start w0 mx) as [week mx'].
      cbn [fst snd] in Hc, Hm. subst week mx'.
      unfold monthLabel. cbn [monthBefore]. fold (weekMonth tz start w0).
      destruct (int_neq (weekMonth tz start w0) (monthBefore tz start w0)) eqn:E;
        [reflexivity|].
      f_equal. unfold int_neq in E.
      destruct (weekMonth tz start w0) as [x|], (monthBefore tz start w0) as [y|];
        try discriminate.
      apply negb_false_iff, Z.eqb_eq in E. subst y. reflexivity. }
    rewrite Hstep, IH. cbn [List.map concat].
    rewrite maxOver_app, <- !app_assoc. cbn [app].
    replace (w0 + S n)%nat with (S w0 + n)%nat by lia. reflexivity.
Qed.

Lemma calendar_fields (tz : Z) (homeworks : list Homework) :
  let sh := submittedHomeworks homeworks in
  let counts := countByDay tz sh in
  let start := calendarStart tz sh in
  sh <> [] ->
  calendarHeatmap tz homeworks
  = mkCalendarHeatmap
      (List.map (fun w => List.map (gridCell tz counts start w) (seq 0 7)) (seq 0 weeksCount))
      (maxOver
         (concat (List.map
                    (fun w => List.map (fun d => cell_value (gridCell tz counts start w d))
                                (seq 0 7))
                    (seq 0 weeksCount)))
         O)
      (List.map (monthLabel tz start) (seq 0 weeksCount)).
Proof.
  intros sh counts start Hne. unfold calendarHeatmap. fold sh.
  destruct sh as [|hw sh'] eqn:Esh; [contradiction|].
  cbn [length Nat.eqb]. fold counts start.
  change (Some (-1)) with (monthBefore tz start 0).
  rewrite (calendar_fold tz counts start weeksCount 0 [] [] O). reflexivity.
Qed.

(** X18.  The calendar's cells, maximum and month labels.  When there is a
    submission, every cell carries the number of submissions made on the day
    of its key; the maximum is the largest cell value of the grid (0 when all
    cells are empty); and of the 16 week labels, that of a week names the
    month of its first day when that differs from the month of the week
    before (always for the first week) and is empty otherwise. *)
Theorem calendar_cells_max_labels (tz : Z) (homeworks : list Homework) :
  let sh := submittedHomeworks homeworks in
  let cal := calendarHeatmap tz homeworks in
  sh <> [] ->
  (forall week cell, In week (weeks cal) -> In cell week ->
     cell_value cell = countIf (onDay tz (cell_label cell)) sh /\
     (cell_value cell <= cal_max cal)%nat) /\
  (cal_max cal = O \/
   exists week cell, In week (weeks cal) /\ In cell week /\ cell_value cell = cal_max cal) /\
  weekLabels cal = List.map (monthLabel tz (calendarStart tz sh)) (seq 0 16).
Proof.
  intros sh cal Hne. unfold cal. rewrite (calendar_fields tz homeworks Hne). fold sh.
  cbn [weeks cal_max weekLabels].
  set (counts := countByDay tz sh). set (start := calendarStart tz sh).
  set (values := concat (List.map
                           (fun w => List.map (fun d => cell_value (gridCell tz counts start w d))
                                       (seq 0 7))
                           (seq 0 weeksCount))).
  destruct (maxOver_spec values O) as [_ [Hupper Hattained]].
  assert (Hvalue : forall w d, In w (seq 0 weeksCount) -> In d (seq 0 7) ->
                               In (cell_value (gridCell tz counts start w d)) values).
  { intros w d Hw Hd. unfold values. apply in_concat.
    exists (List.map (fun d => cell_value (gridCell tz counts start w d)) (seq 0 7)).
    split.
    - apply in_map_iff. exists w. split; [reflexivity | exact Hw].
    - apply in_map_iff. exists d. split; [reflexivity | exact Hd]. }
  split; [|split; [|reflexivity]].
  - intros week cell Hweek Hcell.
    apply in_map_iff in Hweek as [w [<- Hw]].
    apply in_map_iff in Hcell as [d [<- Hd]].
    split; [|exact (Hupper _ (Hvalue w d Hw Hd))].
    unfold gridCell. cbn [cell_value cell_label]. apply countByDay_count.
  - destruct Hattained as [H0|Hin]; [left; exact H0 | right].
    unfold values in Hin. apply in_concat in Hin as [vs [Hvs Hv]].
    apply in_map_iff in Hvs as [w [<- Hw]].
    apply in_map_iff in Hv as [d [Hd1 Hd2]].
    exists (List.map (gridCell tz counts start w) (seq 0 7)), (gridCell tz counts start w d).
    split; [|split; [|exact Hd1]].
    + apply in_map_iff. exists w. split; [reflexivity | exact Hw].
    + apply in_map_iff. exists d. split; [reflexivity | exact Hd2].
Qed.

(** ** The trend over the dates of the records *)

Lemma reduce_min (rest : list Date) (a : Z) :
  List.Forall (fun d => validDate d = true) rest ->
  exists m,
    fold_left (fun acc date => if num_lt (getTime date) (getTime acc) then date else acc)
      rest (mkDate a) = mkDate m /\
    In (mkDate m) (mkDate a :: rest) /\
    forall t, In (mkDate t) (mkDate a :: rest) -> m <= t.
Proof.
  revert a. induction rest as [|d rest IH]; intros a Hvalid; cbn [fold_left].
  - exists a. split; [reflexivity|]. split; [left; reflexivity|].
    intros t [H|[]]. injection H as <-. lia.
  - apply List.Forall_cons_iff in Hvalid as [Hd Hvalid].
    destruct d as [x|]; [|discriminate]. cbn [getTime]. unfold ofZ. cbn [num_lt].
    rewrite Zlt_Qlt_bool. destruct (x <? a) eqn:E.
    + apply Z.ltb_lt in E. destruct (IH x Hvalid) as [m [Hm [Hin Hle]]].
      exists m. split; [exact Hm|]. split.
      * destruct Hin as [Hin|Hin]; [right; left; exact Hin | right; right; exact Hin].
      * intros t [H|[H|H]].
        -- injection H as <-. specialize (Hle x (or_introl eq_refl)). lia.
        -- apply Hle. left. exact H.
        -- apply Hle. right. exact H.
    + apply Z.ltb_ge in E. destruct (IH a Hvalid) as [m [Hm [Hin Hle]]].
      exists m. split; [exact Hm|]. split.
      * destruct Hin as [Hin|Hin]; [left; exact Hin | right; right; exact Hin].
      * intros t [H|[H|H]].
        -- apply Hle. left. exact H.
        -- injection H as <-. specialize (Hle a (or_introl eq_refl)). lia.
        -- apply Hle. right. exact H.
Qed.

Lemma reduce_max (rest : list Date) (a : Z) :
  List.Forall (fun d => validDate d = true) rest ->
  exists m,
    fold_left (fun acc date => if num_gt (getTime date) (getTime acc) then date else acc)
      rest (mkDate a) = mkDate m /\
    In (mkDate m) (mkDate a :: rest) /\
    forall t, In (mkDate t) (mkDate a :: rest) -> t <= m.
Proof.
  revert a. induction rest as [|d rest IH]; intros a Hvalid; cbn [fold_left].
  - exists a. split; [reflexivity|]. split; [left; reflexivity|].
    intros t [H|[]]. injection H as <-. lia.
  - apply List.Forall_cons_iff in Hvalid as [Hd Hvalid].
    destruct d as [x|]; [|discriminate]. cbn [getTime]. unfold num_gt, ofZ. cbn [num_lt].
    rewrite Zlt_Qlt_bool. destruct (a <? x) eqn:E.
    + apply Z.ltb_lt in E. destruct (IH x Hvalid) as [m [Hm [Hin Hle]]].
      exists m. split; [exact Hm|]. split.
      * destruct Hin as [Hin|Hin]; [right; left; exact Hin | right; right; exact Hin].
      * intros t [H|[H|H]].
        -- injection H as <-. specialize (Hle x (or_introl eq_refl)). lia.
        -- apply Hle. left. exact H.
        -- apply Hle. right. exact H.
    + apply Z.ltb_ge in E. destruct (IH a Hvalid) as [m [Hm [Hin Hle]]].
      exists m. split; [exact Hm|]. split.
      * destruct Hin as [Hin|Hin]; [left; exact Hin | right; right; exact Hin].
      * intros t [H|[H|H]].
        -- apply Hle. left. exact H.
        -- injection H as <-. specialize (Hle a (or_introl eq_refl)). lia.
        -- apply Hle. right. exact H.
Qed.

Lemma candidateDates_valid (homeworks : list Homework) :
  List.Forall (fun d => validDate d = true) (candidateDates homeworks).
Proof.
  unfold candidateDates. apply List.Forall_forall. intros d Hd.
  apply List.filter_In in Hd as [_ Hd]. exact Hd.
Qed.

(** The earliest and the latest of the candidate dates. *)
Lemma candidate_range (homeworks : list Homework) :
  candidateDates homeworks <> [] ->
  exists a b,
    reduceDates num_lt (candidateDates homeworks) = mkDate a /\
    reduceDates num_gt (candidateDates homeworks) = mkDate b /\
    In (mkDate a) (candidateDates homeworks) /\
    In (mkDate b) (candidateDates homeworks) /\
    forall t, In (mkDate t) (candidateDates homeworks) -> a <= t <= b.
Proof.
  intros Hne. pose proof (candidateDates_valid homeworks) as Hvalid.
  destruct (candidateDates homeworks) as [|d rest]; [contradiction|].
  apply List.Forall_cons_iff in Hvalid as [Hd Hvalid].
  destruct d as [x|]; [|discriminate].
  destruct (reduce_min rest x Hvalid) as [a [Ha [Hina Hlea]]].
  destruct (reduce_max rest x Hvalid) as [b [Hb [Hinb Hleb]]].
  exists a, b. unfold reduceDates.
  split; [exact Ha|]. split; [exact Hb|]. split; [exact Hina|]. split; [exact Hinb|].
  intros t Ht. split; [exact (Hlea t Ht) | exact (Hleb t Ht)].
Qed.

(** Without a usable semester the window is that of the candidate dates. *)
Lemma trendWindow_default (homeworks : list Homework) (semester : Semester) :
  semesterUsable semester = false ->
  trendWindow homeworks semester
  = (getTime (reduceDates num_lt (candidateDates homeworks)),
     getTime (reduceDates num_gt (candidateDates homeworks))).
Proof.
  unfold semesterUsable, trendWindow.
  destruct (startDate semester) as [[s|]|], (endDate semester) as [[e|]|];
    intros Huse; try reflexivity.
  apply Z.leb_gt in Huse.
  destruct (Z.lt_ge_cases e s) as [Hrev|Hord].
  - rewrite (semesterCandidates_reversed s e Hrev), rangeDays_value.
    cbn [isFinite andb]. unfold num_ge, ofZ. cbn [num_le].
    rewrite range_at_least_7. replace (e - e) with 0 by lia. reflexivity.
  - rewrite (semesterCandidates_ordered s e Hord), rangeDays_value.
    cbn [isFinite andb]. unfold num_ge, ofZ. cbn [num_le].
    rewrite range_at_least_7, (proj2 (Z.leb_gt _ _) Huse). reflexivity.
Qed.

(** The series over a window from [s] to [e], whatever its length. *)
Lemma trend_series (tz : Z) (homeworks : list Homework) (semester : Semester) (s e : Z) :
  candidateDates homeworks <> [] ->
  trendWindow homeworks semester = (ofZ s, ofZ e) ->
  s <= e ->
  submissionTrend tz homeworks semester
  = List.map
      (fun i => trendPoint tz (countByDay tz (submittedHomeworks homeworks))
                  (addDays (mkDate s) (Z.of_nat i)))
      (seq 0 (trendLength s e)).
Proof.
  intros Hne Hwin H. unfold submissionTrend.
  destruct (candidateDates homeworks) as [|c cs] eqn:Ec; [contradiction|].
  cbn [length Nat.eqb]. rewrite Hwin, rangeDays_value.
  assert (Hstart : Date_of_number (ofZ s) = mkDate s)
    by (unfold ofZ, Date_of_number; rewrite Qfloor_Z; reflexivity).
  rewrite Hstart. cbn [Math_ceil]. rewrite (Qceiling_comp _ _ (range_as_Z s e)).
  rewrite Qceiling_div by reflexivity.
  unfold trendLength. set (k := (e - s + msPerDay - 1) / msPerDay).
  assert (Hk : 0 <= k).
  { unfold k, msPerDay in *. Z.div_mod_to_equations. lia. }
  unfold ofZ. cbn [num_add]. unfold Math_max. cbn [num_le].
  assert (Hsum : (inject_Z k + inject_Z 1 == inject_Z (k + 1))%Q)
    by (rewrite inject_Z_plus; reflexivity).
  destruct (Qle_bool (inject_Z 1) (inject_Z k + inject_Z 1)) eqn:E.
  - cbn [iterations]. rewrite (Qceiling_comp _ _ Hsum), Qceiling_Z. reflexivity.
  - exfalso. apply Qle_bool_false_iff in E. rewrite Hsum, <- Zlt_Qlt in E. lia.
Qed.

(** The day key is that of the local calendar day. *)
Lemma formatDateKey_day (tz t1 t2 : Z) :
  localDay tz t1 = localDay tz t2 ->
  formatDateKey tz (mkDate t1) = formatDateKey tz (mkDate t2).
Proof.
  intros H. unfold formatDateKey, getFullYear, getMonth, getDate. rewrite H. reflexivity.
Qed.

(** X19.  The trend without a usable semester.  When the semester lacks an
    endpoint, has an invalid one, or spans less than 7 days from start to
    end, the series runs from the earliest to the latest date found among the
    submit times and deadlines: one point per day from the earliest date, the
    value of a point being the number of submissions made on its day, and
    every submission with a valid submit time falls on the day of one of the
    points.  With no such date the series is empty. *)
Theorem submissionTrend_default (tz : Z) (homeworks : list Homework) (semester : Semester) :
  let sh := submittedHomeworks homeworks in
  let series := submissionTrend tz homeworks semester in
  (candidateDates homeworks = [] -> series = []) /\
  (semesterUsable semester = false -> candidateDates homeworks <> [] ->
   exists a b,
     In (mkDate a) (candidateDates homeworks) /\
     In (mkDate b) (candidateDates homeworks) /\
     (forall t, In (mkDate t) (candidateDates homeworks) -> a <= t <= b) /\
     List.map line_value series
     = List.map
         (fun i => countIf (onDay tz (formatDateKey tz (addDays (mkDate a) (Z.of_nat i)))) sh)
         (seq 0 (trendLength a b)) /\
     forall hw, In hw sh -> validSubmit hw = true ->
       exists i, (i < trendLength a b)%nat /\
                 dayKey tz hw = formatDateKey tz (addDays (mkDate a) (Z.of_nat i))).
Proof.
  intros sh series. split.
  - intros Hnil. unfold series, submissionTrend. rewrite Hnil. reflexivity.
  - intros Huse Hne.
    destruct (candidate_range homeworks Hne) as [a [b [Ha [Hb [Hina [Hinb Hrange]]]]]].
    exists a, b. split; [exact Hina|]. split; [exact Hinb|]. split; [exact Hrange|].
    assert (Hab : a <= b) by (destruct (Hrange a Hina); assumption).
    assert (Hwin : trendWindow homeworks semester = (ofZ a, ofZ b))
      by (rewrite (trendWindow_default homeworks semester Huse), Ha, Hb; reflexivity).
    split.
    + unfold series. rewrite (trend_series tz homeworks semester a b Hne Hwin Hab).
      rewrite List.map_map. apply map_ext. intros i.
      unfold trendPoint. cbn [line_value]. apply countByDay_count.
    + intros hw Hhw Hvalid.
      destruct (valid_submit_time hw Hvalid) as [t Ht].
      assert (Hin : In (mkDate t) (candidateDates homeworks)).
      { unfold candidateDates. apply List.filter_In. split; [|reflexivity].
        apply in_app_iff. left. apply in_map_iff. exists hw. split; [|exact Hhw].
        unfold submitDate. rewrite Ht. reflexivity. }
      destruct (Hrange t Hin) as [Hat Htb].
      exists (Z.to_nat (localDay tz t - localDay tz a)).
      assert (Hday : 0 <= localDay tz t - localDay tz a <= (b - a + msPerDay - 1) / msPerDay).
      { unfold localDay, msPerDay. Z.div_mod_to_equations. lia. }
      split.
      * unfold trendLength. lia.
      * unfold dayKey, submitDate. rewrite Ht. cbn [addDays].
        apply formatDateKey_day. rewrite Z2Nat.id by lia.
        unfold localDay, msPerDay. Z.div_mod_to_equations. lia.
Qed.

(** ** The overdue bar and the late rate *)

Lemma countIf_or_disjoint {A : Type} (p q : A -> bool) (l : list A) :
  (forall x, p x = true -> q x = false) ->
  countIf (fun x => p x || q x) l = (countIf p l + countIf q l)%nat.
Proof.
  intros H. unfold countIf. induction l as [|x l IH]; [reflexivity|].
  cbn [List.filter]. destruct (p x) eqn:Ep; cbn [orb].
  - rewrite (H x Ep). cbn [length]. lia.
  - destruct (q x); cbn [length]; lia.
Qed.

Lemma countIf_map {A B : Type} (f : A -> B) (p : B -> bool) (l : list A) :
  length (List.filter p (List.map f l)) = countIf (fun x => p (f x)) l.
Proof.
  unfold countIf. induction l as [|x l IH]; [reflexivity|].
  cbn [List.map List.filter]. destruct (p (f x)); cbn [length]; rewrite IH; reflexivity.
Qed.

(** A lag is in the overdue bucket when the record is late or was handed in
    at the deadline. *)
Lemma overdue_late_or_at_deadline (hw : Homework) :
  isSome (deadline hw) && inBucket (lag hw) (mkBucket "逾期" NegInfinity (ofZ 0))
  = isLate hw || atDeadline hw.
Proof.
  unfold lag, isLate, atDeadline, submitTimeValue.
  destruct (deadline hw) as [[d|]|], (submitTime hw) as [[t|]|]; try reflexivity.
  cbn [isSome andb getTime]. unfold inBucket, diffHoursOf, num_sub, num_gt, ofZ.
  cbn [min max num_opp num_add num_lt num_strict_eq].
  unfold num_div. change (Qeq_bool (inject_Z msPerHour) 0) with false. cbn iota.
  cbn [num_lt num_le andb].
  rewrite Zlt_Qlt_bool.
  assert (Hq : ((inject_Z d + - inject_Z t) / inject_Z msPerHour
                == inject_Z (d - t) / inject_Z msPerHour)%Q).
  { unfold Z.sub. rewrite inject_Z_plus, inject_Z_opp. reflexivity. }
  assert (Hd : (0 < inject_Z msPerHour)%Q) by reflexivity.
  destruct (d <? t) eqn:Elt; cbn [orb].
  - apply Z.ltb_lt in Elt. apply Qle_bool_iff. rewrite Hq.
    apply Qle_shift_div_r; [exact Hd|]. rewrite Qmult_0_l.
    change 0%Q with (inject_Z 0). rewrite <- Zle_Qle. lia.
  - apply Z.ltb_ge in Elt. destruct (Qeq_bool (inject_Z t) (inject_Z d)) eqn:Eeq.
    + apply Qeq_bool_iff in Eeq. apply (proj1 (inject_Z_injective t d)) in Eeq.
      apply Qle_bool_iff. rewrite Hq.
      apply Qle_shift_div_r; [exact Hd|]. rewrite Qmult_0_l.
      change 0%Q with (inject_Z 0). rewrite <- Zle_Qle. lia.
    + apply Qle_bool_false_iff. rewrite Hq.
      apply Qlt_shift_div_l; [exact Hd|]. rewrite Qmult_0_l.
      change 0%Q with (inject_Z 0). rewrite <- Zlt_Qlt.
      assert (t <> d).
      { intros ->. rewrite Qeq_bool_refl in Eeq. discriminate. }
      lia.
Qed.

(** X20.  The overdue bar against the late rate.  The first bar of the lag
    histogram counts the late submissions and also those handed in at the
    very instant of the deadline; the late rate counts only the late ones. *)
Theorem overdue_bar_counts_on_time (homeworks : list Homework) :
  let sh := submittedHomeworks homeworks in
  submissionLagBuckets homeworks !! 0%nat
  = Some (mkBarItem "逾期" (countIf isLate sh + countIf atDeadline sh)) /\
  lateRate homeworks
  = (if Nat.eqb (length sh) 0 then ofZ 0
     else num_div (ofNat (countIf isLate sh)) (ofNat (length sh))).
Proof.
  intros sh. split; [|reflexivity].
  unfold submissionLagBuckets. fold sh. rewrite lagCounts_tally.
  rewrite (tally_counts lagBuckets _ lagBuckets_disjoint).
  unfold bucketItems. rewrite list_lookup_imap.
  cbn [lagBuckets lookup list_lookup fmap option_fmap option_map List.map label default].
  f_equal. f_equal. unfold hits. rewrite countIf_map, countIf_filter.
  rewrite <- (countIf_or_disjoint isLate atDeadline sh).
  - apply countIf_ext_in. intros hw _. apply overdue_late_or_at_deadline.
  - intros hw. unfold isLate, atDeadline, submitTimeValue.
    destruct (deadline hw) as [[d|]|]; try discriminate.
    destruct (submitTime hw) as [[t|]|]; try discriminate.
    cbn [getTime]. unfold num_gt, ofZ. cbn [num_lt num_strict_eq].
    rewrite Zlt_Qlt_bool. intros H. apply Z.ltb_lt in H.
    destruct (Qeq_bool (inject_Z t) (inject_Z d)) eqn:E; [|reflexivity].
    apply Qeq_bool_iff in E. apply (proj1 (inject_Z_injective t d)) in E. lia.
Qed.

(** ** The further statements at sample records *)

Lemma recentSubmissions_latest_witness :
  List.Forall (fun hw => validDate (submitDate hw) = true)
    (submittedHomeworks [sundaySubmission; marchSubmission]) /\
  StronglySorted (fun a b => submitMs b <= submitMs a)
    (recentSubmissions [sundaySubmission; marchSubmission]).
Proof.
  assert (H : List.Forall (fun hw => validDate (submitDate hw) = true)
                (submittedHomeworks [sundaySubmission; marchSubmission])).
  { constructor; [reflexivity|]. constructor; [reflexivity | constructor]. }
  split; [exact H|].
  exact (proj1 (proj2 (recentSubmissions_latest [sundaySubmission; marchSubmission]) H)).
Defined.

Lemma timeStats_median_witness :
  List.Forall (fun v => isFinite v = true) [Num 3; Num 1; Num 2] /\
  [Num 3; Num 1; Num 2] <> [] /\
  exists a m,
    timeStats [Num 3; Num 1; Num 2] = Some (mkTimeStats (Num a) (Num m)) /\
    In (Num m) [Num 3; Num 1; Num 2].
Proof.
  assert (H : List.Forall (fun v => isFinite v = true) [Num 3; Num 1; Num 2]).
  { constructor; [reflexivity|]. constructor; [reflexivity|].
    constructor; [reflexivity | constructor]. }
  assert (Hne : [Num 3; Num 1; Num 2] <> []) by discriminate.
  split; [exact H|]. split; [exact Hne|].
  destruct (proj2 (timeStats_median [Num 3; Num 1; Num 2]) H Hne) as [a [m [E [Hin _]]]].
  exists a, m. split; [exact E | exact Hin].
Defined.

Lemma weeklyHourHeatmap_grid_witness :
  submittedHomeworks [sundaySubmission] <> [] /\
  List.Forall (fun hw => validSubmit hw = true) (submittedHomeworks [sundaySubmission]) /\
  exists hm,
    weeklyHourHeatmap tzBeijing [sundaySubmission] = Returned hm /\
    length (heat_rows hm) = 7%nat.
Proof.
  assert (Hne : submittedHomeworks [sundaySubmission] <> []) by discriminate.
  assert (H : List.Forall (fun hw => validSubmit hw = true)
                (submittedHomeworks [sundaySubmission])).
  { constructor; [reflexivity | constructor]. }
  split; [exact Hne|]. split; [exact H|].
  destruct (weeklyHourHeatmap_grid tzBeijing [sundaySubmission] Hne H) as [hm [E [L _]]].
  exists hm. split; [exact E | exact L].
Defined.



Lemma calendar_cells_max_labels_witness :
  submittedHomeworks [sundaySubmission] <> [] /\
  weekLabels (calendarHeatmap tzBeijing [sundaySubmission])
  = List.map (monthLabel tzBeijing (calendarStart tzBeijing (submittedHomeworks [sundaySubmission])))
      (seq 0 16).
Proof.
  assert (Hne : submittedHomeworks [sundaySubmission] <> []) by discriminate.
  split; [exact Hne|].
  exact (proj2 (proj2 (calendar_cells_max_labels tzBeijing [sundaySubmission] Hne))).
Defined.

Lemma submissionTrend_default_witness :
  semesterUsable (mkSemester None None) = false /\
  candidateDates [sundaySubmission; marchSubmission] <> [] /\
  exists a b,
    In (mkDate a) (candidateDates [sundaySubmission; marchSubmission]) /\
    In (mkDate b) (candidateDates [sundaySubmission; marchSubmission]) /\
    List.map line_value
      (submissionTrend tzBeijing [sundaySubmission; marchSubmission] (mkSemester None None))
    = List.map
        (fun i =>
           countIf (onDay tzBeijing (formatDateKey tzBeijing (addDays (mkDate a) (Z.of_nat i))))
             (submittedHomeworks [sundaySubmission; marchSubmission]))
        (seq 0 (trendLength a b)).
Proof.
  assert (Huse : semesterUsable (mkSemester None None) = false) by reflexivity.
  assert (Hne : candidateDates [sundaySubmission; marchSubmission] <> []) by discriminate.
  split; [exact Huse|]. split; [exact Hne|].
  destruct (proj2 (submissionTrend_default tzBeijing [sundaySubmission; marchSubmission]
                     (mkSemester None None)) Huse Hne)
    as [a [b [Ha [Hb [_ [Hseries _]]]]]].
  exists a, b. split; [exact Ha|]. split; [exact Hb | exact Hseries].
Defined.
